(** * XrayR, package [vpnboard]: the panel client

    A shallow embedding of [api/vpnboard/model.go] (the wire types and the
    [APIClient] with its fetch, parse and normalize operations), followed by
    the properties of the design document that concern it.

    Conventions.
    - Go's [int], [int64], [uint64] and [uint32] are [Z]; every place where
      the source wraps around (a product, a conversion) writes the wrap out.
    - Go's [float64] is [spec_float] at precision 53 and [emax] 1024, with
      the IEEE operations of [SpecFloat].
    - Go's [string] is [string] (a sequence of bytes).
    - [map[string]string] is [gmap string string]; reading a missing key
      gives the empty string, as in Go.
    - A Go function returning [(T, error)] returns [T + error] here: every
      such function of this package returns a nil value with a non-nil
      error and the other way round. *)

From Stdlib Require Import ZArith String Ascii List Bool Lia.
From Stdlib Require Import Floats.SpecFloat.
From stdpp Require Import base gmap strings list.

Open Scope Z_scope.

(** ** Machine integers

    [int] is 64 bits wide, as on the platforms the host is built for. *)

Module Int.
(** [int64(z)]: two's complement wrap-around of a mathematical integer. *)
Definition wrap_int64 (z : Z) : Z := (z + 2 ^ 63) mod 2 ^ 64 - 2 ^ 63.

(** [uint64(z)] and [uint32(z)]. *)
Definition wrap_uint64 (z : Z) : Z := z mod 2 ^ 64.
Definition wrap_uint32 (z : Z) : Z := z mod 2 ^ 32.

Definition in_int64 (z : Z) : Prop := - 2 ^ 63 <= z < 2 ^ 63.
Definition in_uint64 (z : Z) : Prop := 0 <= z < 2 ^ 64.

(** Multiplication and division as Go defines them: the product wraps,
    the quotient truncates toward zero. *)
Definition mul_int64 (a b : Z) : Z := wrap_int64 (a * b).
Definition div_int64 (a b : Z) : Z := wrap_int64 (Z.quot a b).
Definition mul_uint64 (a b : Z) : Z := wrap_uint64 (a * b).
Definition div_uint64 (a b : Z) : Z := Z.quot a b.
End Int.

(** ** float64 *)

Module Float64.
Definition prec : Z := 53.
Definition emax : Z := 1024.

Definition mul : spec_float -> spec_float -> spec_float := SFmul prec emax.
Definition div : spec_float -> spec_float -> spec_float := SFdiv prec emax.
Definition ltb : spec_float -> spec_float -> bool := SFltb.
Definition leb : spec_float -> spec_float -> bool := SFleb.

(** An untyped integer constant of the source used at type float64. *)
Definition const (n : Z) : spec_float := binary_normalize prec emax n 0 false.

(** The float64 nearest to [m * 2^e] (ties to even): how a value of the
    configuration file reads. *)
Definition of_scaled (m e : Z) : spec_float := binary_normalize prec emax m e false.

Definition valid (f : spec_float) : bool := valid_binary prec emax f.

(** The integer part of [m * 2^e]. *)
Definition trunc_mag (m : positive) (e : Z) : Z :=
  match e with
  | Z0 => Zpos m
  | Zpos p => Z.shiftl (Zpos m) (Zpos p)
  | Zneg p => Z.shiftr (Zpos m) (Zpos p)
  end.

Section Conversion.
(** What the platform yields when the truncated value has no uint64
    representation (the language leaves it to the implementation). *)
Variable unrepresentable : spec_float -> Z.

(** [uint64(f)] for a float64 [f]: the fraction is discarded. *)
Definition to_uint64 (f : spec_float) : Z :=
  match f with
  | S754_zero _ => 0
  | S754_finite false m e =>
      let t := trunc_mag m e in
      if t <? 2 ^ 64 then t else unrepresentable f
  | S754_finite true m e =>
      if trunc_mag m e =? 0 then 0 else unrepresentable f
  | S754_infinity _ | S754_nan => unrepresentable f
  end.
End Conversion.

(** The floor of [a * 2^t], for [a] not negative. *)
Definition dyadic_floor (a t : Z) : Z :=
  if 0 <=? t then a * 2 ^ t else a / 2 ^ (- t).

(** The operations of [SpecFloat] are the kernel's; these are the
    Standard Library's names for them. *)
Ltac std_Z :=
  change IntDef.Z.add with Z.add in *;
  change IntDef.Z.sub with Z.sub in *;
  change IntDef.Z.mul with Z.mul in *;
  change IntDef.Z.max with Z.max in *;
  change IntDef.Z.min with Z.min in *;
  change IntDef.Z.leb with Z.leb in *;
  change IntDef.Z.eqb with Z.eqb in *;
  change IntDef.Z.shiftl with Z.shiftl in *;
  change IntDef.Z.div_eucl with Z.div_eucl in *;
  change PosDef.Pos.mul with Pos.mul in *.
End Float64.

(** ** Package [api]: the host's canonical entities *)

Module api.
(** Modelled from the spec: the constants [api.NodeNotModified] and
    [api.UserNotModified], declared in package [api]; the spec calls them
    the distinguished [NotModified(resource)] condition, one per resource.
    Their text is not part of this package. *)
Inductive NotModified : Type := NodeNotModified | UserNotModified.

(** Modelled from the spec: the struct [api.NodeInfo], declared in package
    [api]; the fields are those the normalizer assigns, the ones it leaves
    out keep Go's zero value and are not listed. *)
Module NodeInfo.
Record t : Type := mk {
  NodeType : string;
  NodeID : Z;
  Port : Z;
  SpeedLimit : Z;
  TransportProtocol : string;
  Host : string;
  Path : string;
  EnableTLS : bool;
  EnableVless : bool;
  VlessFlow : string;
  ServiceName : string;
  CypherMethod : string;
  ServerKey : string
}.
End NodeInfo.

(** Modelled from the spec: the struct [api.UserInfo], declared in package
    [api]; the fields are those the normalizer assigns. A field the loop
    does not assign keeps the zero value of the composite literal ([Passwd]
    is the empty string then). *)
Module UserInfo.
Record t : Type := mk {
  UID : Z;
  UUID : string;
  Email : string;
  Passwd : string;
  SpeedLimit : Z;
  DeviceLimit : Z
}.
End UserInfo.

(** Modelled from the spec: the struct [api.DetectRule], declared in
    package [api]: an identifier and a compiled pattern. The type of
    compiled patterns is package regexp's. *)
Module DetectRule.
Record t (Regexp : Type) : Type := mk {
  ID : Z;
  Pattern : Regexp
}.
Arguments mk {Regexp} _ _.
Arguments ID {Regexp} _.
Arguments Pattern {Regexp} _.
End DetectRule.
End api.

(** ** Wire types (first part of model.go) *)

Module NodeInfoResponse.
Record t : Type := mk {
  Name : string;
  Remarks : string;
  Address : string;
  Port : Z;
  NodeOrder : Z;
  NodeSpeedLimit : Z;
  NodeType : string;
  EnableTLS : bool;
  Path : string;
  TransportProtocol : string;
  Host : string;
  ServiceName : string;
  EnableVless : bool;
  Method : string;
  ServerKey : string
}.
End NodeInfoResponse.

Module UserListResponseItem.
Record t : Type := mk {
  UID : Z;
  UUID : string;
  UserName : string;
  SpeedLimit : Z;
  DeviceLimit : Z
}.
End UserListResponseItem.

Module UserListResponse.
Record t : Type := mk { List : list UserListResponseItem.t }.
End UserListResponse.

(** [Response] is the common response (the envelope). *)
Module Response.
Record t : Type := mk {
  Code : Z;
  Msg : string;
  Data : string
}.
End Response.

(** ** Errors

    A Go [error] of this package is made at one of three places: it is the
    error the HTTP client returned, or [errors.New] on a constant of package
    [api], or [fmt.Errorf] with a formatted text. *)
Inductive error : Type :=
| TransportError (text : string)
| ErrorsNew (c : api.NotModified)
| Errorf (text : string).

(** The text of an error, as [%s] and [%v] print it. The text of the two
    constants of package [api] is that package's. *)
Section ErrorText.
Variable api_text : api.NotModified -> string.

Definition Error (e : error) : string :=
  match e with
  | TransportError text => text
  | ErrorsNew c => api_text c
  | Errorf text => text
  end.

(** [%v] of a value of type [error], which may be nil. *)
Definition format_v (err : option error) : string :=
  match err with
  | None => "<nil>"
  | Some e => Error e
  end.
End ErrorText.

(** ** The HTTP client (package resty), as far as this package uses it *)

Module http.
Definition is_lower (c : ascii) : bool :=
  let n := N_of_ascii c in ((97 <=? n) && (n <=? 122))%N.
Definition is_upper (c : ascii) : bool :=
  let n := N_of_ascii c in ((65 <=? n) && (n <=? 90))%N.
Definition to_upper (c : ascii) : ascii :=
  if is_lower c then ascii_of_N (N_of_ascii c - 32) else c.
Definition to_lower (c : ascii) : ascii :=
  if is_upper c then ascii_of_N (N_of_ascii c + 32) else c.

(** [textproto.CanonicalMIMEHeaderKey] on a key made of letters, digits
    and hyphens (all the keys this package passes): the first letter and
    every letter after a hyphen in upper case, the others in lower case. *)
Fixpoint canonical (upper : bool) (key : string) : string :=
  match key with
  | EmptyString => EmptyString
  | String c rest =>
      let c' := if upper then to_upper c else to_lower c in
      String c' (canonical (Ascii.eqb c' "-") rest)
  end.

Definition CanonicalMIMEHeaderKey (key : string) : string := canonical true key.

(** A header: canonical key to (first) value. *)
Definition Header_Get (h : gmap string string) (key : string) : string :=
  default EmptyString (h !! CanonicalMIMEHeaderKey key).
End http.

Module resty.
(** The request this package builds: [SetBody(map{"node_id": ...})],
    [SetHeader("If-None-Match", ...)] and [Post(path)]. *)
Module Request.
Record t : Type := mk {
  Path : string;
  node_id : Z;
  If_None_Match : string
}.
End Request.

(** What this package reads off a [*resty.Response]: [StatusCode()],
    [Header()], [Body()] and [Result()], the last one at the type given to
    [SetResult], the envelope. The record leaves the four independent. The
    library is narrower: it decodes the body into the envelope for a status
    from 200 to 299 only and leaves the empty envelope given to [SetResult]
    otherwise, and a status below 200 does not reach the caller. What is
    proved for every response holds for the library's. *)
Module Response.
Record t : Type := mk {
  StatusCode : Z;
  Header : gmap string string;
  Body : string;
  Result : Response.t
}.
End Response.

(** [Post] returns a response and an error; the panel and the network
    decide which. *)
Definition Transport : Type := Request.t -> Response.t * option string.
End resty.

(** ** APIClient

    The fields the operations below read or write. [client] is the
    transport, passed to each operation; [access] and [version] are never
    used, [LocalRuleList] is the result of [readLocalRuleList] below. *)
Module APIClient.
Record t : Type := mk {
  APIHost : string;
  NodeID : Z;
  Key : string;
  NodeType : string;
  EnableVless : bool;
  VlessFlow : string;
  SpeedLimit : spec_float;
  DeviceLimit : Z;
  DisableCustomConfig : bool;
  eTags : gmap string string
}.

(** [c.eTags[k]]: a missing key reads as the empty string. *)
Definition eTag (c : t) (k : string) : string := default EmptyString (eTags c !! k).

(** [c.eTags[k] = v]. *)
Definition set_eTag (c : t) (k v : string) : t :=
  mk (APIHost c) (NodeID c) (Key c) (NodeType c) (EnableVless c) (VlessFlow c)
     (SpeedLimit c) (DeviceLimit c) (DisableCustomConfig c) (<[k := v]> (eTags c)).
End APIClient.

(** What a call leaves behind: its return value, the client (whose
    [eTags] it may have written) and the requests it sent, in order, one
    per call of [Post] (retries are the transport's own). *)
Module Outcome.
Record t (A : Type) : Type := mk {
  ret : A + error;
  client : APIClient.t;
  requests : list resty.Request.t
}.
Arguments mk {A} _ _ _.
Arguments ret {A} _.
Arguments client {A} _.
Arguments requests {A} _.
End Outcome.

(** ** Regular expressions (package regexp), as far as this package uses them

    The syntax tree of a pattern, what it means for a text to match it, and
    a matcher by derivatives. Texts are sequences of bytes; a class lists
    byte ranges, so a byte above 127 (part of a multi-byte rune) is in no
    class of the patterns below, as no such rune is in an ASCII class. *)
Module regexp.
Definition class : Type := list (ascii * ascii).

Definition in_range (c : ascii) (r : ascii * ascii) : bool :=
  ((N_of_ascii (fst r) <=? N_of_ascii c) && (N_of_ascii c <=? N_of_ascii (snd r)))%N.

Definition in_class (cls : class) (c : ascii) : bool := existsb (in_range c) cls.

Inductive syntax : Type :=
| NoMatch
| EmptyMatch
| CharClass (cls : class)
| Concat (r1 r2 : syntax)
| Alternate (r1 r2 : syntax)
| Star (r : syntax).

(** [c], [r+] and [r{n,}]. *)
Definition Literal (c : ascii) : syntax := CharClass [(c, c)].
Definition Plus (r : syntax) : syntax := Concat r (Star r).
Fixpoint Repeat_min (n : nat) (r : syntax) : syntax :=
  match n with
  | O => Star r
  | S k => Concat r (Repeat_min k r)
  end.

(** The whole text is in the language of the pattern. *)
Inductive Matches : syntax -> string -> Prop :=
| M_EmptyMatch : Matches EmptyMatch EmptyString
| M_CharClass cls c :
    in_class cls c = true -> Matches (CharClass cls) (String c EmptyString)
| M_Concat r1 r2 s1 s2 :
    Matches r1 s1 -> Matches r2 s2 -> Matches (Concat r1 r2) (s1 +:+ s2)
| M_Alternate_l r1 r2 s : Matches r1 s -> Matches (Alternate r1 r2) s
| M_Alternate_r r1 r2 s : Matches r2 s -> Matches (Alternate r1 r2) s
| M_Star_nil r : Matches (Star r) EmptyString
| M_Star_app r s1 s2 :
    Matches r s1 -> Matches (Star r) s2 -> Matches (Star r) (s1 +:+ s2).

Fixpoint nullable (r : syntax) : bool :=
  match r with
  | NoMatch => false
  | EmptyMatch => true
  | CharClass _ => false
  | Concat r1 r2 => nullable r1 && nullable r2
  | Alternate r1 r2 => nullable r1 || nullable r2
  | Star _ => true
  end.

Fixpoint deriv (c : ascii) (r : syntax) : syntax :=
  match r with
  | NoMatch => NoMatch
  | EmptyMatch => NoMatch
  | CharClass cls => if in_class cls c then EmptyMatch else NoMatch
  | Concat r1 r2 =>
      if nullable r1
      then Alternate (Concat (deriv c r1) r2) (deriv c r2)
      else Concat (deriv c r1) r2
  | Alternate r1 r2 => Alternate (deriv c r1) (deriv c r2)
  | Star r1 => Concat (deriv c r1) (Star r1)
  end.

(** [re.MatchString(s)] for a pattern anchored at both ends ([^...$],
    no flags: [^] is the start and [$] the end of the text). *)
Fixpoint MatchString (r : syntax) (s : string) : bool :=
  match s with
  | EmptyString => nullable r
  | String c rest => MatchString (deriv c r) rest
  end.
End regexp.

(** Every byte of a text satisfies [p]. *)
Fixpoint string_forallb (p : ascii -> bool) (s : string) : bool :=
  match s with
  | EmptyString => true
  | String c rest => p c && string_forallb p rest
  end.

(** ** isEmailFormat *)

(** The three bracket expressions of [emailPattern]. *)
Definition class_local : regexp.class :=
  [("a", "z"); ("A", "Z"); ("0", "9"); (".", "."); ("_", "_"); ("%", "%");
   ("+", "+"); ("-", "-")]%char.
Definition class_domain : regexp.class :=
  [("a", "z"); ("A", "Z"); ("0", "9"); (".", "."); ("-", "-")]%char.
Definition class_alpha : regexp.class :=
  [("a", "z"); ("A", "Z")]%char.

(** [^[a-zA-Z0-9._%+-]+@[a-zA-Z0-9.-]+\.[a-zA-Z]{2,}$] *)
Definition emailPattern : regexp.syntax :=
  regexp.Concat (regexp.Plus (regexp.CharClass class_local))
    (regexp.Concat (regexp.Literal "@")
       (regexp.Concat (regexp.Plus (regexp.CharClass class_domain))
          (regexp.Concat (regexp.Literal ".")
             (regexp.Repeat_min 2 (regexp.CharClass class_alpha))))).

Definition isEmailFormat (email : string) : bool :=
  regexp.MatchString emailPattern email.

(** ** The email grammar, in the words of the design document

    A local part over ASCII letters, digits and [._%+-], then [@], then a
    domain (letters, digits, dots and hyphens), then a dot, then a top-level
    domain of at least two letters. *)
Module EmailGrammar.
Definition ascii_letter (c : ascii) : bool :=
  let n := N_of_ascii c in
  (((65 <=? n) && (n <=? 90)) || ((97 <=? n) && (n <=? 122)))%N.

Definition ascii_digit (c : ascii) : bool :=
  let n := N_of_ascii c in ((48 <=? n) && (n <=? 57))%N.

Definition one_of (chars : string) (c : ascii) : bool :=
  existsb (Ascii.eqb c) (list_ascii_of_string chars).

Definition local_char (c : ascii) : bool :=
  ascii_letter c || ascii_digit c || one_of "._%+-" c.

Definition domain_char (c : ascii) : bool :=
  ascii_letter c || ascii_digit c || one_of ".-" c.

Definition is_email (s : string) : Prop :=
  exists local domain tld : string,
    s = local +:+ "@" +:+ domain +:+ "." +:+ tld
    /\ local <> EmptyString /\ string_forallb local_char local = true
    /\ domain <> EmptyString /\ string_forallb domain_char domain = true
    /\ (2 <= String.length tld)%nat /\ string_forallb ascii_letter tld = true.
End EmailGrammar.

(** ** The operations of [APIClient] *)

Definition newline : string := String (ascii_of_nat 10) EmptyString.

(** [uint64((nodeInfoResponse.NodeSpeedLimit * 1000000) / 8)], the
    operand an int64. *)
Definition panel_node_speed_limit (NodeSpeedLimit : Z) : Z :=
  Int.wrap_uint64 (Int.div_int64 (Int.mul_int64 NodeSpeedLimit 1000000) 8).

(** [users[i].SpeedLimit * 1000000 / 8], the operand a uint64. *)
Definition panel_user_speed_limit (SpeedLimit : Z) : Z :=
  Int.div_uint64 (Int.mul_uint64 SpeedLimit 1000000) 8.

(** [floor(mbps * 1_000_000 / 8)], in the words of the design document,
    for [mbps = m * 2^e] with [m] not negative (an integer when [e] is 0). *)
Definition Bps_floor (m e : Z) : Z :=
  match e with
  | Zneg p => (m * 1000000) / (8 * 2 ^ Zpos p)
  | _ => (m * 2 ^ e * 1000000) / 8
  end.

(** The requests of the two fetches: the path, the body
    [{"node_id": uint(c.NodeID)}] and the stored token of the resource in
    the header [If-None-Match]. *)
Definition GetNodeInfo_request (c : APIClient.t) : resty.Request.t :=
  resty.Request.mk "/api/public/xrayr/node/info" (Int.wrap_uint64 (APIClient.NodeID c))
    (APIClient.eTag c "node").

Definition GetUserList_request (c : APIClient.t) : resty.Request.t :=
  resty.Request.mk "/api/public/xrayr/user/list" (Int.wrap_uint64 (APIClient.NodeID c))
    (APIClient.eTag c "users").

Section Client.
(** [uint64(f)] where [f] has no uint64 representation. *)
Variable unrepresentable : spec_float -> Z.
(** The text of the constants of package [api]. *)
Variable api_text : api.NotModified -> string.
(** [json.Marshal] and [json.Unmarshal] at the types this package uses;
    a failed [Unmarshal] gives the text of its error. *)
Variable json_Marshal_Response : Response.t -> string.
Variable json_Marshal_NodeInfoResponse : NodeInfoResponse.t -> string.
Variable json_Unmarshal_NodeInfoResponse : string -> NodeInfoResponse.t + string.
Variable json_Unmarshal_UserListResponse : string -> UserListResponse.t + string.

Definition assembleURL (c : APIClient.t) (path : string) : string :=
  APIClient.APIHost c +:+ path.

Definition parseResponse (c : APIClient.t) (res : resty.Response.t) (path : string)
    (err : option error) : Response.t + error :=
  match err with
  | Some e =>
      inr (Errorf ("request " +:+ assembleURL c path +:+ " failed: " +:+ Error api_text e))
  | None =>
      if 400 <? resty.Response.StatusCode res then
        let body := resty.Response.Body res in
        inr (Errorf ("request " +:+ assembleURL c path +:+ " failed: " +:+ body
                       +:+ ", " +:+ format_v api_text err))
      else
        let response := resty.Response.Result res in
        if negb (Response.Code response =? 0) then
          inr (Errorf ("ret " +:+ json_Marshal_Response response +:+ " invalid"))
        else inl response
  end.

(** [c.SpeedLimit * 1000000 / 8] at type float64, then [uint64(...)]. *)
Definition config_speed_limit (c : APIClient.t) : Z :=
  Float64.to_uint64 unrepresentable
    (Float64.div (Float64.mul (APIClient.SpeedLimit c) (Float64.const 1000000))
       (Float64.const 8)).

Definition parseNodeInfo (c : APIClient.t) (nodeInfoResponse : NodeInfoResponse.t)
    : api.NodeInfo.t + error :=
  let speedLimit :=
    if Float64.ltb (Float64.const 0) (APIClient.SpeedLimit c) then
      config_speed_limit c
    else panel_node_speed_limit (NodeInfoResponse.NodeSpeedLimit nodeInfoResponse) in
  inl (api.NodeInfo.mk
         (NodeInfoResponse.NodeType nodeInfoResponse)
         (APIClient.NodeID c)
         (Int.wrap_uint32 (NodeInfoResponse.Port nodeInfoResponse))
         speedLimit
         (NodeInfoResponse.TransportProtocol nodeInfoResponse)
         (NodeInfoResponse.Host nodeInfoResponse)
         (NodeInfoResponse.Path nodeInfoResponse)
         (NodeInfoResponse.EnableTLS nodeInfoResponse)
         (NodeInfoResponse.EnableVless nodeInfoResponse)
         (APIClient.VlessFlow c)
         (NodeInfoResponse.ServiceName nodeInfoResponse)
         (NodeInfoResponse.Method nodeInfoResponse)
         (NodeInfoResponse.ServerKey nodeInfoResponse)).

(** The token update both fetches make after the 304 test:
    [if h != "" && h != c.eTags[k] { c.eTags[k] = h }]. *)
Definition update_eTag (c : APIClient.t) (k h : string) : APIClient.t :=
  if negb (String.eqb h EmptyString) && negb (String.eqb h (APIClient.eTag c k))
  then APIClient.set_eTag c k h
  else c.

Definition GetNodeInfo (Post : resty.Transport) (c : APIClient.t)
    : Outcome.t api.NodeInfo.t :=
  let path := "/api/public/xrayr/node/info" in
  let req := GetNodeInfo_request c in
  let res := fst (Post req) in
  let err := option_map TransportError (snd (Post req)) in
  match err with
  | Some e => Outcome.mk (inr e) c [req]
  | None =>
      if resty.Response.StatusCode res =? 304 then
        Outcome.mk (inr (ErrorsNew api.NodeNotModified)) c [req]
      else
        let c := update_eTag c "node" (http.Header_Get (resty.Response.Header res) "ETag") in
        match parseResponse c res path err with
        | inr e => Outcome.mk (inr e) c [req]
        | inl response =>
            match json_Unmarshal_NodeInfoResponse (Response.Data response) with
            | inr e =>
                Outcome.mk
                  (inr (Errorf ("unmarshal " +:+ "*vpnboard.NodeInfoResponse"
                                  +:+ " failed: " +:+ e))) c [req]
            | inl nodeInfoResponse =>
                match parseNodeInfo c nodeInfoResponse with
                | inr e =>
                    Outcome.mk
                      (inr (Errorf ("parse node info failed: "
                                      +:+ json_Marshal_NodeInfoResponse nodeInfoResponse
                                      +:+ ", " +:+ newline +:+ "Error: "
                                      +:+ Error api_text e))) c [req]
                | inl nodeInfo => Outcome.mk (inl nodeInfo) c [req]
                end
            end
        end
  end.

(** The [switch] on [c.NodeType] at the head of [GetUserList]. *)
Definition supported_node_type (t : string) : bool :=
  String.eqb t "V2ray" || String.eqb t "Trojan" || String.eqb t "Shadowsocks"
  || String.eqb t "Vmess" || String.eqb t "Vless".

(** The body of the loop of [GetUserList]: the record built for
    [users[i]]. *)
Definition GetUserList_user (c : APIClient.t) (user : UserListResponseItem.t)
    : api.UserInfo.t :=
  let speedLimit :=
    if Float64.ltb (Float64.const 0) (APIClient.SpeedLimit c) then
      config_speed_limit c
    else panel_user_speed_limit (UserListResponseItem.SpeedLimit user) in
  let deviceLimit :=
    if 0 <? APIClient.DeviceLimit c then APIClient.DeviceLimit c
    else UserListResponseItem.DeviceLimit user in
  let email :=
    if isEmailFormat (UserListResponseItem.UserName user) then
      UserListResponseItem.UserName user
    else UserListResponseItem.UserName user +:+ "@vpnboard.user" in
  let passwd :=
    if String.eqb (APIClient.NodeType c) "Shadowsocks" then UserListResponseItem.UUID user
    else EmptyString in
  api.UserInfo.mk (UserListResponseItem.UID user) (UserListResponseItem.UUID user)
    email passwd speedLimit deviceLimit.

(** The list is also printed to the standard output, which the model
    leaves out. *)
Definition GetUserList (Post : resty.Transport) (c : APIClient.t)
    : Outcome.t (list api.UserInfo.t) :=
  let path := "/api/public/xrayr/user/list" in
  if negb (supported_node_type (APIClient.NodeType c)) then
    Outcome.mk (inr (Errorf ("unsupported node type: " +:+ APIClient.NodeType c))) c []
  else
    let req := GetUserList_request c in
    let res := fst (Post req) in
    let err := option_map TransportError (snd (Post req)) in
    match err with
    | Some e => Outcome.mk (inr e) c [req]
    | None =>
        if resty.Response.StatusCode res =? 304 then
          Outcome.mk (inr (ErrorsNew api.UserNotModified)) c [req]
        else
          let c := update_eTag c "users" (http.Header_Get (resty.Response.Header res) "Etag") in
          match parseResponse c res path err with
          | inr e => Outcome.mk (inr e) c [req]
          | inl response =>
              match json_Unmarshal_UserListResponse (Response.Data response) with
              | inr e =>
                  Outcome.mk
                    (inr (Errorf ("unmarshal " +:+ "*vpnboard.UserListResponse"
                                    +:+ " failed: " +:+ e))) c [req]
              | inl userListResponse =>
                  let users := UserListResponse.List userListResponse in
                  Outcome.mk (inl (map (GetUserList_user c) users)) c [req]
              end
          end
    end.

(** [user] is a record of the panel's user list and [u] the record
    [GetUserList] returned for it: the call got the response [res], decoded
    its payload, and returned [l]; [user] and [u] stand at the same index. *)
Definition normalizes (Post : resty.Transport) (c : APIClient.t)
    (user : UserListResponseItem.t) (u : api.UserInfo.t) : Prop :=
  exists res payload l (i : nat),
    Post (GetUserList_request c) = (res, None)
    /\ json_Unmarshal_UserListResponse (Response.Data (resty.Response.Result res))
       = inl payload
    /\ Outcome.ret (GetUserList Post c) = inl l
    /\ UserListResponse.List payload !! i = Some user
    /\ l !! i = Some u.
End Client.

(** ** readLocalRuleList

    The file system and the line scanner it reads through. *)
Module os.
(** An opened file: the bytes a reader gets out of it, the error that
    ends the reading (none: end of file) and the error of [Close]. *)
Module File.
Record t : Type := mk {
  data : string;
  read_err : option string;
  close_err : option string
}.
End File.

(** The text of [os.ErrInvalid], what [Close] returns on a nil file. *)
Definition ErrInvalid : string := "invalid argument".
End os.

Module bufio.
Definition MaxScanTokenSize : Z := 64 * 1024.
Definition ErrTooLong : string := "bufio.Scanner: token too long".

(** [dropCR]: a line without its trailing carriage return. *)
Fixpoint dropCR (line : string) : string :=
  match line with
  | EmptyString => EmptyString
  | String c EmptyString => if Ascii.eqb c (ascii_of_nat 13) then EmptyString else line
  | String c rest => String c (dropCR rest)
  end.

(** A scanner with the default split function [ScanLines] run to its
    end over [data]: the tokens in order and the error that stopped it, if
    any. [line] is the part of the current line read so far. A line ends
    at a newline or at the end of the data; an empty rest at the end is no
    line; a line that does not fit the buffer stops the scanner. *)
Fixpoint scan_from (data line : string) : list string * option string :=
  match data with
  | EmptyString =>
      if String.eqb line EmptyString then ([], None)
      else if Z.of_nat (String.length line) <? MaxScanTokenSize then ([dropCR line], None)
      else ([], Some ErrTooLong)
  | String c rest =>
      if Ascii.eqb c (ascii_of_nat 10) then
        if Z.of_nat (String.length line) <? MaxScanTokenSize then
          let '(tokens, err) := scan_from rest EmptyString in
          (dropCR line :: tokens, err)
        else ([], Some ErrTooLong)
      else scan_from rest (line +:+ String c EmptyString)
  end.

(** The lines of a text, in the words of the design document: the
    pieces between newlines; an empty rest after the last newline is no
    line. *)
Fixpoint split_lines (data : string) : list string :=
  match data with
  | EmptyString => []
  | String c rest =>
      if Ascii.eqb c (ascii_of_nat 10) then EmptyString :: split_lines rest
      else match split_lines rest with
           | [] => [String c EmptyString]
           | line :: lines => String c line :: lines
           end
  end.

(** A line the scanner's buffer holds. *)
Definition fits (line : string) : Prop :=
  Z.of_nat (String.length line) < MaxScanTokenSize.

(** All the calls of [Scan()] with their [Text()], then [Err()]: the
    error of the scanner itself, else the error of the reader. *)
Definition Scan (f : os.File.t) : list string * option string :=
  let '(tokens, err) := scan_from (os.File.data f) EmptyString in
  (tokens, match err with Some e => Some e | None => os.File.read_err f end).
End bufio.

(** How a call ends: it returns, or [regexp.MustCompile] panics on a
    pattern with the compiler's error, or [log.Fatalf] ends the process. *)
Inductive ending (A : Type) : Type :=
| Returns (a : A)
| Panics (pattern err : string)
| Fatal.
Arguments Returns {A} _.
Arguments Panics {A} _ _.
Arguments Fatal {A}.

Section RuleLoader.
(** Compiled patterns, and [regexp.Compile]. *)
Variable Regexp : Type.
Variable regexp_Compile : string -> Regexp + string.
(** [os.Open]: the file, or the text of the error. *)
Variable os_Open : string -> os.File.t + string.

(** The loop over the scanner's tokens: one rule is appended per token;
    [MustCompile] panics on the first pattern that does not compile. *)
Fixpoint readLocalRuleList_loop (tokens : list string)
    (LocalRuleList : list (api.DetectRule.t Regexp))
    : ending (list (api.DetectRule.t Regexp)) :=
  match tokens with
  | [] => Returns LocalRuleList
  | text :: rest =>
      match regexp_Compile text with
      | inr e => Panics text e
      | inl re =>
          readLocalRuleList_loop rest (LocalRuleList ++ [api.DetectRule.mk (-1) re])
      end
  end.

(** [rule] is the rule of the line [text]: the id of local rules and
    the compiled text. *)
Definition rule_of_line (text : string) (rule : api.DetectRule.t Regexp) : Prop :=
  api.DetectRule.ID rule = -1 /\ regexp_Compile text = inl (api.DetectRule.Pattern rule).

(** The deferred [file.Close()]: what it logs. *)
Definition deferred_Close (file : option os.File.t) : list string :=
  let err := match file with
             | None => Some os.ErrInvalid
             | Some f => os.File.close_err f
             end in
  match err with
  | Some e => ["Error when closing file: " +:+ e]
  | None => []
  end.

(** The result and the lines logged, in order. *)
Definition readLocalRuleList (path : string)
    : ending (list (api.DetectRule.t Regexp)) * list string :=
  let LocalRuleList := [] in
  if negb (String.eqb path EmptyString) then
    match os_Open path with
    | inr err =>
        (Returns LocalRuleList,
         ["Error when opening file: " +:+ err] ++ deferred_Close None)
    | inl file =>
        let '(tokens, err) := bufio.Scan file in
        match readLocalRuleList_loop tokens LocalRuleList with
        | Panics pattern e => (Panics pattern e, deferred_Close (Some file))
        | Fatal => (Fatal, [])
        | Returns LocalRuleList =>
            match err with
            | Some e => (Fatal, ["Error while reading file: " +:+ e])
            | None => (Returns LocalRuleList, deferred_Close (Some file))
            end
        end
    end
  else (Returns LocalRuleList, []).
End RuleLoader.

(** ** The rest of [APIClient]: construction and the other operations *)

(** Modelled from the spec: the struct [api.Config], declared in package
    [api]: base URL, access key, numeric node identifier, node type, flow
    tag, speed-limit override (float, Mbps), device-limit override (integer),
    rule-file path, the flag disabling custom configuration, and the
    configurable timeout, a whole number of seconds ([New] compares it
    with 0 and converts it with [time.Duration(...)]). *)
Module Config.
Record t : Type := mk {
  APIHost : string;
  NodeID : Z;
  Key : string;
  NodeType : string;
  EnableVless : bool;
  VlessFlow : string;
  Timeout : Z;
  SpeedLimit : spec_float;
  DeviceLimit : Z;
  RuleListPath : string;
  DisableCustomConfig : bool
}.
End Config.

(** Modelled from the spec: the struct [api.ClientInfo], declared in
    package [api]: the read-only snapshot of host, node id, key and node
    type that [Describe] returns. *)
Module ClientInfo.
Record t : Type := mk {
  APIHost : string;
  NodeID : Z;
  Key : string;
  NodeType : string
}.
End ClientInfo.

(** The settings of the [*resty.Client] this package touches: the retry
    count, the timeout (a [time.Duration]: nanoseconds in an int64), the base
    URL and the debug flag. *)
Module restyClient.
Record t : Type := mk {
  RetryCount : Z;
  Timeout : Z;
  BaseURL : string;
  Debug : bool
}.

(** [SetDebug(true)]. *)
Definition SetDebug (cl : t) (d : bool) : t :=
  mk (RetryCount cl) (Timeout cl) (BaseURL cl) d.
End restyClient.

Module Duration.
(** [time.Second], in nanoseconds. *)
Definition Second : Z := 1000000000.
End Duration.

(** The whole [APIClient]: the fields the fetches use, the transport's
    settings, the local rules and the map [LastReportOnline]. *)
Module FullClient.
Record t (Regexp : Type) : Type := mk {
  fields : APIClient.t;
  client : restyClient.t;
  LocalRuleList : list (api.DetectRule.t Regexp);
  LastReportOnline : gmap Z Z
}.
Arguments mk {Regexp} _ _ _ _.
Arguments fields {Regexp} _.
Arguments client {Regexp} _.
Arguments LocalRuleList {Regexp} _.
Arguments LastReportOnline {Regexp} _.
End FullClient.

(** [Describe]. *)
Definition Describe (c : APIClient.t) : ClientInfo.t :=
  ClientInfo.mk (APIClient.APIHost c) (APIClient.NodeID c) (APIClient.Key c)
    (APIClient.NodeType c).

(** The four reports: [ReportNodeStatus], [ReportNodeOnlineUsers],
    [ReportUserTraffic] and [ReportIllegal] return the nil error, whatever
    they are given. *)
Definition ReportNodeStatus {NodeStatus : Type} (c : APIClient.t)
    (nodeStatus : NodeStatus) : option error := None.
Definition ReportNodeOnlineUsers {OnlineUser : Type} (c : APIClient.t)
    (onlineUser : list OnlineUser) : option error := None.
Definition ReportUserTraffic {UserTraffic : Type} (c : APIClient.t)
    (userTraffic : list UserTraffic) : option error := None.
Definition ReportIllegal {DetectResult : Type} (c : APIClient.t)
    (detectResultList : list DetectResult) : option error := None.

Section Construction.
Variable Regexp : Type.
Variable regexp_Compile : string -> Regexp + string.
Variable os_Open : string -> os.File.t + string.

(** [New]: the transport gets three retries, the configured timeout in
    seconds when that is above zero and five seconds otherwise, and the base
    URL; the rules are read from the configured path; the two maps start
    empty. (The error hook registered on the transport only logs.) The call
    ends as [readLocalRuleList] does. *)
Definition New (apiConfig : Config.t)
    : ending (FullClient.t Regexp) * list string :=
  let Timeout :=
    if 0 <? Config.Timeout apiConfig then
      Int.mul_int64 (Config.Timeout apiConfig) Duration.Second
    else 5 * Duration.Second in
  let client := restyClient.mk 3 Timeout (Config.APIHost apiConfig) false in
  let '(localRuleList, logs) :=
    readLocalRuleList Regexp regexp_Compile os_Open (Config.RuleListPath apiConfig) in
  match localRuleList with
  | Returns localRuleList =>
      (Returns
         (FullClient.mk
            (APIClient.mk (Config.APIHost apiConfig) (Config.NodeID apiConfig)
               (Config.Key apiConfig) (Config.NodeType apiConfig)
               (Config.EnableVless apiConfig) (Config.VlessFlow apiConfig)
               (Config.SpeedLimit apiConfig) (Config.DeviceLimit apiConfig)
               (Config.DisableCustomConfig apiConfig) ∅)
            client localRuleList ∅),
       logs)
  | Panics pattern e => (Panics pattern e, logs)
  | Fatal => (Fatal, logs)
  end.

(** [GetNodeRule]: the rules read at construction, and the nil error. *)
Definition GetNodeRule (c : FullClient.t Regexp)
    : list (api.DetectRule.t Regexp) + error :=
  inl (FullClient.LocalRuleList c).

(** [Debug]. *)
Definition Debug (c : FullClient.t Regexp) : FullClient.t Regexp :=
  FullClient.mk (FullClient.fields c) (restyClient.SetDebug (FullClient.client c) true)
    (FullClient.LocalRuleList c) (FullClient.LastReportOnline c).
End Construction.

(** ** Sessions

    The host calls the operations one after the other (the mutex [access]
    is never taken, so calls that overlap are outside this model); a session
    is the list of its calls, each fetch with the transport's answer to it. *)
Inductive call : Type :=
| Call_GetNodeInfo (Post : resty.Transport)
| Call_GetUserList (Post : resty.Transport)
| Call_GetNodeRule
| Call_ReportNodeStatus
| Call_ReportNodeOnlineUsers
| Call_ReportUserTraffic
| Call_ReportIllegal
| Call_Describe
| Call_Debug.

(** The calls that reach the panel. *)
Definition is_fetch (k : call) : bool :=
  match k with
  | Call_GetNodeInfo _ | Call_GetUserList _ => true
  | _ => false
  end.

Section Session.
Variable Regexp : Type.
Variable unrepresentable : spec_float -> Z.
Variable api_text : api.NotModified -> string.
Variable json_Marshal_Response : Response.t -> string.
Variable json_Marshal_NodeInfoResponse : NodeInfoResponse.t -> string.
Variable json_Unmarshal_NodeInfoResponse : string -> NodeInfoResponse.t + string.
Variable json_Unmarshal_UserListResponse : string -> UserListResponse.t + string.

(** One call: the client after it and the requests it sent. *)
Definition step (k : call) (c : FullClient.t Regexp)
    : FullClient.t Regexp * list resty.Request.t :=
  let with_fields f :=
    FullClient.mk f (FullClient.client c) (FullClient.LocalRuleList c)
      (FullClient.LastReportOnline c) in
  match k with
  | Call_GetNodeInfo Post =>
      let o := GetNodeInfo unrepresentable api_text json_Marshal_Response
                 json_Marshal_NodeInfoResponse json_Unmarshal_NodeInfoResponse
                 Post (FullClient.fields c) in
      (with_fields (Outcome.client o), Outcome.requests o)
  | Call_GetUserList Post =>
      let o := GetUserList unrepresentable api_text json_Marshal_Response
                 json_Unmarshal_UserListResponse Post (FullClient.fields c) in
      (with_fields (Outcome.client o), Outcome.requests o)
  | Call_Debug => (Debug Regexp c, [])
  | Call_GetNodeRule | Call_ReportNodeStatus | Call_ReportNodeOnlineUsers
  | Call_ReportUserTraffic | Call_ReportIllegal | Call_Describe => (c, [])
  end.

(** A session: the client after the last call and all the requests
    sent, in order. *)
Fixpoint run (calls : list call) (c : FullClient.t Regexp)
    : FullClient.t Regexp * list resty.Request.t :=
  match calls with
  | [] => (c, [])
  | k :: rest =>
      let '(c1, sent1) := step k c in
      let '(c2, sent2) := run rest c1 in
      (c2, sent1 ++ sent2)
  end.
End Session.

(** A byte other than the at sign. *)
Definition not_at (c : ascii) : bool := negb (Ascii.eqb c "@").

(** ** Sample inputs

    A panel, a client and decoders to run the operations on. *)
Module Example.
Definition unrepresentable (f : spec_float) : Z := 0.

Definition api_text (k : api.NotModified) : string :=
  match k with
  | api.NodeNotModified => "node not modified"
  | api.UserNotModified => "users not modified"
  end.

Definition json_Marshal_Response (r : Response.t) : string :=
  "{msg: " +:+ Response.Msg r +:+ "}".

Definition json_Marshal_NodeInfoResponse (r : NodeInfoResponse.t) : string :=
  "{name: " +:+ NodeInfoResponse.Name r +:+ "}".

Definition node_payload : NodeInfoResponse.t :=
  NodeInfoResponse.mk "node-4" "remarks" "203.0.113.7" 443 1 100 "V2ray" true "/ws" "ws"
    "example.org" "svc" false "aes-128-gcm" "key".

Definition json_Unmarshal_NodeInfoResponse (data : string) : NodeInfoResponse.t + string :=
  if String.eqb data "node" then inl node_payload else inr "unexpected end of JSON input".

Definition alice : UserListResponseItem.t :=
  UserListResponseItem.mk 1 "uuid-1" "a@b.com" 10 2.
Definition bob : UserListResponseItem.t :=
  UserListResponseItem.mk 2 "uuid-2" "plainuser" 20 0.

Definition json_Unmarshal_UserListResponse (data : string) : UserListResponse.t + string :=
  if String.eqb data "users" then inl (UserListResponse.mk [alice; bob])
  else inr "unexpected end of JSON input".

(** A panel that answers both fetches with status [status], the token
    [token] and an envelope of code [code]. *)
Definition panel (status : Z) (token : string) (code : Z) : resty.Transport :=
  fun req =>
    let data := if String.eqb (resty.Request.Path req) "/api/public/xrayr/node/info"
                then "node" else "users" in
    (resty.Response.mk status {[ "Etag" := token ]} "body" (Response.mk code "msg" data),
     None).

Definition client (NodeType : string) (SpeedLimit : spec_float) (DeviceLimit : Z)
    : APIClient.t :=
  APIClient.mk "http://127.0.0.1:3000" 4 "123" NodeType false "xtls-rprx-direct"
    SpeedLimit DeviceLimit false ∅.

(** 1.5 and 0 as float64. *)
Definition one_and_a_half : spec_float := Float64.of_scaled 3 (-1).
Definition zero : spec_float := Float64.const 0.

(** A rule file system: one file of three lines, the second empty, and
    patterns that compile unless they open with a parenthesis. *)
Definition regexp_Compile (text : string) : string + string :=
  match text with
  | String "(" _ => inr "missing closing )"
  | _ => inl text
  end.

Definition os_Open (path : string) : os.File.t + string :=
  if String.eqb path "rulelist" then
    inl (os.File.mk ("abc" +:+ newline +:+ newline +:+ "x.*y") None None)
  else if String.eqb path "badlist" then
    inl (os.File.mk ("abc" +:+ newline +:+ "(" +:+ newline +:+ "z") None None)
  else inr ("open " +:+ path +:+ ": no such file or directory").
End Example.

(** ** More sample inputs

    The configuration of the package's tests, a client that has seen the
    node before, and rule files that end badly. *)
Module Scenario.
Definition config (RuleListPath : string) (Timeout : Z) : Config.t :=
  Config.mk "http://127.0.0.1:3000" 4 "123" "V2ray" false EmptyString Timeout
    Example.zero 0 RuleListPath false.

Definition seasoned : FullClient.t string :=
  FullClient.mk
    (APIClient.mk "http://127.0.0.1:3000" 4 "123" "V2ray" false EmptyString
       Example.zero 0 false {[ "node" := "n0" ]})
    (restyClient.mk 3 (5 * Duration.Second) "http://127.0.0.1:3000" false) [] ∅.

(** A line of 64 KiB. *)
Definition long_line : string := Pos.iter (String "a") EmptyString 65536.

(** [truncated] breaks off with a read error after its first line and
    cannot be closed; the second line of [longline] is [long_line]. *)
Definition os_Open (path : string) : os.File.t + string :=
  if String.eqb path "truncated" then
    inl (os.File.mk ("abc" +:+ newline) (Some "input/output error")
           (Some "bad file descriptor"))
  else if String.eqb path "longline" then
    inl (os.File.mk ("abc" +:+ newline +:+ long_line +:+ newline +:+ "(") None None)
  else Example.os_Open path.

(** An answer of status [status] whose envelope the transport left
    empty, as it does when the status is not one of 200 to 299. *)
Definition bare (status : Z) : resty.Transport :=
  fun _ =>
    (resty.Response.mk status ∅ "Bad Request"
       (Response.mk 0 EmptyString EmptyString), None).

Definition session : list call :=
  [Call_Debug; Call_GetNodeInfo (Example.panel 200 "n1" 0); Call_ReportIllegal;
   Call_GetUserList (Example.panel 500 "u1" 0); Call_Describe].

Definition reports : list call :=
  [Call_ReportNodeStatus; Call_ReportNodeOnlineUsers; Call_ReportUserTraffic;
   Call_ReportIllegal; Call_GetNodeRule; Call_Describe; Call_Debug].

Definition run : list call -> FullClient.t string
                 -> FullClient.t string * list resty.Request.t :=
  run string Example.unrepresentable Example.api_text Example.json_Marshal_Response
    Example.json_Marshal_NodeInfoResponse Example.json_Unmarshal_NodeInfoResponse
    Example.json_Unmarshal_UserListResponse.
End Scenario.

(** * Properties *)

Set Default Proof Using "Type".

(** ** Texts *)

Lemma append_cons (c : ascii) (s t : string) :
  String c s +:+ t = String c (s +:+ t).
Proof. reflexivity. Qed.

Lemma append_nil_l (s : string) : EmptyString +:+ s = s.
Proof. reflexivity. Qed.

Lemma append_nil_r (s : string) : s +:+ EmptyString = s.
Proof.
  induction s as [|c s IH]; [reflexivity|].
  rewrite append_cons. now f_equal.
Qed.

Lemma append_assoc (s1 s2 s3 : string) : (s1 +:+ s2) +:+ s3 = s1 +:+ (s2 +:+ s3).
Proof.
  induction s1 as [|c s1 IH]; [reflexivity|].
  rewrite !append_cons. cbn. now f_equal.
Qed.

Lemma append_eq_nil (s1 s2 : string) :
  s1 +:+ s2 = EmptyString -> s1 = EmptyString /\ s2 = EmptyString.
Proof. destruct s1; [auto | rewrite append_cons; discriminate]. Qed.

Lemma append_eq_cons (s1 s2 : string) (c : ascii) (s : string) :
  s1 +:+ s2 = String c s ->
  (s1 = EmptyString /\ s2 = String c s) \/
  (exists s1', s1 = String c s1' /\ s = s1' +:+ s2).
Proof.
  destruct s1 as [|c1 s1]; [|rewrite append_cons]; intros H.
  - left; auto.
  - right. injection H as -> <-. eauto.
Qed.

Lemma string_forallb_app (p : ascii -> bool) (s1 s2 : string) :
  string_forallb p (s1 +:+ s2) = string_forallb p s1 && string_forallb p s2.
Proof.
  induction s1 as [|c s1 IH]; [reflexivity|].
  rewrite append_cons. cbn. rewrite IH. now rewrite andb_assoc.
Qed.

(** ** The matcher decides the language *)

Import regexp.

Lemma nullable_Matches (r : syntax) : nullable r = true -> Matches r EmptyString.
Proof.
  induction r; simpl; intros H; try discriminate.
  - constructor.
  - apply andb_true_iff in H as [H1 H2].
    rewrite <- (append_nil_l EmptyString). constructor; auto.
  - apply orb_true_iff in H as [H|H]; [apply M_Alternate_l | apply M_Alternate_r]; auto.
  - constructor.
Qed.

Lemma Matches_nullable (r : syntax) (s : string) :
  Matches r s -> s = EmptyString -> nullable r = true.
Proof.
  induction 1; simpl; intros E; try reflexivity; try discriminate.
  - apply append_eq_nil in E as [-> ->]. rewrite IHMatches1, IHMatches2; auto.
  - rewrite IHMatches; auto.
  - rewrite IHMatches; auto. apply orb_true_r.
Qed.

Lemma deriv_sound (c : ascii) (r : syntax) :
  forall s, Matches (deriv c r) s -> Matches r (String c s).
Proof.
  induction r; simpl; intros s H.
  - inversion H.
  - inversion H.
  - destruct (in_class cls c) eqn:E; inversion H; subst. now constructor.
  - destruct (nullable r1) eqn:N.
    + inversion H; subst.
      * inversion H3; subst.
        rewrite <- append_cons. constructor; auto.
      * rewrite <- (append_nil_l (String c s)).
        constructor; auto using nullable_Matches.
    + inversion H; subst.
      rewrite <- append_cons. constructor; auto.
  - inversion H; subst; [apply M_Alternate_l | apply M_Alternate_r]; auto.
  - inversion H; subst.
    rewrite <- append_cons. constructor; auto.
Qed.

Lemma deriv_complete (c : ascii) (r : syntax) (t : string) :
  Matches r t -> forall u, t = String c u -> Matches (deriv c r) u.
Proof.
  induction 1; simpl; intros u E; try discriminate.
  - injection E as -> <-. rewrite H. constructor.
  - apply append_eq_cons in E as [[-> ->] | [s1' [-> ->]]].
    + rewrite (Matches_nullable _ _ H eq_refl). apply M_Alternate_r. auto.
    + destruct (nullable r1); [apply M_Alternate_l|]; constructor; auto.
  - apply M_Alternate_l; auto.
  - apply M_Alternate_r; auto.
  - apply append_eq_cons in E as [[-> ->] | [s1' [-> ->]]].
    + apply IHMatches2. reflexivity.
    + constructor; auto.
Qed.

Lemma MatchString_Matches (r : syntax) (s : string) :
  MatchString r s = true <-> Matches r s.
Proof.
  revert r. induction s as [|c s IH]; intros r; simpl.
  - split; [apply nullable_Matches | intros H; eapply Matches_nullable; eauto].
  - rewrite IH. split; [apply deriv_sound | intros H; eapply deriv_complete; eauto].
Qed.

(** ** The language of [emailPattern] *)

Lemma string_forallb_ext (p q : ascii -> bool) (s : string) :
  (forall c, p c = q c) -> string_forallb p s = string_forallb q s.
Proof.
  intros E. induction s as [|c s IH]; cbn; [reflexivity|].
  now rewrite E, IH.
Qed.

Lemma Matches_CharClass (cls : class) (s : string) :
  Matches (CharClass cls) s <-> exists c, s = String c EmptyString /\ in_class cls c = true.
Proof.
  split.
  - inversion 1; subst. eauto.
  - intros [c [-> H]]. now constructor.
Qed.

Lemma Matches_Concat (r1 r2 : syntax) (s : string) :
  Matches (Concat r1 r2) s <->
  exists s1 s2, s = s1 +:+ s2 /\ Matches r1 s1 /\ Matches r2 s2.
Proof.
  split.
  - inversion 1; subst. eauto.
  - intros [s1 [s2 [-> [H1 H2]]]]. now constructor.
Qed.

Lemma in_class_single (c c' : ascii) : in_class [(c, c)] c' = true <-> c' = c.
Proof.
  unfold in_class, in_range. cbn. rewrite orb_false_r, andb_true_iff, !N.leb_le.
  split.
  - intros [H1 H2]. rewrite <- (ascii_N_embedding c'), <- (ascii_N_embedding c).
    f_equal. lia.
  - intros ->. lia.
Qed.

Lemma Matches_Literal (c : ascii) (s : string) :
  Matches (Literal c) s <-> s = String c EmptyString.
Proof.
  unfold Literal. rewrite Matches_CharClass. split.
  - intros [c' [-> H]]. apply in_class_single in H. now subst.
  - intros ->. exists c. split; [reflexivity | now apply in_class_single].
Qed.

Lemma Matches_Star_class (cls : class) (s : string) :
  Matches (Star (CharClass cls)) s <-> string_forallb (in_class cls) s = true.
Proof.
  split.
  - intros H. remember (Star (CharClass cls)) as r eqn:E.
    induction H; try discriminate; [reflexivity|].
    injection E as ->. apply Matches_CharClass in H as [c [-> Hc]].
    rewrite append_cons, append_nil_l. cbn. rewrite Hc. now apply IHMatches2.
  - induction s as [|c s IH]; cbn; intros H; [constructor|].
    apply andb_true_iff in H as [Hc Hs].
    rewrite <- (append_nil_l s), <- append_cons.
    constructor; [now constructor | auto].
Qed.

Lemma Matches_Repeat_min_class (cls : class) (n : nat) (s : string) :
  Matches (Repeat_min n (CharClass cls)) s <->
  (n <= String.length s)%nat /\ string_forallb (in_class cls) s = true.
Proof.
  revert s. induction n as [|n IH]; intros s; cbn [Repeat_min].
  - rewrite Matches_Star_class. split; [intros H; split; [lia | exact H] | tauto].
  - rewrite Matches_Concat. split.
    + intros [s1 [s2 [-> [H1 H2]]]].
      apply Matches_CharClass in H1 as [c [-> Hc]]. apply IH in H2 as [Hn Hs].
      rewrite append_cons, append_nil_l. cbn. rewrite Hc, Hs. split; [lia | reflexivity].
    + intros [Hn Hs]. destruct s as [|c s]; cbn in Hn; [lia|].
      cbn in Hs. apply andb_true_iff in Hs as [Hc Hs].
      exists (String c EmptyString), s. split; [reflexivity|].
      split; [now constructor | apply IH; split; [lia | exact Hs]].
Qed.

Lemma Matches_Plus_class (cls : class) (s : string) :
  Matches (Plus (CharClass cls)) s <->
  s <> EmptyString /\ string_forallb (in_class cls) s = true.
Proof.
  change (Plus (CharClass cls)) with (Repeat_min 1 (CharClass cls)).
  rewrite Matches_Repeat_min_class.
  destruct s; cbn; split; intros [H1 H2]; split; try lia; try congruence; auto.
Qed.

Lemma class_local_spec (c : ascii) : in_class class_local c = EmailGrammar.local_char c.
Proof. destruct c as [[] [] [] [] [] [] [] []]; reflexivity. Qed.

Lemma class_domain_spec (c : ascii) : in_class class_domain c = EmailGrammar.domain_char c.
Proof. destruct c as [[] [] [] [] [] [] [] []]; reflexivity. Qed.

Lemma class_alpha_spec (c : ascii) : in_class class_alpha c = EmailGrammar.ascii_letter c.
Proof. destruct c as [[] [] [] [] [] [] [] []]; reflexivity. Qed.

(** The matcher on [emailPattern] accepts exactly the texts of the
    grammar. *)
Lemma isEmailFormat_grammar (s : string) :
  isEmailFormat s = true <-> EmailGrammar.is_email s.
Proof.
  unfold isEmailFormat, emailPattern, EmailGrammar.is_email.
  rewrite MatchString_Matches. split.
  - intros H.
    apply Matches_Concat in H as (l & r1 & -> & Hl & H).
    apply Matches_Concat in H as (a & r2 & -> & Ha & H).
    apply Matches_Concat in H as (d & r3 & -> & Hd & H).
    apply Matches_Concat in H as (p & tld & -> & Hp & Ht).
    apply Matches_Plus_class in Hl as [Hl1 Hl2].
    apply Matches_Plus_class in Hd as [Hd1 Hd2].
    apply Matches_Literal in Ha as ->. apply Matches_Literal in Hp as ->.
    apply Matches_Repeat_min_class in Ht as [Ht1 Ht2].
    rewrite (string_forallb_ext _ _ _ class_local_spec) in Hl2.
    rewrite (string_forallb_ext _ _ _ class_domain_spec) in Hd2.
    rewrite (string_forallb_ext _ _ _ class_alpha_spec) in Ht2.
    exists l, d, tld. repeat split; auto.
  - intros (l & d & tld & -> & Hl1 & Hl2 & Hd1 & Hd2 & Ht1 & Ht2).
    rewrite <- (string_forallb_ext _ _ _ class_local_spec) in Hl2.
    rewrite <- (string_forallb_ext _ _ _ class_domain_spec) in Hd2.
    rewrite <- (string_forallb_ext _ _ _ class_alpha_spec) in Ht2.
    constructor; [now apply Matches_Plus_class|].
    constructor; [now apply Matches_Literal|].
    constructor; [now apply Matches_Plus_class|].
    constructor; [now apply Matches_Literal|].
    now apply Matches_Repeat_min_class.
Qed.

(** ** The client: general facts *)

Lemma leb_zero_not_ltb (x : spec_float) :
  Float64.leb x (Float64.const 0) = true -> Float64.ltb (Float64.const 0) x = false.
Proof.
  unfold Float64.leb, Float64.ltb, SFleb, SFltb.
  destruct x as [s|s| |s m e]; cbn; try destruct s; cbn; congruence.
Qed.

Lemma supported_node_type_spec (t : string) :
  supported_node_type t = true <->
  t ∈ ["V2ray"; "Trojan"; "Shadowsocks"; "Vmess"; "Vless"].
Proof.
  unfold supported_node_type.
  rewrite !orb_true_iff, !String.eqb_eq, !elem_of_cons, elem_of_nil. tauto.
Qed.


Section ClientFacts.
Variable unrepresentable : spec_float -> Z.
Variable api_text : api.NotModified -> string.
Variable json_Marshal_Response : Response.t -> string.
Variable json_Marshal_NodeInfoResponse : NodeInfoResponse.t -> string.
Variable json_Unmarshal_NodeInfoResponse : string -> NodeInfoResponse.t + string.
Variable json_Unmarshal_UserListResponse : string -> UserListResponse.t + string.

Local Abbreviation parseResponse' := (parseResponse api_text json_Marshal_Response).
Local Abbreviation parseNodeInfo' := (parseNodeInfo unrepresentable).
Local Abbreviation GetUserList_user' := (GetUserList_user unrepresentable).
Local Abbreviation GetNodeInfo' :=
  (GetNodeInfo unrepresentable api_text json_Marshal_Response
     json_Marshal_NodeInfoResponse json_Unmarshal_NodeInfoResponse).
Local Abbreviation GetUserList' :=
  (GetUserList unrepresentable api_text json_Marshal_Response
     json_Unmarshal_UserListResponse).
Local Abbreviation normalizes' :=
  (normalizes unrepresentable api_text json_Marshal_Response
     json_Unmarshal_UserListResponse).

(** Writing a token changes no field of the configuration. *)
Lemma update_eTag_config (c : APIClient.t) (k h : string) :
  APIClient.APIHost (update_eTag c k h) = APIClient.APIHost c
  /\ APIClient.NodeID (update_eTag c k h) = APIClient.NodeID c
  /\ APIClient.NodeType (update_eTag c k h) = APIClient.NodeType c
  /\ APIClient.VlessFlow (update_eTag c k h) = APIClient.VlessFlow c
  /\ APIClient.SpeedLimit (update_eTag c k h) = APIClient.SpeedLimit c
  /\ APIClient.DeviceLimit (update_eTag c k h) = APIClient.DeviceLimit c.
Proof.
  unfold update_eTag.
  destruct (negb (h =? EmptyString)%string && negb (h =? APIClient.eTag c k)%string);
    repeat split.
Qed.

Lemma GetUserList_user_update_eTag (c : APIClient.t) (k h : string)
    (user : UserListResponseItem.t) :
  GetUserList_user' (update_eTag c k h) user = GetUserList_user' c user.
Proof.
  destruct (update_eTag_config c k h) as (_ & _ & Ht & _ & Hs & Hd).
  unfold GetUserList_user, config_speed_limit. now rewrite Ht, Hs, Hd.
Qed.

Lemma parseResponse_update_eTag (c : APIClient.t) (k h : string)
    (res : resty.Response.t) (path : string) (err : option error) :
  parseResponse' (update_eTag c k h) res path err = parseResponse' c res path err.
Proof.
  destruct (update_eTag_config c k h) as (Ha & _).
  unfold parseResponse, assembleURL. now rewrite Ha.
Qed.

(** The parser on a response that came without a transport error. *)
Lemma parseResponse_inl (c : APIClient.t) (res : resty.Response.t) (path : string)
    (response : Response.t) :
  parseResponse' c res path None = inl response <->
  resty.Response.StatusCode res <= 400
  /\ Response.Code (resty.Response.Result res) = 0
  /\ response = resty.Response.Result res.
Proof.
  unfold parseResponse.
  destruct (Z.ltb_spec 400 (resty.Response.StatusCode res)) as [Hs|Hs].
  - split; [discriminate | lia].
  - destruct (Z.eqb_spec (Response.Code (resty.Response.Result res)) 0) as [Hc|Hc]; cbn.
    + split; [intros [= <-]; auto | intros (_ & _ & ->); reflexivity].
    + split; [discriminate | intros (_ & H & _); contradiction].
Qed.

(** When [GetUserList'] returns a list, and what the list is then. *)
Lemma GetUserList_inl (Post : resty.Transport) (c : APIClient.t)
    (l : list api.UserInfo.t) :
  Outcome.ret (GetUserList' Post c) = inl l <->
  exists res payload,
    supported_node_type (APIClient.NodeType c) = true
    /\ Post (GetUserList_request c) = (res, None)
    /\ resty.Response.StatusCode res <> 304
    /\ resty.Response.StatusCode res <= 400
    /\ Response.Code (resty.Response.Result res) = 0
    /\ json_Unmarshal_UserListResponse (Response.Data (resty.Response.Result res))
       = inl payload
    /\ l = map (GetUserList_user' c) (UserListResponse.List payload).
Proof.
  unfold GetUserList.
  destruct (supported_node_type (APIClient.NodeType c)) eqn:Hn; cbn [negb].
  2:{ split; [discriminate | intros (? & ? & ? & _); discriminate]. }
  destruct (Post (GetUserList_request c)) as [res [e|]] eqn:HP; cbn [fst snd option_map].
  { split; [discriminate | intros (? & ? & _ & [=] & _)]. }
  destruct (Z.eqb_spec (resty.Response.StatusCode res) 304) as [H304|H304].
  { split; [discriminate | intros (? & ? & _ & [= <-] & ? & _); contradiction]. }
  rewrite parseResponse_update_eTag.
  destruct (parseResponse' c res _ None) as [response|e] eqn:HR.
  - apply parseResponse_inl in HR as (Hs & Hc & ->).
    destruct (json_Unmarshal_UserListResponse _) as [payload|e] eqn:HU; cbn.
    + split.
      * intros [= <-]. exists res, payload.
        repeat split; auto. apply map_ext. intros; apply GetUserList_user_update_eTag.
      * intros (res' & payload' & _ & [= <-] & _ & _ & _ & HU' & ->).
        rewrite HU in HU'. injection HU' as <-. f_equal.
        apply map_ext. intros; apply GetUserList_user_update_eTag.
    + split; [discriminate|].
      intros (res' & payload' & _ & [= <-] & _ & _ & _ & HU' & _). congruence.
  - cbn. split; [discriminate|].
    intros (res' & payload' & _ & [= <-] & _ & Hs & Hc & _).
    assert (parseResponse' c res "/api/public/xrayr/user/list" None
            = inl (resty.Response.Result res)) as E
      by (apply parseResponse_inl; auto).
    congruence.
Qed.

(** A record [GetUserList'] returned is the loop body on the panel's
    record at the same index, under a supported node type. *)
Lemma normalizes_inv (Post : resty.Transport) (c : APIClient.t)
    (user : UserListResponseItem.t) (u : api.UserInfo.t) :
  normalizes' Post c user u ->
  supported_node_type (APIClient.NodeType c) = true /\ u = GetUserList_user' c user.
Proof.
  intros (res & payload & l & i & HP & HU & Hl & Hi & Hu).
  apply GetUserList_inl in Hl as (res' & payload' & Hn & HP' & _ & _ & _ & HU' & ->).
  rewrite HP in HP'. injection HP' as <-. rewrite HU in HU'. injection HU' as <-.
  split; [exact Hn|].
  rewrite list_lookup_fmap, Hi in Hu. cbn in Hu. now injection Hu.
Qed.

Lemma normalizes_intro (Post : resty.Transport) (c : APIClient.t)
    (res : resty.Response.t) (payload : UserListResponse.t)
    (i : nat) (user : UserListResponseItem.t) :
  supported_node_type (APIClient.NodeType c) = true ->
  Post (GetUserList_request c) = (res, None) ->
  resty.Response.StatusCode res <> 304 ->
  resty.Response.StatusCode res <= 400 ->
  Response.Code (resty.Response.Result res) = 0 ->
  json_Unmarshal_UserListResponse (Response.Data (resty.Response.Result res))
    = inl payload ->
  UserListResponse.List payload !! i = Some user ->
  normalizes' Post c user (GetUserList_user' c user).
Proof.
  intros Hn HP H304 Hs Hc HU Hi.
  exists res, payload, (map (GetUserList_user' c) (UserListResponse.List payload)), i.
  repeat split; auto.
  - apply GetUserList_inl. exists res, payload. repeat split; auto.
  - rewrite list_lookup_fmap, Hi. reflexivity.
Qed.

(** ** The normalizers *)

(** C1. Override precedence. With a speed-limit override above zero, the
    speed limit of the node info and of every user record is the converted
    override, whatever the panel sent; with an override at or below zero it
    is the converted panel value; the device limit of a user record is the
    override when that is above zero, the panel's value as it is
    otherwise. *)
Theorem override_precedence (c : APIClient.t) :
  (Float64.ltb (Float64.const 0) (APIClient.SpeedLimit c) = true ->
     (forall r, exists nodeInfo,
          parseNodeInfo' c r = inl nodeInfo
          /\ api.NodeInfo.SpeedLimit nodeInfo = config_speed_limit unrepresentable c)
     /\ (forall Post user u, normalizes' Post c user u ->
           api.UserInfo.SpeedLimit u = config_speed_limit unrepresentable c))
  /\ (Float64.leb (APIClient.SpeedLimit c) (Float64.const 0) = true ->
     (forall r, exists nodeInfo,
          parseNodeInfo' c r = inl nodeInfo
          /\ api.NodeInfo.SpeedLimit nodeInfo
             = panel_node_speed_limit (NodeInfoResponse.NodeSpeedLimit r))
     /\ (forall Post user u, normalizes' Post c user u ->
           api.UserInfo.SpeedLimit u
           = panel_user_speed_limit (UserListResponseItem.SpeedLimit user)))
  /\ (0 < APIClient.DeviceLimit c ->
      forall Post user u, normalizes' Post c user u ->
        api.UserInfo.DeviceLimit u = APIClient.DeviceLimit c)
  /\ (APIClient.DeviceLimit c <= 0 ->
      forall Post user u, normalizes' Post c user u ->
        api.UserInfo.DeviceLimit u = UserListResponseItem.DeviceLimit user).
Proof.
  split; [|split; [|split]].
  - intros Hgt. split.
    + intros r. unfold parseNodeInfo. rewrite Hgt. eexists. split; reflexivity.
    + intros Post user u H. apply normalizes_inv in H as [_ ->].
      unfold GetUserList_user. cbn [api.UserInfo.SpeedLimit]. now rewrite Hgt.
  - intros Hle. apply leb_zero_not_ltb in Hle. split.
    + intros r. unfold parseNodeInfo. rewrite Hle. eexists. split; reflexivity.
    + intros Post user u H. apply normalizes_inv in H as [_ ->].
      unfold GetUserList_user. cbn [api.UserInfo.SpeedLimit]. now rewrite Hle.
  - intros Hd Post user u H. apply normalizes_inv in H as [_ ->].
    unfold GetUserList_user. cbn [api.UserInfo.DeviceLimit].
    apply Z.ltb_lt in Hd. now rewrite Hd.
  - intros Hd Post user u H. apply normalizes_inv in H as [_ ->].
    unfold GetUserList_user. cbn [api.UserInfo.DeviceLimit].
    destruct (Z.ltb_spec 0 (APIClient.DeviceLimit c)); [lia | reflexivity].
Qed.

(** An override that is not a number is neither above zero nor at or
    below it: the panel's value stands. *)
Remark nan_override_takes_panel_value (c : APIClient.t) (r : NodeInfoResponse.t)
    (user : UserListResponseItem.t) :
  APIClient.SpeedLimit c = S754_nan ->
  (exists nodeInfo, parseNodeInfo' c r = inl nodeInfo
     /\ api.NodeInfo.SpeedLimit nodeInfo
        = panel_node_speed_limit (NodeInfoResponse.NodeSpeedLimit r))
  /\ api.UserInfo.SpeedLimit (GetUserList_user' c user)
     = panel_user_speed_limit (UserListResponseItem.SpeedLimit user).
Proof.
  intros Hnan. unfold parseNodeInfo, GetUserList_user. rewrite Hnan.
  split; [eexists; split; reflexivity | reflexivity].
Qed.

(** C7. The identity of a user record: a user name of the email grammar
    is kept as it is, any other gets the placeholder domain appended. *)
Theorem email_identity (Post : resty.Transport) (c : APIClient.t)
    (user : UserListResponseItem.t) (u : api.UserInfo.t) :
  normalizes' Post c user u ->
  (EmailGrammar.is_email (UserListResponseItem.UserName user)
   /\ api.UserInfo.Email u = UserListResponseItem.UserName user)
  \/ (~ EmailGrammar.is_email (UserListResponseItem.UserName user)
      /\ api.UserInfo.Email u = UserListResponseItem.UserName user +:+ "@vpnboard.user").
Proof.
  intros H. apply normalizes_inv in H as [_ ->].
  unfold GetUserList_user. cbn.
  destruct (isEmailFormat (UserListResponseItem.UserName user)) eqn:E.
  - left. split; [now apply isEmailFormat_grammar | reflexivity].
  - right. split; [|reflexivity].
    intros G. apply isEmailFormat_grammar in G. congruence.
Qed.

(** C8. The password of a user record: the uuid under the node type
    Shadowsocks, empty under any other supported node type. *)
Theorem shadowsocks_password (Post : resty.Transport) (c : APIClient.t)
    (user : UserListResponseItem.t) (u : api.UserInfo.t) :
  normalizes' Post c user u ->
  api.UserInfo.UUID u = UserListResponseItem.UUID user
  /\ (APIClient.NodeType c = "Shadowsocks" ->
      api.UserInfo.Passwd u = api.UserInfo.UUID u)
  /\ (APIClient.NodeType c ∈ ["V2ray"; "Trojan"; "Vmess"; "Vless"] ->
      api.UserInfo.Passwd u = EmptyString).
Proof.
  intros H. apply normalizes_inv in H as [Hn ->].
  unfold GetUserList_user. cbn. split; [reflexivity|]. split.
  - intros ->. reflexivity.
  - rewrite !elem_of_cons, elem_of_nil.
    intros [-> | [-> | [-> | [-> | []]]]]; reflexivity.
Qed.

(** C4. Under a node type outside the five supported ones [GetUserList]
    fails with the unsupported-node-type error and sends no request; under
    each of the five the check passes and the request is sent. *)
Theorem unsupported_node_type_before_request (Post : resty.Transport) (c : APIClient.t) :
  (APIClient.NodeType c ∉ ["V2ray"; "Trojan"; "Shadowsocks"; "Vmess"; "Vless"] ->
     GetUserList' Post c
     = Outcome.mk (inr (Errorf ("unsupported node type: " +:+ APIClient.NodeType c))) c [])
  /\ (APIClient.NodeType c ∈ ["V2ray"; "Trojan"; "Shadowsocks"; "Vmess"; "Vless"] ->
      Outcome.requests (GetUserList' Post c) = [GetUserList_request c]
      /\ forall text, Outcome.ret (GetUserList' Post c)
                      <> inr (Errorf ("unsupported node type: " +:+ text))).
Proof.
  unfold GetUserList. split; intros Hn.
  - destruct (supported_node_type (APIClient.NodeType c)) eqn:E; [|reflexivity].
    apply supported_node_type_spec in E. contradiction.
  - apply supported_node_type_spec in Hn. rewrite Hn. cbn [negb].
    unfold parseResponse.
    destruct (Post (GetUserList_request c)) as [res [e|]]; cbn [fst snd option_map].
    { split; [reflexivity | cbn; discriminate]. }
    destruct (resty.Response.StatusCode res =? 304);
      [split; [reflexivity | cbn; discriminate]|].
    destruct (400 <? resty.Response.StatusCode res);
      [split; [reflexivity | cbn; intros text E; rewrite !append_cons in E;
                             discriminate E]|].
    destruct (negb (Response.Code (resty.Response.Result res) =? 0));
      [split; [reflexivity | cbn; intros text E; rewrite !append_cons in E;
                             discriminate E]|].
    destruct (json_Unmarshal_UserListResponse _);
      (split; [reflexivity | cbn; intros text E; discriminate E]).
Qed.

(** ** The response parser *)

(** C5, as the code has it. A transport error is settled first, by its
    own rule, whatever the status: the failure carries the URL and the
    error's text. Without one: a status above 400 fails with the URL and the
    body (the error slot of that message prints the nil error); else a
    nonzero code fails with the serialized envelope; else the envelope is
    returned. A status of exactly 400 passes the status rule. *)
Theorem parseResponse_rules (c : APIClient.t) (res : resty.Response.t) (path : string) :
  (forall e, parseResponse' c res path (Some e)
             = inr (Errorf ("request " +:+ assembleURL c path +:+ " failed: "
                              +:+ Error api_text e)))
  /\ (400 < resty.Response.StatusCode res ->
      parseResponse' c res path None
      = inr (Errorf ("request " +:+ assembleURL c path +:+ " failed: "
                       +:+ resty.Response.Body res +:+ ", " +:+ "<nil>")))
  /\ (resty.Response.StatusCode res <= 400 ->
      Response.Code (resty.Response.Result res) <> 0 ->
      parseResponse' c res path None
      = inr (Errorf ("ret " +:+ json_Marshal_Response (resty.Response.Result res)
                       +:+ " invalid")))
  /\ (resty.Response.StatusCode res <= 400 ->
      Response.Code (resty.Response.Result res) = 0 ->
      parseResponse' c res path None = inl (resty.Response.Result res))
  /\ (resty.Response.StatusCode res = 400 ->
      parseResponse' c res path None
      = if Response.Code (resty.Response.Result res) =? 0
        then inl (resty.Response.Result res)
        else inr (Errorf ("ret " +:+ json_Marshal_Response (resty.Response.Result res)
                            +:+ " invalid"))).
Proof.
  unfold parseResponse. split; [reflexivity|].
  destruct (Z.ltb_spec 400 (resty.Response.StatusCode res)) as [Hs|Hs];
    destruct (Z.eqb_spec (Response.Code (resty.Response.Result res)) 0) as [Hc|Hc];
    cbn [negb format_v];
    (split; [intros; first [reflexivity | lia] |]);
    (split; [intros; first [reflexivity | lia | contradiction] |]);
    (split; [intros; first [reflexivity | lia | contradiction] |]);
    intros; first [reflexivity | lia].
Qed.

(** ** Not modified *)

(** The parser makes no not-modified condition. *)
Lemma parseResponse_not_ErrorsNew (c : APIClient.t) (res : resty.Response.t)
    (path : string) (err : option error) (k : api.NotModified) :
  parseResponse' c res path err <> inr (ErrorsNew k).
Proof.
  unfold parseResponse. destruct err; [discriminate|].
  destruct (400 <? _); [discriminate|]. destruct (negb _); discriminate.
Qed.

(** C6. A response with status 304 ends either fetch at once with the
    not-modified condition of its resource: whatever the body, the envelope
    and the headers, the call returns no entity, and the client (its tokens
    too) is as before. The parser never makes that condition, and a fetch
    returns it for no other response. *)
Theorem not_modified_short_circuit (Post : resty.Transport) (c : APIClient.t) :
  (forall res, Post (GetNodeInfo_request c) = (res, None) ->
               resty.Response.StatusCode res = 304 ->
               GetNodeInfo' Post c
               = Outcome.mk (inr (ErrorsNew api.NodeNotModified)) c [GetNodeInfo_request c])
  /\ (forall res, Post (GetUserList_request c) = (res, None) ->
                  resty.Response.StatusCode res = 304 ->
                  supported_node_type (APIClient.NodeType c) = true ->
                  GetUserList' Post c
                  = Outcome.mk (inr (ErrorsNew api.UserNotModified)) c [GetUserList_request c])
  /\ (forall c' res path err k, parseResponse' c' res path err <> inr (ErrorsNew k))
  /\ (forall k, Outcome.ret (GetNodeInfo' Post c) = inr (ErrorsNew k) ->
                k = api.NodeNotModified
                /\ exists res, Post (GetNodeInfo_request c) = (res, None)
                               /\ resty.Response.StatusCode res = 304)
  /\ (forall k, Outcome.ret (GetUserList' Post c) = inr (ErrorsNew k) ->
                k = api.UserNotModified
                /\ exists res, Post (GetUserList_request c) = (res, None)
                               /\ resty.Response.StatusCode res = 304).
Proof.
  split; [|split; [|split; [|split]]].
  - intros res HP Hs. unfold GetNodeInfo. rewrite HP. cbn [fst snd option_map].
    rewrite Hs. reflexivity.
  - intros res HP Hs Hn. unfold GetUserList. rewrite Hn, HP. cbn [negb fst snd option_map].
    rewrite Hs. reflexivity.
  - intros. apply parseResponse_not_ErrorsNew.
  - intros k. unfold GetNodeInfo.
    destruct (Post (GetNodeInfo_request c)) as [res [e|]]; cbn [fst snd option_map].
    { cbn. discriminate. }
    destruct (Z.eqb_spec (resty.Response.StatusCode res) 304) as [Hs|Hs].
    { cbn. intros [= <-]. split; [reflexivity | eauto]. }
    destruct (parseResponse' _ res _ None) as [response|e] eqn:HR.
    + destruct (json_Unmarshal_NodeInfoResponse _); cbn; discriminate.
    + cbn. intros [= ->]. now apply parseResponse_not_ErrorsNew in HR.
  - intros k. unfold GetUserList.
    destruct (supported_node_type _); cbn [negb]; [|cbn; discriminate].
    destruct (Post (GetUserList_request c)) as [res [e|]]; cbn [fst snd option_map].
    { cbn. discriminate. }
    destruct (Z.eqb_spec (resty.Response.StatusCode res) 304) as [Hs|Hs].
    { cbn. intros [= <-]. split; [reflexivity | eauto]. }
    destruct (parseResponse' _ res _ None) as [response|e] eqn:HR.
    + destruct (json_Unmarshal_UserListResponse _); cbn; discriminate.
    + cbn. intros [= ->]. now apply parseResponse_not_ErrorsNew in HR.
Qed.

(** ** The token store *)

Lemma update_eTag_cases (c : APIClient.t) (k h : string) :
  (update_eTag c k h = c /\ (h = EmptyString \/ h = APIClient.eTag c k))
  \/ (update_eTag c k h = APIClient.set_eTag c k h
      /\ h <> EmptyString /\ h <> APIClient.eTag c k).
Proof.
  unfold update_eTag.
  destruct (String.eqb_spec h EmptyString) as [E1|E1]; cbn [negb andb]; [left; auto|].
  destruct (String.eqb_spec h (APIClient.eTag c k)) as [E2|E2]; cbn [negb]; [left|right]; auto.
Qed.

Lemma eTag_set_eTag_ne (c : APIClient.t) (k k' h : string) :
  k <> k' -> APIClient.eTag (APIClient.set_eTag c k h) k' = APIClient.eTag c k'.
Proof.
  intros Hk. unfold APIClient.eTag, APIClient.set_eTag. cbn.
  now rewrite lookup_insert_ne.
Qed.

(** The client a fetch leaves behind. *)
Lemma GetNodeInfo_client (Post : resty.Transport) (c : APIClient.t) :
  Outcome.client (GetNodeInfo' Post c)
  = match Post (GetNodeInfo_request c) with
    | (_, Some _) => c
    | (res, None) =>
        if resty.Response.StatusCode res =? 304 then c
        else update_eTag c "node" (http.Header_Get (resty.Response.Header res) "ETag")
    end.
Proof.
  unfold GetNodeInfo.
  destruct (Post (GetNodeInfo_request c)) as [res [e|]]; cbn [fst snd option_map];
    [reflexivity|].
  destruct (resty.Response.StatusCode res =? 304); [reflexivity|].
  destruct (parseResponse' _ res _ None); [|reflexivity].
  destruct (json_Unmarshal_NodeInfoResponse _); reflexivity.
Qed.

Lemma GetUserList_client (Post : resty.Transport) (c : APIClient.t) :
  Outcome.client (GetUserList' Post c)
  = if supported_node_type (APIClient.NodeType c) then
      match Post (GetUserList_request c) with
      | (_, Some _) => c
      | (res, None) =>
          if resty.Response.StatusCode res =? 304 then c
          else update_eTag c "users" (http.Header_Get (resty.Response.Header res) "Etag")
      end
    else c.
Proof.
  unfold GetUserList.
  destruct (supported_node_type _); cbn [negb]; [|reflexivity].
  destruct (Post (GetUserList_request c)) as [res [e|]]; cbn [fst snd option_map];
    [reflexivity|].
  destruct (resty.Response.StatusCode res =? 304); [reflexivity|].
  destruct (parseResponse' _ res _ None); [|reflexivity].
  destruct (json_Unmarshal_UserListResponse _); reflexivity.
Qed.

Lemma GetNodeInfo_requests (Post : resty.Transport) (c : APIClient.t) :
  Outcome.requests (GetNodeInfo' Post c) = [GetNodeInfo_request c].
Proof.
  unfold GetNodeInfo.
  destruct (Post (GetNodeInfo_request c)) as [res [e|]]; cbn [fst snd option_map];
    [reflexivity|].
  destruct (resty.Response.StatusCode res =? 304); [reflexivity|].
  destruct (parseResponse' _ res _ None); [|reflexivity].
  destruct (json_Unmarshal_NodeInfoResponse _); reflexivity.
Qed.

Lemma GetUserList_requests (Post : resty.Transport) (c : APIClient.t) :
  Outcome.requests (GetUserList' Post c)
  = if supported_node_type (APIClient.NodeType c) then [GetUserList_request c] else [].
Proof.
  unfold GetUserList.
  destruct (supported_node_type _); cbn [negb]; [|reflexivity].
  destruct (Post (GetUserList_request c)) as [res [e|]]; cbn [fst snd option_map];
    [reflexivity|].
  destruct (resty.Response.StatusCode res =? 304); [reflexivity|].
  destruct (parseResponse' _ res _ None); [|reflexivity].
  destruct (json_Unmarshal_UserListResponse _); reflexivity.
Qed.

(** C3, as the code has it. A fetch writes the token of its resource
    only after a response that came without a transport error, has a status
    other than 304 and carries a token that is not empty and differs from
    the stored one; it writes it then whether or not the parser accepts the
    response afterwards, and never touches the token of the other resource.
    Every request carries the token stored for its resource, so the next
    one carries what this call stored. All of it holds for the node and for
    the users alike, the users under a supported node type (under another
    one [GetUserList] sends nothing). *)
Theorem token_store_discipline (Post : resty.Transport) (c : APIClient.t) :
  let node := GetNodeInfo' Post c in
  let users := GetUserList' Post c in
  (Outcome.client node = c
   \/ exists res h,
        Post (GetNodeInfo_request c) = (res, None)
        /\ resty.Response.StatusCode res <> 304
        /\ h = http.Header_Get (resty.Response.Header res) "ETag"
        /\ h <> EmptyString /\ h <> APIClient.eTag c "node"
        /\ Outcome.client node = APIClient.set_eTag c "node" h)
  /\ (Outcome.client users = c
      \/ exists res h,
           Post (GetUserList_request c) = (res, None)
           /\ resty.Response.StatusCode res <> 304
           /\ h = http.Header_Get (resty.Response.Header res) "Etag"
           /\ h <> EmptyString /\ h <> APIClient.eTag c "users"
           /\ Outcome.client users = APIClient.set_eTag c "users" h)
  /\ (forall res h,
        Post (GetNodeInfo_request c) = (res, None) ->
        resty.Response.StatusCode res <> 304 ->
        h = http.Header_Get (resty.Response.Header res) "ETag" ->
        h <> EmptyString -> h <> APIClient.eTag c "node" ->
        Outcome.client node = APIClient.set_eTag c "node" h)
  /\ (APIClient.eTag (Outcome.client node) "users" = APIClient.eTag c "users"
      /\ APIClient.eTag (Outcome.client users) "node" = APIClient.eTag c "node")
  /\ (Outcome.requests node = [GetNodeInfo_request c]
      /\ resty.Request.If_None_Match (GetNodeInfo_request c) = APIClient.eTag c "node")
  /\ (forall req, req ∈ Outcome.requests users ->
                  resty.Request.If_None_Match req = APIClient.eTag c "users")
  /\ (forall Post2,
        Outcome.requests (GetNodeInfo' Post2 (Outcome.client node))
        = [GetNodeInfo_request (Outcome.client node)]
        /\ resty.Request.If_None_Match (GetNodeInfo_request (Outcome.client node))
           = APIClient.eTag (Outcome.client node) "node")
  /\ (forall res h,
        supported_node_type (APIClient.NodeType c) = true ->
        Post (GetUserList_request c) = (res, None) ->
        resty.Response.StatusCode res <> 304 ->
        h = http.Header_Get (resty.Response.Header res) "Etag" ->
        h <> EmptyString -> h <> APIClient.eTag c "users" ->
        Outcome.client users = APIClient.set_eTag c "users" h)
  /\ (supported_node_type (APIClient.NodeType c) = true ->
      Outcome.requests users = [GetUserList_request c]
      /\ resty.Request.If_None_Match (GetUserList_request c) = APIClient.eTag c "users")
  /\ (forall Post2,
        supported_node_type (APIClient.NodeType c) = true ->
        Outcome.requests (GetUserList' Post2 (Outcome.client users))
        = [GetUserList_request (Outcome.client users)]
        /\ resty.Request.If_None_Match (GetUserList_request (Outcome.client users))
           = APIClient.eTag (Outcome.client users) "users").
Proof.
  intros node users. subst node users.
  split; [|split; [|split; [|split; [|split; [|split; [|split; [|split; [|split]]]]]]]];
    rewrite ?GetNodeInfo_client, ?GetUserList_client, ?GetUserList_requests.
  - destruct (Post (GetNodeInfo_request c)) as [res [e|]]; [left; reflexivity|].
    destruct (Z.eqb_spec (resty.Response.StatusCode res) 304); [left; reflexivity|].
    destruct (update_eTag_cases c "node"
                (http.Header_Get (resty.Response.Header res) "ETag"))
      as [[-> _] | (-> & H1 & H2)]; [left; reflexivity|].
    right. eexists _, _. repeat split; eauto.
  - destruct (supported_node_type _); [|left; reflexivity].
    destruct (Post (GetUserList_request c)) as [res [e|]]; [left; reflexivity|].
    destruct (Z.eqb_spec (resty.Response.StatusCode res) 304); [left; reflexivity|].
    destruct (update_eTag_cases c "users"
                (http.Header_Get (resty.Response.Header res) "Etag"))
      as [[-> _] | (-> & H1 & H2)]; [left; reflexivity|].
    right. eexists _, _. repeat split; eauto.
  - intros res h -> Hs -> H1 H2.
    destruct (Z.eqb_spec (resty.Response.StatusCode res) 304); [contradiction|].
    destruct (update_eTag_cases c "node"
                (http.Header_Get (resty.Response.Header res) "ETag"))
      as [[_ [E|E]] | (-> & _)]; [contradiction | contradiction | reflexivity].
  - split.
    + destruct (Post (GetNodeInfo_request c)) as [res [e|]]; [reflexivity|].
      destruct (_ =? 304); [reflexivity|].
      destruct (update_eTag_cases c "node"
                  (http.Header_Get (resty.Response.Header res) "ETag"))
        as [[-> _] | (-> & _)]; [reflexivity|].
      now apply eTag_set_eTag_ne.
    + destruct (supported_node_type _); [|reflexivity].
      destruct (Post (GetUserList_request c)) as [res [e|]]; [reflexivity|].
      destruct (_ =? 304); [reflexivity|].
      destruct (update_eTag_cases c "users"
                  (http.Header_Get (resty.Response.Header res) "Etag"))
        as [[-> _] | (-> & _)]; [reflexivity|].
      now apply eTag_set_eTag_ne.
  - split; [apply GetNodeInfo_requests | reflexivity].
  - intros req. destruct (supported_node_type _).
    + rewrite elem_of_cons, elem_of_nil. intros [-> | []]. reflexivity.
    + intros H. now apply elem_of_nil in H.
  - intros Post2. split; [apply GetNodeInfo_requests | reflexivity].
  - intros res h Hn -> Hs -> H1 H2. rewrite Hn.
    destruct (Z.eqb_spec (resty.Response.StatusCode res) 304); [contradiction|].
    destruct (update_eTag_cases c "users"
                (http.Header_Get (resty.Response.Header res) "Etag"))
      as [[_ [E|E]] | (-> & _)]; [contradiction | contradiction | reflexivity].
  - intros Hn. rewrite Hn. split; reflexivity.
  - intros Post2 Hn. rewrite Hn.
    assert (forall c1,
              APIClient.NodeType c1 = APIClient.NodeType c ->
              Outcome.requests (GetUserList' Post2 c1) = [GetUserList_request c1]) as Hreq
      by (intros c1 Ht; now rewrite GetUserList_requests, Ht, Hn).
    destruct (Post (GetUserList_request c)) as [res [e|]];
      [split; [now apply Hreq | reflexivity]|].
    destruct (resty.Response.StatusCode res =? 304);
      [split; [now apply Hreq | reflexivity]|].
    split; [apply Hreq, update_eTag_config | reflexivity].
Qed.

(** ** Totality of the node-info normalizer *)

(** C10. [parseNodeInfo] returns a node info for every payload and
    configuration, so [GetNodeInfo] ends in one of five ways, none of them
    the parse-node-info failure: a node info, the transport's error, the
    not-modified condition, the parser's failure, or the failure to
    unmarshal the payload. *)
Theorem parseNodeInfo_total (Post : resty.Transport) (c : APIClient.t)
    (r : NodeInfoResponse.t) :
  (exists nodeInfo, parseNodeInfo' c r = inl nodeInfo)
  /\ (let ret := Outcome.ret (GetNodeInfo' Post c) in
      let res := fst (Post (GetNodeInfo_request c)) in
      (exists nodeInfo, ret = inl nodeInfo)
      \/ (exists text, ret = inr (TransportError text))
      \/ ret = inr (ErrorsNew api.NodeNotModified)
      \/ (exists e, parseResponse' c res "/api/public/xrayr/node/info" None = inr e
                    /\ ret = inr e)
      \/ (exists e, json_Unmarshal_NodeInfoResponse
                      (Response.Data (resty.Response.Result res)) = inr e
                    /\ ret = inr (Errorf ("unmarshal *vpnboard.NodeInfoResponse failed: "
                                            +:+ e))))
  /\ (forall text, Outcome.ret (GetNodeInfo' Post c)
                   <> inr (Errorf ("parse node info failed: " +:+ text))).
Proof.
  split; [unfold parseNodeInfo; eexists; reflexivity|].
  unfold GetNodeInfo.
  destruct (Post (GetNodeInfo_request c)) as [res [e|]]; cbn [fst snd option_map].
  { split; [right; left; eexists; reflexivity | cbn; discriminate]. }
  destruct (resty.Response.StatusCode res =? 304).
  { split; [right; right; left; reflexivity | cbn; discriminate]. }
  rewrite parseResponse_update_eTag.
  destruct (parseResponse' c res _ None) as [response|e] eqn:HR.
  - apply parseResponse_inl in HR as (_ & _ & ->).
    destruct (json_Unmarshal_NodeInfoResponse _) as [payload|e] eqn:HU.
    + split; [left; eexists; reflexivity | cbn; discriminate].
    + split; [do 4 right; exists e; split; reflexivity|].
      cbn. intros text E. rewrite !append_cons in E. discriminate E.
  - split; [do 3 right; left; exists e; split; reflexivity|].
    cbn. intros text E. injection E as ->. revert HR. unfold parseResponse.
    destruct (400 <? _); [|destruct (negb _)]; intros HR; try discriminate HR;
      rewrite !append_cons in HR; discriminate HR.
Qed.
End ClientFacts.

(** ** The local rule loader *)

(** The scanner's tokens are the lines of the text, each without its
    trailing carriage return, when every line fits the buffer. *)
Lemma split_lines_no_newline (line : string) :
  string_forallb (fun c => negb (Ascii.eqb c (ascii_of_nat 10))) line = true ->
  bufio.split_lines line = if String.eqb line EmptyString then [] else [line].
Proof.
  induction line as [|c line IH]; [reflexivity|]. cbn.
  intros H. apply andb_true_iff in H as [Hc Hl]. apply negb_true_iff in Hc.
  rewrite Hc, (IH Hl). now destruct line.
Qed.

Lemma split_lines_newline (line rest : string) :
  string_forallb (fun c => negb (Ascii.eqb c (ascii_of_nat 10))) line = true ->
  bufio.split_lines (line +:+ String (ascii_of_nat 10) rest)
  = line :: bufio.split_lines rest.
Proof.
  induction line as [|c line IH]; [reflexivity|]. cbn.
  intros H. apply andb_true_iff in H as [Hc Hl]. apply negb_true_iff in Hc.
  rewrite append_cons. cbn. now rewrite Hc, (IH Hl).
Qed.

Lemma scan_from_lines (data : string) :
  forall line,
    string_forallb (fun c => negb (Ascii.eqb c (ascii_of_nat 10))) line = true ->
    Forall bufio.fits (bufio.split_lines (line +:+ data)) ->
    bufio.scan_from data line
    = (map bufio.dropCR (bufio.split_lines (line +:+ data)), None).
Proof.
  induction data as [|c rest IH]; intros line Hn Hf.
  - rewrite append_nil_r in *. rewrite (split_lines_no_newline line Hn) in *.
    cbn [bufio.scan_from]. destruct (String.eqb line EmptyString); [reflexivity|].
    apply Forall_cons in Hf as [Hf _]. unfold bufio.fits in Hf.
    apply Z.ltb_lt in Hf. now rewrite Hf.
  - cbn [bufio.scan_from]. destruct (Ascii.eqb_spec c (ascii_of_nat 10)) as [->|Hc].
    + rewrite (split_lines_newline line rest Hn) in *.
      apply Forall_cons in Hf as [Hl Hf]. unfold bufio.fits in Hl.
      apply Z.ltb_lt in Hl. rewrite Hl.
      rewrite (IH EmptyString eq_refl Hf). reflexivity.
    + assert (line +:+ String c rest = (line +:+ String c EmptyString) +:+ rest) as E
        by (now rewrite append_assoc).
      rewrite E in *. apply IH; [|exact Hf].
      rewrite string_forallb_app, Hn. cbn.
      apply Ascii.eqb_neq in Hc. now rewrite Hc.
Qed.

Lemma Scan_lines (file : os.File.t) :
  os.File.read_err file = None ->
  Forall bufio.fits (bufio.split_lines (os.File.data file)) ->
  bufio.Scan file = (map bufio.dropCR (bufio.split_lines (os.File.data file)), None).
Proof.
  intros Hr Hf. unfold bufio.Scan.
  rewrite (scan_from_lines (os.File.data file) EmptyString eq_refl Hf), Hr.
  reflexivity.
Qed.

Section RuleLoaderFacts.
Variable Regexp : Type.
Variable regexp_Compile : string -> Regexp + string.
Variable os_Open : string -> os.File.t + string.

Local Abbreviation readLocalRuleList' := (readLocalRuleList Regexp regexp_Compile os_Open).
Local Abbreviation loop' := (readLocalRuleList_loop Regexp regexp_Compile).

Local Abbreviation rule_of_line' := (rule_of_line Regexp regexp_Compile).

Lemma loop_Returns (tokens : list string) (rules acc : list (api.DetectRule.t Regexp)) :
  Forall2 rule_of_line' tokens rules -> loop' tokens acc = Returns (acc ++ rules).
Proof.
  intros H. revert acc. induction H as [|text rule tokens rules [Hid Hc] _ IH]; intros acc.
  - cbn. now rewrite app_nil_r.
  - cbn. rewrite Hc, IH, <- app_assoc. cbn.
    destruct rule as [id re]. cbn in Hid. now subst id.
Qed.

Lemma loop_Panics (tokens : list string) (acc : list (api.DetectRule.t Regexp))
    (text e : string) :
  text ∈ tokens -> regexp_Compile text = inr e ->
  exists pattern e', loop' tokens acc = Panics pattern e'
                     /\ pattern ∈ tokens /\ regexp_Compile pattern = inr e'.
Proof.
  intros Hin Hc. revert acc.
  induction tokens as [|t tokens IH]; intros acc; [now apply elem_of_nil in Hin|].
  cbn. destruct (regexp_Compile t) as [re|e'] eqn:Ht.
  - apply elem_of_cons in Hin as [-> | Hin]; [congruence|].
    destruct (IH Hin (acc ++ [api.DetectRule.mk (-1) re])) as (p & e' & -> & Hp & He).
    exists p, e'. repeat split; [now apply elem_of_cons; right | exact He].
  - exists t, e'. repeat split; [apply elem_of_cons; now left | exact Ht].
Qed.

(** C9. An empty path gives no rule and logs nothing. A file that
    cannot be opened gives no rule either: the call logs the failure and
    returns. For a file that is read without error and whose lines fit the
    scanner's buffer, every line, in order, becomes one rule with the id -1
    and the line's text (without a trailing carriage return) compiled; a
    line whose text does not compile makes [MustCompile] panic: the call
    does not return, and no line is skipped. *)
Theorem readLocalRuleList_contract (path : string) :
  (path = EmptyString -> readLocalRuleList' path = (Returns [], []))
  /\ (path <> EmptyString -> forall err, os_Open path = inr err ->
      fst (readLocalRuleList' path) = Returns []
      /\ "Error when opening file: " +:+ err ∈ snd (readLocalRuleList' path))
  /\ (path <> EmptyString -> forall file lines,
      os_Open path = inl file -> os.File.read_err file = None ->
      Forall bufio.fits (bufio.split_lines (os.File.data file)) ->
      lines = map bufio.dropCR (bufio.split_lines (os.File.data file)) ->
      (forall rules, Forall2 rule_of_line' lines rules ->
                     fst (readLocalRuleList' path) = Returns rules)
      /\ (forall text e, text ∈ lines -> regexp_Compile text = inr e ->
            exists pattern e', fst (readLocalRuleList' path) = Panics pattern e'
                               /\ pattern ∈ lines
                               /\ regexp_Compile pattern = inr e')).
Proof.
  unfold readLocalRuleList. split; [|split].
  - intros ->. reflexivity.
  - intros Hp err Ho. apply String.eqb_neq in Hp. rewrite Hp, Ho. cbn [negb fst snd].
    split; [reflexivity | apply elem_of_cons; now left].
  - intros Hp file lines Ho Hr Hf ->. apply String.eqb_neq in Hp.
    rewrite Hp, Ho, (Scan_lines file Hr Hf). cbn [negb]. split.
    + intros rules H. rewrite (loop_Returns _ _ [] H). reflexivity.
    + intros text e Hin Hc.
      destruct (loop_Panics _ [] text e Hin Hc) as (p & e' & -> & H1 & H2).
      exists p, e'. repeat split; auto.
Qed.
End RuleLoaderFacts.

(** ** The conversion from Mbps to bytes per second *)

Lemma wrap_int64_small (z : Z) : Int.in_int64 z -> Int.wrap_int64 z = z.
Proof.
  unfold Int.in_int64, Int.wrap_int64. intros H.
  rewrite Z.mod_small by lia. lia.
Qed.

Lemma wrap_uint64_small (z : Z) : Int.in_uint64 z -> Int.wrap_uint64 z = z.
Proof. unfold Int.in_uint64, Int.wrap_uint64. intros H. now apply Z.mod_small. Qed.

Lemma panel_node_speed_limit_small (v : Z) :
  0 <= v <= 9223372036854 -> panel_node_speed_limit v = v * 1000000 / 8.
Proof.
  intros H. unfold panel_node_speed_limit, Int.mul_int64, Int.div_int64.
  assert (0 <= v * 1000000 / 8 <= v * 1000000) as Hq.
  { split; [apply Z.div_pos; lia | apply Z.div_le_upper_bound; lia]. }
  rewrite (wrap_int64_small (v * 1000000)) by (unfold Int.in_int64; lia).
  rewrite Z.quot_div_nonneg by lia.
  rewrite wrap_int64_small by (unfold Int.in_int64; lia).
  apply wrap_uint64_small. unfold Int.in_uint64. lia.
Qed.

Lemma panel_user_speed_limit_small (v : Z) :
  0 <= v <= 18446744073709 -> panel_user_speed_limit v = v * 1000000 / 8.
Proof.
  intros H. unfold panel_user_speed_limit, Int.mul_uint64, Int.div_uint64.
  rewrite wrap_uint64_small by (unfold Int.in_uint64; lia).
  apply Z.quot_div_nonneg; lia.
Qed.


(** ** float64 arithmetic on values it represents exactly *)

Module Float64Facts.
Import Float64.

Lemma digits2_pos_size (p : positive) : digits2_pos p = Pos.size p.
Proof. induction p as [p IH|p IH|]; cbn; now rewrite ?IH. Qed.

(** The number of digits [d] of [p]: [2^(d-1) <= p < 2^d]. *)
Lemma digits2_pos_bounds (p : positive) :
  2 ^ (Zpos (digits2_pos p) - 1) <= Zpos p < 2 ^ Zpos (digits2_pos p).
Proof.
  rewrite digits2_pos_size. split.
  - pose proof (Pos.size_le p) as H.
    apply Pos2Z.pos_le_pos in H. rewrite Pos2Z.inj_pow in H.
    change (Zpos p~0) with (2 * Zpos p) in H.
    replace (Zpos (Pos.size p)) with (Z.succ (Zpos (Pos.size p) - 1)) in H by lia.
    rewrite Z.pow_succ_r in H by lia. lia.
  - pose proof (Pos.size_gt p) as H.
    apply Pos2Z.pos_lt_pos in H. now rewrite Pos2Z.inj_pow in H.
Qed.

Lemma digits2_pos_unique (p : positive) (d : Z) :
  2 ^ (d - 1) <= Zpos p < 2 ^ d -> Zpos (digits2_pos p) = d.
Proof.
  intros [H1 H2]. pose proof (digits2_pos_bounds p) as [B1 B2].
  assert (0 < d) as Hd.
  { destruct (Z.ltb_spec 0 d) as [|Hle]; [assumption|].
    assert (2 ^ d <= 2 ^ 0) by (apply Z.pow_le_mono_r; lia).
    change (2 ^ 0) with 1 in *. lia. }
  destruct (Z.lt_trichotomy (Zpos (digits2_pos p)) d) as [Hlt | [Heq | Hgt]];
    [exfalso | exact Heq | exfalso].
  - assert (2 ^ Zpos (digits2_pos p) <= 2 ^ (d - 1))
      by (apply Z.pow_le_mono_r; lia). lia.
  - assert (2 ^ d <= 2 ^ (Zpos (digits2_pos p) - 1))
      by (apply Z.pow_le_mono_r; lia). lia.
Qed.

Lemma digits2_pos_shift (m M : positive) (k : Z) :
  0 <= k -> Zpos M = Zpos m * 2 ^ k ->
  Zpos (digits2_pos M) = Zpos (digits2_pos m) + k.
Proof.
  intros Hk HM. apply digits2_pos_unique.
  pose proof (digits2_pos_bounds m) as [B1 B2]. rewrite HM.
  replace (Zpos (digits2_pos m) + k - 1) with ((Zpos (digits2_pos m) - 1) + k) by lia.
  assert (0 < 2 ^ k) by (apply Z.pow_pos_nonneg; lia).
  rewrite !Z.pow_add_r by lia. nia.
Qed.

(** [iter_pos] is [Pos.iter]. *)
Lemma iter_pos_iter {A : Type} (f : A -> A) (p : positive) (x : A) :
  SpecFloat.iter_pos f p x = Pos.iter f x p.
Proof.
  revert x. induction p as [p IH|p IH|]; intros x; cbn.
  - rewrite !IH. now rewrite <- !Pos.iter_swap.
  - now rewrite !IH.
  - reflexivity.
Qed.

(** Shifting out [k] zero bits loses nothing. *)
Lemma shr_exact (m M : positive) (k : positive) :
  Zpos M = Zpos m * 2 ^ Zpos k ->
  SpecFloat.iter_pos shr_1 k (Build_shr_record (Zpos M) false false)
  = Build_shr_record (Zpos m) false false.
Proof.
  rewrite iter_pos_iter. revert M.
  induction k as [|k IH] using Pos.peano_ind; intros M HM.
  - cbn. destruct M as [M|M|]; cbn in HM; try lia.
    cbn. f_equal. lia.
  - rewrite Pos.iter_succ_r.
    rewrite Pos2Z.inj_succ, Z.pow_succ_r in HM by lia.
    destruct M as [M|M|]; try lia. cbn [shr_1 orb].
    apply IH. lia.
Qed.

Lemma iter_xO (m : positive) (k : positive) :
  Zpos (Pos.iter xO m k) = Zpos m * 2 ^ Zpos k.
Proof.
  induction k as [|k IH] using Pos.peano_ind.
  - cbn. lia.
  - rewrite Pos.iter_succ, Pos2Z.inj_succ, Z.pow_succ_r by lia.
    rewrite Pos2Z.inj_xO. lia.
Qed.

(** Rounding a significand that ends in [k] zero bits, when dropping
    them leaves a canonical one: the result is exact. *)
Lemma binary_round_aux_exact (s : bool) (m M : positive) (E k : Z) :
  0 <= k -> Zpos M = Zpos m * 2 ^ k ->
  canonical_mantissa prec emax m (E + k) = true ->
  E + k <= emax - prec ->
  binary_round_aux prec emax s (Zpos M) E loc_Exact = S754_finite s m (E + k).
Proof.
  intros Hk HM Hc Hmax. unfold canonical_mantissa in Hc. std_Z. apply Z.eqb_eq in Hc.
  pose proof (digits2_pos_shift m M k Hk HM) as Hd.
  unfold binary_round_aux, shr_fexp.
  cbn [Zdigits2 shr_record_of_loc]. std_Z.
  replace (Zpos (digits2_pos M) + E) with (Zpos (digits2_pos m) + (E + k)) by lia.
  rewrite Hc. replace (E + k - E) with k by lia.
  destruct k as [|p|p]; [| |lia].
  - assert (M = m) as -> by lia.
    cbn [shr shr_m loc_of_shr_record round_nearest_even Zdigits2]. std_Z.
    rewrite Z.add_0_r in *. rewrite Hc, Z.sub_diag.
    cbn [shr shr_m]. std_Z. apply Z.leb_le in Hmax. now rewrite Hmax.
  - cbn [shr]. rewrite (shr_exact m M p HM).
    cbn [shr_m loc_of_shr_record round_nearest_even Zdigits2]. std_Z.
    rewrite Hc, Z.sub_diag. cbn [shr shr_m]. std_Z.
    apply Z.leb_le in Hmax. now rewrite Hmax.
Qed.

Lemma canonical_normal (m : positive) (e : Z) :
  Zpos (digits2_pos m) = prec -> emin prec emax <= e ->
  canonical_mantissa prec emax m e = true.
Proof.
  intros Hd He. unfold canonical_mantissa, fexp. std_Z. apply Z.eqb_eq. rewrite Hd. lia.
Qed.

(** A product that fits the significand is exact. *)
Lemma mul_exact (mx my m : positive) (ex ey k : Z) :
  0 <= k -> Zpos mx * Zpos my = Zpos m * 2 ^ k ->
  canonical_mantissa prec emax m (ex + ey + k) = true ->
  ex + ey + k <= emax - prec ->
  mul (S754_finite false mx ex) (S754_finite false my ey)
  = S754_finite false m (ex + ey + k).
Proof.
  intros Hk HM Hc Hmax. unfold mul, SFmul. cbn [xorb]. std_Z.
  apply binary_round_aux_exact; auto.
Qed.

(** A number of at most 53 bits in the normal range is a float64: its
    significand is shifted up to 53 bits. *)
Lemma of_scaled_normal (m0 : positive) (e0 : Z) :
  let d := Zpos (digits2_pos m0) in
  d <= prec -> emin prec emax <= e0 + d - prec -> e0 + d - prec <= emax - prec ->
  exists m, of_scaled (Zpos m0) e0 = S754_finite false m (e0 + d - prec)
            /\ Zpos m = Zpos m0 * 2 ^ (prec - d)
            /\ Zpos (digits2_pos m) = prec.
Proof.
  intros d. subst d. remember (Zpos (digits2_pos m0)) as d eqn:Ed.
  intros Hd Hmin Hmax. unfold of_scaled, binary_normalize, binary_round. std_Z.
  rewrite <- Ed.
  assert (fexp prec emax (d + e0) = e0 + d - prec) as Hf by (unfold fexp; std_Z; lia).
  rewrite Hf. unfold shl_align. std_Z.
  destruct (e0 + d - prec - e0) as [|p|p] eqn:Hs; [| lia |].
  - exists m0. assert (d = prec) as Hp by lia.
    replace (e0 + d - prec) with (e0 + 0) by lia.
    split; [|split].
    + apply binary_round_aux_exact; try lia.
      apply canonical_normal; [lia | lia].
    + rewrite Hp, Z.sub_diag. lia.
    + lia.
  - exists (Pos.iter xO m0 p).
    assert (prec - d = Zpos p) as Hp by lia.
    assert (Zpos (digits2_pos (Pos.iter xO m0 p)) = prec) as Hdig.
    { rewrite (digits2_pos_shift m0 _ (Zpos p)); [lia | lia | apply iter_xO]. }
    split; [|split].
    + replace (e0 + d - prec) with (e0 + d - prec + 0) at 2 by lia.
      apply binary_round_aux_exact; try lia.
      apply canonical_normal; [exact Hdig | lia].
    + rewrite Hp. apply iter_xO.
    + exact Hdig.
Qed.

(** Dividing a normal float64 by 8 lowers its exponent by 3. *)
Lemma div_8_normal (m : positive) (e : Z) :
  Zpos (digits2_pos m) = prec -> emin prec emax <= e - 4 -> e - 3 <= emax - prec ->
  div (S754_finite false m e) (const 8) = S754_finite false m (e - 3).
Proof.
  intros Hd Hmin Hmax.
  change (const 8) with (S754_finite false 4503599627370496 (-49)).
  unfold div, SFdiv, SFdiv_core_binary. cbn [xorb Zdigits2]. std_Z.
  rewrite Hd. change (Zpos (digits2_pos 4503599627370496)) with prec.
  assert (fexp prec emax (prec + e - (prec + -49)) = e - 4) as Hf
    by (unfold fexp; std_Z; unfold prec in *; lia).
  rewrite Hf. rewrite Z.min_l by lia.
  replace (e - -49 - (e - 4)) with 53 by lia.
  assert (Z.div_eucl (Z.shiftl (Zpos m) 53) 4503599627370496 = (Zpos m~0, 0)) as Hq.
  { rewrite Z.shiftl_mul_pow2 by lia.
    pose proof (Z.div_eucl_eq (Zpos m * 2 ^ 53) 4503599627370496 ltac:(lia)) as Heq.
    pose proof (Z.mod_pos_bound (Zpos m * 2 ^ 53) 4503599627370496 ltac:(lia)) as Hb.
    unfold Z.modulo in Hb.
    destruct (Z.div_eucl (Zpos m * 2 ^ 53) 4503599627370496) as [q r].
    change (2 ^ 53) with (2 * 4503599627370496) in Heq.
    assert (q = 2 * Zpos m) by nia. assert (r = 0) by nia. subst. reflexivity. }
  rewrite Hq. change (new_location 4503599627370496 0) with loc_Exact.
  replace (e - 3) with (e - 4 + 1) by lia.
  apply binary_round_aux_exact; try lia.
  apply canonical_normal; [exact Hd | lia].
Qed.

Lemma trunc_mag_dyadic (m : positive) (e : Z) :
  trunc_mag m e = dyadic_floor (Zpos m) e.
Proof.
  unfold trunc_mag, dyadic_floor. destruct e as [|p|p].
  - cbn. lia.
  - cbn [Z.leb Z.compare]. rewrite Z.shiftl_mul_pow2 by lia. reflexivity.
  - cbn [Z.leb Z.compare Z.opp]. apply Z.shiftr_div_pow2. lia.
Qed.

Lemma dyadic_floor_shift (a j t : Z) :
  0 <= a -> 0 <= j -> dyadic_floor (a * 2 ^ j) t = dyadic_floor a (t + j).
Proof.
  intros Ha Hj. unfold dyadic_floor.
  destruct (Z.leb_spec 0 t) as [Ht|Ht]; destruct (Z.leb_spec 0 (t + j)) as [Hs|Hs];
    try lia.
  - rewrite Z.pow_add_r by lia. lia.
  - replace j with ((t + j) + (- t)) at 1 by lia.
    rewrite Z.pow_add_r by lia. rewrite Z.mul_assoc.
    apply Z.div_mul. apply Z.pow_nonzero; lia.
  - replace (- t) with (- (t + j) + j) by lia.
    rewrite Z.pow_add_r by lia.
    apply Z.div_mul_cancel_r; apply Z.pow_nonzero; lia.
Qed.

Lemma Bps_floor_dyadic (m e : Z) :
  0 <= m -> Bps_floor m e = dyadic_floor (m * 15625) (e + 3).
Proof.
  intros Hm. unfold Bps_floor.
  destruct e as [|p|p].
  - unfold dyadic_floor. cbn [Z.leb Z.compare Z.add].
    change (2 ^ 0) with 1. change (2 ^ 3) with 8.
    replace (m * 1 * 1000000) with (m * 15625 * 8 * 8) by lia.
    now rewrite Z.div_mul by lia.
  - unfold dyadic_floor.
    destruct (Z.leb_spec 0 (Zpos p + 3)) as [_|]; [|lia].
    rewrite Z.pow_add_r by lia. change (2 ^ 3) with 8.
    replace (m * 2 ^ Zpos p * 1000000) with (m * 15625 * (2 ^ Zpos p * 8) * 8) by lia.
    now rewrite Z.div_mul by lia.
  - replace (m * 1000000) with (m * 15625 * 2 ^ 3 * 8) by (change (2 ^ 3) with 8; lia).
    rewrite (Z.mul_comm 8 (2 ^ Zpos p)).
    rewrite Z.div_mul_cancel_r by (try apply Z.pow_nonzero; lia).
    rewrite <- (dyadic_floor_shift (m * 15625) 3 (Zneg p)) by lia.
    unfold dyadic_floor. cbn [Z.leb Z.compare Z.opp]. reflexivity.
Qed.

(** The override [m0 * 2^e0], its product with 1000000 a float64: the
    code yields the floor of the exact quotient. *)
Lemma config_speed_limit_exact (unrepresentable : spec_float -> Z) (c : APIClient.t)
    (m0 : positive) (e0 : Z) :
  APIClient.SpeedLimit c = of_scaled (Zpos m0) e0 ->
  Zpos m0 * 15625 < 2 ^ 53 -> -1000 <= e0 ->
  Bps_floor (Zpos m0) e0 < 2 ^ 64 ->
  config_speed_limit unrepresentable c = Bps_floor (Zpos m0) e0.
Proof.
  intros Hx HP Hmin Hlt.
  assert (-1000 <= e0 <= 60) as He.
  { split; [exact Hmin|]. destruct (Z.le_gt_cases e0 60) as [|Hgt]; [assumption|].
    exfalso. rewrite Bps_floor_dyadic in Hlt by lia. unfold dyadic_floor in Hlt.
    destruct (Z.leb_spec 0 (e0 + 3)); [|lia].
    assert (2 ^ 64 <= 2 ^ (e0 + 3)) by (apply Z.pow_le_mono_r; lia). nia. }
  pose proof (digits2_pos_bounds m0) as [B1 B2].
  pose proof (digits2_pos_bounds (m0 * 15625)) as [P1 P2].
  rewrite Pos2Z.inj_mul in P1, P2.
  remember (Zpos (digits2_pos m0)) as d0 eqn:Ed0.
  remember (Zpos (digits2_pos (m0 * 15625))) as dP eqn:EdP.
  assert (0 < d0) as Hd0 by (subst d0; lia).
  assert (d0 <= dP <= 53) as [HdP1 HdP2].
  { split.
    - destruct (Z.le_gt_cases d0 dP) as [|Hgt]; [assumption|].
      assert (2 ^ dP <= 2 ^ (d0 - 1)) by (apply Z.pow_le_mono_r; lia). lia.
    - destruct (Z.le_gt_cases dP 53) as [|Hgt]; [assumption|].
      assert (2 ^ 53 <= 2 ^ (dP - 1)) by (apply Z.pow_le_mono_r; lia). lia. }
  destruct (of_scaled_normal m0 e0) as (mx & Hmx & Vmx & Dmx);
    unfold prec, emax, emin in *; std_Z; rewrite <- ?Ed0; try lia.
  rewrite <- Ed0 in Hmx, Vmx.
  destruct (of_scaled_normal (m0 * 15625) (e0 + 6)) as (mp & _ & Vmp & Dmp);
    unfold prec, emax, emin in *; std_Z; rewrite <- ?EdP; try lia.
  rewrite <- EdP in Vmp. rewrite Pos2Z.inj_mul in Vmp.
  unfold config_speed_limit. rewrite Hx, Hmx.
  change (const 1000000) with (S754_finite false 8589934592000000 (-33)).
  rewrite (mul_exact mx 8589934592000000 mp _ _ (39 - d0 + dP)).
  - replace (e0 + d0 - 53 + -33 + (39 - d0 + dP)) with (e0 + dP - 47) by lia.
    rewrite div_8_normal by (unfold prec, emax, emin; std_Z; lia).
    assert (trunc_mag mp (e0 + dP - 47 - 3) = Bps_floor (Zpos m0) e0) as Ht.
    { rewrite trunc_mag_dyadic, Vmp, dyadic_floor_shift by lia.
      rewrite Bps_floor_dyadic by lia. f_equal. lia. }
    unfold to_uint64. rewrite Ht.
    destruct (Z.ltb_spec (Bps_floor (Zpos m0) e0) (2 ^ 64)); [reflexivity | lia].
  - lia.
  - rewrite Vmx, Vmp. change 8589934592000000 with (15625 * 2 ^ 39).
    replace (39 - d0 + dP) with ((53 - d0) + 39 - (53 - dP)) by lia.
    replace (2 ^ (53 - d0 + 39 - (53 - dP)))
      with (2 ^ (53 - d0) * 2 ^ 39 / 2 ^ (53 - dP)).
    2:{ rewrite <- Z.pow_add_r by lia. rewrite <- Z.pow_sub_r by lia. reflexivity. }
    assert (2 ^ (53 - d0) * 2 ^ 39
            = 2 ^ (53 - d0 + 39 - (53 - dP)) * 2 ^ (53 - dP)) as Hpow.
    { rewrite <- !Z.pow_add_r by lia. f_equal. lia. }
    rewrite Hpow, Z.div_mul by (apply Z.pow_nonzero; lia). nia.
  - apply canonical_normal; unfold prec, emax, emin; std_Z; lia.
  - unfold prec, emax. lia.
Qed.
End Float64Facts.

Section Conversion.
Variable unrepresentable : spec_float -> Z.

(** C2, as the code has it. The conversion is [floor(mbps * 1000000 / 8)]
    - for the panel's node value, an int64, from 0 to 9223372036854, and for
      the panel's per-user value, a uint64, up to 18446744073709: as long as
      the product with 1000000 fits the type;
    - for the float64 override [m * 2^e] with [m * 15625 < 2^53] and
      [-1000 <= e], that is, when its product with 1000000 is a float64
      (every integer up to 576460752303, and 1.5), the result below 2^64.
    For any override, the float64 quotient [(override * 1000000) / 8] being
    positive with an integer part below 2^64, the result is that integer
    part: the floor of the quotient as float64 arithmetic rounds it. *)
Theorem speed_limit_conversion (c : APIClient.t) (v : Z) (m : positive) (e : Z) :
  (0 <= v <= 9223372036854 -> panel_node_speed_limit v = Bps_floor v 0)
  /\ (0 <= v <= 18446744073709 -> panel_user_speed_limit v = Bps_floor v 0)
  /\ (APIClient.SpeedLimit c = Float64.of_scaled (Zpos m) e ->
      Zpos m * 15625 < 2 ^ 53 -> -1000 <= e ->
      Bps_floor (Zpos m) e < 2 ^ 64 ->
      config_speed_limit unrepresentable c = Bps_floor (Zpos m) e)
  /\ (forall mq eq,
        Float64.div (Float64.mul (APIClient.SpeedLimit c) (Float64.const 1000000))
          (Float64.const 8) = S754_finite false mq eq ->
        Float64.dyadic_floor (Zpos mq) eq < 2 ^ 64 ->
        config_speed_limit unrepresentable c = Float64.dyadic_floor (Zpos mq) eq).
Proof.
  assert (forall z, Bps_floor z 0 = z * 1000000 / 8) as Hb
    by (intros z; unfold Bps_floor; now rewrite Z.pow_0_r, Z.mul_1_r).
  rewrite !Hb.
  split; [apply panel_node_speed_limit_small|].
  split; [apply panel_user_speed_limit_small|].
  split; [apply Float64Facts.config_speed_limit_exact|].
  intros mq eq Hq Hlt. unfold config_speed_limit. rewrite Hq.
  unfold Float64.to_uint64. rewrite Float64Facts.trunc_mag_dyadic.
  destruct (Z.ltb_spec (Float64.dyadic_floor (Zpos mq) eq) (2 ^ 64));
    [reflexivity | lia].
Qed.
End Conversion.

(** * Further properties *)

(** ** The fetches: what a returned value is made of *)

Section FetchFacts.
Variable unrepresentable : spec_float -> Z.
Variable api_text : api.NotModified -> string.
Variable json_Marshal_Response : Response.t -> string.
Variable json_Marshal_NodeInfoResponse : NodeInfoResponse.t -> string.
Variable json_Unmarshal_NodeInfoResponse : string -> NodeInfoResponse.t + string.
Variable json_Unmarshal_UserListResponse : string -> UserListResponse.t + string.

Local Abbreviation parseResponse' := (parseResponse api_text json_Marshal_Response).
Local Abbreviation parseNodeInfo' := (parseNodeInfo unrepresentable).
Local Abbreviation GetUserList_user' := (GetUserList_user unrepresentable).
Local Abbreviation GetNodeInfo' :=
  (GetNodeInfo unrepresentable api_text json_Marshal_Response
     json_Marshal_NodeInfoResponse json_Unmarshal_NodeInfoResponse).
Local Abbreviation GetUserList' :=
  (GetUserList unrepresentable api_text json_Marshal_Response
     json_Unmarshal_UserListResponse).

Lemma parseNodeInfo_after_update (c : APIClient.t) (k h : string)
    (r : NodeInfoResponse.t) :
  parseNodeInfo' (update_eTag c k h) r = parseNodeInfo' c r.
Proof.
  destruct (update_eTag_config c k h) as (_ & Hi & _ & Hv & Hs & _).
  unfold parseNodeInfo, config_speed_limit. now rewrite Hi, Hv, Hs.
Qed.

(** When [GetNodeInfo] returns a node info, and which. *)
Lemma GetNodeInfo_inl (Post : resty.Transport) (c : APIClient.t)
    (nodeInfo : api.NodeInfo.t) :
  Outcome.ret (GetNodeInfo' Post c) = inl nodeInfo <->
  exists res payload,
    Post (GetNodeInfo_request c) = (res, None)
    /\ resty.Response.StatusCode res <> 304
    /\ resty.Response.StatusCode res <= 400
    /\ Response.Code (resty.Response.Result res) = 0
    /\ json_Unmarshal_NodeInfoResponse (Response.Data (resty.Response.Result res))
       = inl payload
    /\ parseNodeInfo' c payload = inl nodeInfo.
Proof.
  unfold GetNodeInfo.
  destruct (Post (GetNodeInfo_request c)) as [res [e|]] eqn:HP; cbn [fst snd option_map].
  { split; [discriminate | intros (? & ? & [=] & _)]. }
  destruct (Z.eqb_spec (resty.Response.StatusCode res) 304) as [H304|H304].
  { split; [discriminate | intros (? & ? & [= <-] & ? & _); contradiction]. }
  rewrite parseResponse_update_eTag.
  destruct (parseResponse' c res _ None) as [response|e] eqn:HR.
  - apply parseResponse_inl in HR as (Hs & Hc & ->).
    destruct (json_Unmarshal_NodeInfoResponse _) as [payload|e] eqn:HU.
    + rewrite parseNodeInfo_after_update.
      destruct (parseNodeInfo' c payload) as [ni|e] eqn:HN; cbn.
      * split.
        -- intros [= <-]. exists res, payload. repeat split; auto.
        -- intros (res' & payload' & [= <-] & _ & _ & _ & HU' & HN').
           rewrite HU in HU'. injection HU' as <-. congruence.
      * split; [discriminate|].
        intros (res' & payload' & [= <-] & _ & _ & _ & HU' & HN').
        rewrite HU in HU'. injection HU' as <-. congruence.
    + cbn. split; [discriminate|].
      intros (res' & payload' & [= <-] & _ & _ & _ & HU' & _). congruence.
  - cbn. split; [discriminate|].
    intros (res' & payload' & [= <-] & _ & Hs & Hc & _).
    assert (parseResponse' c res "/api/public/xrayr/node/info" None
            = inl (resty.Response.Result res)) as E
      by (apply parseResponse_inl; auto).
    congruence.
Qed.

(** X1. A node info that [GetNodeInfo] returns takes its node id and its
    flow from the configuration, and its speed limit from there too when the
    configured override is above zero (from the payload's otherwise). Every
    other field comes from the panel's payload, the node type and the Vless
    flag too; the port is the panel's port modulo 2^32, hence the panel's
    port when that is one. The payload's name, remarks, address and order
    leave no trace. *)
Theorem GetNodeInfo_fields (Post : resty.Transport) (c : APIClient.t)
    (nodeInfo : api.NodeInfo.t) :
  Outcome.ret (GetNodeInfo' Post c) = inl nodeInfo ->
  exists payload,
    json_Unmarshal_NodeInfoResponse
      (Response.Data (resty.Response.Result (fst (Post (GetNodeInfo_request c)))))
    = inl payload
    /\ api.NodeInfo.NodeID nodeInfo = APIClient.NodeID c
    /\ api.NodeInfo.VlessFlow nodeInfo = APIClient.VlessFlow c
    /\ api.NodeInfo.NodeType nodeInfo = NodeInfoResponse.NodeType payload
    /\ api.NodeInfo.EnableVless nodeInfo = NodeInfoResponse.EnableVless payload
    /\ api.NodeInfo.Port nodeInfo = NodeInfoResponse.Port payload mod 2 ^ 32
    /\ 0 <= api.NodeInfo.Port nodeInfo < 2 ^ 32
    /\ (0 <= NodeInfoResponse.Port payload < 2 ^ 32 ->
        api.NodeInfo.Port nodeInfo = NodeInfoResponse.Port payload)
    /\ api.NodeInfo.TransportProtocol nodeInfo = NodeInfoResponse.TransportProtocol payload
    /\ api.NodeInfo.Host nodeInfo = NodeInfoResponse.Host payload
    /\ api.NodeInfo.Path nodeInfo = NodeInfoResponse.Path payload
    /\ api.NodeInfo.EnableTLS nodeInfo = NodeInfoResponse.EnableTLS payload
    /\ api.NodeInfo.ServiceName nodeInfo = NodeInfoResponse.ServiceName payload
    /\ api.NodeInfo.CypherMethod nodeInfo = NodeInfoResponse.Method payload
    /\ api.NodeInfo.ServerKey nodeInfo = NodeInfoResponse.ServerKey payload
    /\ api.NodeInfo.SpeedLimit nodeInfo
       = (if Float64.ltb (Float64.const 0) (APIClient.SpeedLimit c)
          then config_speed_limit unrepresentable c
          else panel_node_speed_limit (NodeInfoResponse.NodeSpeedLimit payload))
    /\ (Float64.ltb (Float64.const 0) (APIClient.SpeedLimit c) = true ->
        forall speed,
          parseNodeInfo' c
            (NodeInfoResponse.mk (NodeInfoResponse.Name payload)
               (NodeInfoResponse.Remarks payload) (NodeInfoResponse.Address payload)
               (NodeInfoResponse.Port payload) (NodeInfoResponse.NodeOrder payload) speed
               (NodeInfoResponse.NodeType payload) (NodeInfoResponse.EnableTLS payload)
               (NodeInfoResponse.Path payload)
               (NodeInfoResponse.TransportProtocol payload)
               (NodeInfoResponse.Host payload) (NodeInfoResponse.ServiceName payload)
               (NodeInfoResponse.EnableVless payload) (NodeInfoResponse.Method payload)
               (NodeInfoResponse.ServerKey payload))
          = inl nodeInfo)
    /\ (forall name remarks address order,
          parseNodeInfo' c
            (NodeInfoResponse.mk name remarks address (NodeInfoResponse.Port payload)
               order (NodeInfoResponse.NodeSpeedLimit payload)
               (NodeInfoResponse.NodeType payload) (NodeInfoResponse.EnableTLS payload)
               (NodeInfoResponse.Path payload)
               (NodeInfoResponse.TransportProtocol payload)
               (NodeInfoResponse.Host payload) (NodeInfoResponse.ServiceName payload)
               (NodeInfoResponse.EnableVless payload) (NodeInfoResponse.Method payload)
               (NodeInfoResponse.ServerKey payload))
          = inl nodeInfo).
Proof.
  intros H. apply GetNodeInfo_inl in H as (res & payload & HP & _ & _ & _ & HU & HN).
  rewrite HP. cbn [fst]. exists payload. split; [exact HU|].
  unfold parseNodeInfo in HN. injection HN as <-.
  cbn [api.NodeInfo.NodeID api.NodeInfo.VlessFlow api.NodeInfo.NodeType
       api.NodeInfo.EnableVless api.NodeInfo.Port api.NodeInfo.TransportProtocol
       api.NodeInfo.Host api.NodeInfo.Path api.NodeInfo.EnableTLS
       api.NodeInfo.ServiceName api.NodeInfo.CypherMethod api.NodeInfo.ServerKey
       api.NodeInfo.SpeedLimit].
  unfold Int.wrap_uint32.
  repeat match goal with |- _ /\ _ => split end; try reflexivity.
  - apply Z.mod_pos_bound. lia.
  - apply Z.mod_pos_bound. lia.
  - intros Hr. now apply Z.mod_small.
  - intros Hs speed. unfold parseNodeInfo.
    change (Float64.ltb (S754_zero false)) with (Float64.ltb (Float64.const 0)).
    rewrite !Hs. reflexivity.
Qed.

(** X2. A list that [GetUserList] returns has one record per record of
    the panel's list, in the panel's order, each with the uid and the uuid of
    its record: nothing is sorted, dropped or merged (two records of the same
    uid stay two). *)
Theorem GetUserList_order (Post : resty.Transport) (c : APIClient.t)
    (l : list api.UserInfo.t) :
  Outcome.ret (GetUserList' Post c) = inl l ->
  exists payload,
    json_Unmarshal_UserListResponse
      (Response.Data (resty.Response.Result (fst (Post (GetUserList_request c)))))
    = inl payload
    /\ length l = length (UserListResponse.List payload)
    /\ map api.UserInfo.UID l = map UserListResponseItem.UID (UserListResponse.List payload)
    /\ map api.UserInfo.UUID l
       = map UserListResponseItem.UUID (UserListResponse.List payload)
    /\ (forall (i : nat) user,
          UserListResponse.List payload !! i = Some user ->
          l !! i = Some (GetUserList_user' c user)).
Proof.
  intros H.
  apply (GetUserList_inl unrepresentable api_text json_Marshal_Response
           json_Unmarshal_UserListResponse) in H
    as (res & payload & _ & HP & _ & _ & _ & HU & ->).
  rewrite HP. cbn [fst]. exists payload. split; [exact HU|].
  split; [apply length_map|].
  split; [rewrite map_map; apply map_ext; reflexivity|].
  split; [rewrite map_map; apply map_ext; reflexivity|].
  intros i user Hi. rewrite list_lookup_fmap, Hi. reflexivity.
Qed.

(** The two fetches succeed on the same terms. *)
Lemma GetNodeInfo_succeeds (Post : resty.Transport) (c : APIClient.t) :
  (exists nodeInfo, Outcome.ret (GetNodeInfo' Post c) = inl nodeInfo) <->
  exists res payload,
    Post (GetNodeInfo_request c) = (res, None)
    /\ resty.Response.StatusCode res <> 304
    /\ resty.Response.StatusCode res <= 400
    /\ Response.Code (resty.Response.Result res) = 0
    /\ json_Unmarshal_NodeInfoResponse (Response.Data (resty.Response.Result res))
       = inl payload.
Proof.
  split.
  - intros (nodeInfo & H). apply GetNodeInfo_inl in H as (res & payload & H).
    exists res, payload. repeat split; apply H.
  - intros (res & payload & HP & H3 & H4 & Hc & HU).
    destruct (parseNodeInfo' c payload) as [nodeInfo|e] eqn:HN; [|discriminate HN].
    exists nodeInfo. apply GetNodeInfo_inl. exists res, payload. auto 7.
Qed.

(** X3. In terms of the response as the transport hands it over, each
    fetch returns a value exactly when the transport reported no error, the
    status is not 304 and not above 400, the envelope's code is 0 and the
    envelope's data decodes; the user list needs a supported node type
    besides. The code's own test of the status stops there: it is the
    transport that leaves the envelope empty outside the statuses 200 to 299,
    and on an empty envelope whose data does not decode a status that the
    test lets through ends in the unmarshal error. *)
Theorem fetch_success_criterion (Post : resty.Transport) (c : APIClient.t) :
  ((exists nodeInfo, Outcome.ret (GetNodeInfo' Post c) = inl nodeInfo) <->
   snd (Post (GetNodeInfo_request c)) = None
   /\ resty.Response.StatusCode (fst (Post (GetNodeInfo_request c))) <> 304
   /\ resty.Response.StatusCode (fst (Post (GetNodeInfo_request c))) <= 400
   /\ Response.Code (resty.Response.Result (fst (Post (GetNodeInfo_request c)))) = 0
   /\ exists payload,
        json_Unmarshal_NodeInfoResponse
          (Response.Data (resty.Response.Result (fst (Post (GetNodeInfo_request c)))))
        = inl payload)
  /\ ((exists userList, Outcome.ret (GetUserList' Post c) = inl userList) <->
      supported_node_type (APIClient.NodeType c) = true
      /\ snd (Post (GetUserList_request c)) = None
      /\ resty.Response.StatusCode (fst (Post (GetUserList_request c))) <> 304
      /\ resty.Response.StatusCode (fst (Post (GetUserList_request c))) <= 400
      /\ Response.Code (resty.Response.Result (fst (Post (GetUserList_request c)))) = 0
      /\ exists payload,
           json_Unmarshal_UserListResponse
             (Response.Data (resty.Response.Result (fst (Post (GetUserList_request c)))))
           = inl payload)
  /\ (forall e,
        snd (Post (GetNodeInfo_request c)) = None ->
        resty.Response.StatusCode (fst (Post (GetNodeInfo_request c))) <> 304 ->
        resty.Response.StatusCode (fst (Post (GetNodeInfo_request c))) <= 400 ->
        resty.Response.Result (fst (Post (GetNodeInfo_request c)))
        = Response.mk 0 EmptyString EmptyString ->
        json_Unmarshal_NodeInfoResponse EmptyString = inr e ->
        Outcome.ret (GetNodeInfo' Post c)
        = inr (Errorf ("unmarshal *vpnboard.NodeInfoResponse failed: " +:+ e)))
  /\ (forall e,
        supported_node_type (APIClient.NodeType c) = true ->
        snd (Post (GetUserList_request c)) = None ->
        resty.Response.StatusCode (fst (Post (GetUserList_request c))) <> 304 ->
        resty.Response.StatusCode (fst (Post (GetUserList_request c))) <= 400 ->
        resty.Response.Result (fst (Post (GetUserList_request c)))
        = Response.mk 0 EmptyString EmptyString ->
        json_Unmarshal_UserListResponse EmptyString = inr e ->
        Outcome.ret (GetUserList' Post c)
        = inr (Errorf ("unmarshal *vpnboard.UserListResponse failed: " +:+ e))).
Proof.
  split; [|split; [|split]].
  - rewrite GetNodeInfo_succeeds.
    destruct (Post (GetNodeInfo_request c)) as [res oe]. cbn [fst snd]. split.
    + intros (res' & payload & [= <- ->] & H3 & H4 & Hc & HU). eauto 8.
    + intros (-> & H3 & H4 & Hc & payload & HU). exists res, payload. auto 7.
  - split.
    + intros (l & H).
      apply (GetUserList_inl unrepresentable api_text json_Marshal_Response
               json_Unmarshal_UserListResponse) in H
        as (res & payload & Hn & HP & H3 & H4 & Hc & HU & _).
      rewrite HP. cbn [fst snd]. eauto 8.
    + intros (Hn & He & H3 & H4 & Hc & payload & HU).
      exists (map (GetUserList_user' c) (UserListResponse.List payload)).
      apply (GetUserList_inl unrepresentable api_text json_Marshal_Response
               json_Unmarshal_UserListResponse).
      exists (fst (Post (GetUserList_request c))), payload.
      destruct (Post (GetUserList_request c)) as [res oe]. cbn [fst snd] in *.
      subst oe. auto 8.
  - intros e He H3 H4 Hr HU. unfold GetNodeInfo.
    destruct (Post (GetNodeInfo_request c)) as [res oe]. cbn [fst snd] in *.
    subst oe. cbn [option_map].
    apply Z.eqb_neq in H3. rewrite H3. unfold parseResponse.
    destruct (Z.ltb_spec 400 (resty.Response.StatusCode res)) as [Hs|_]; [lia|].
    rewrite Hr. cbn [Response.Code Response.Data Z.eqb negb]. now rewrite HU.
  - intros e Hn He H3 H4 Hr HU. unfold GetUserList. rewrite Hn. cbn [negb].
    destruct (Post (GetUserList_request c)) as [res oe]. cbn [fst snd] in *.
    subst oe. cbn [option_map].
    apply Z.eqb_neq in H3. rewrite H3. unfold parseResponse.
    destruct (Z.ltb_spec 400 (resty.Response.StatusCode res)) as [Hs|_]; [lia|].
    rewrite Hr. cbn [Response.Code Response.Data Z.eqb negb]. now rewrite HU.
Qed.

(** ** The tokens across calls *)

Lemma eTag_set_eTag (c : APIClient.t) (k h : string) :
  APIClient.eTag (APIClient.set_eTag c k h) k = h.
Proof.
  unfold APIClient.eTag, APIClient.set_eTag. cbn. now rewrite lookup_insert_eq.
Qed.

Lemma eTag_update_eTag (c : APIClient.t) (k h : string) :
  APIClient.eTag (update_eTag c k h) k = if String.eqb h EmptyString then APIClient.eTag c k else h.
Proof.
  destruct (update_eTag_cases c k h) as [[-> [-> | E]] | (-> & Hn & _)].
  - reflexivity.
  - destruct (String.eqb h EmptyString); auto.
  - apply String.eqb_neq in Hn. rewrite Hn. apply eTag_set_eTag.
Qed.

Lemma eTag_update_eTag_ne (c : APIClient.t) (k k' h : string) :
  k <> k' -> APIClient.eTag (update_eTag c k h) k' = APIClient.eTag c k'.
Proof.
  intros Hk. destruct (update_eTag_cases c k h) as [[-> _] | (-> & _)];
    [reflexivity | now apply eTag_set_eTag_ne].
Qed.

Lemma update_eTag_NodeID (c : APIClient.t) (k h : string) :
  APIClient.NodeID (update_eTag c k h) = APIClient.NodeID c.
Proof. apply update_eTag_config. Qed.

(** X4. A response that came without a transport error, with a status
    other than 304 and a non-empty [ETag] header, fixes what the next fetch of
    that resource sends in [If-None-Match]: that header, whatever the call
    returned, be it an error (status 500, an envelope code other than 0, a
    payload that does not decode). When the panel then answers 304, the next
    fetch reports the resource as not modified and leaves the client as it
    is. The token of the other resource is not touched. *)
Theorem token_follows_last_response (Post Post2 : resty.Transport) (c : APIClient.t)
    (res : resty.Response.t) :
  let node := Outcome.client (GetNodeInfo' Post c) in
  let users := Outcome.client (GetUserList' Post c) in
  (Post (GetNodeInfo_request c) = (res, None) ->
   resty.Response.StatusCode res <> 304 ->
   http.Header_Get (resty.Response.Header res) "ETag" <> EmptyString ->
   Outcome.requests (GetNodeInfo' Post2 node)
   = [resty.Request.mk "/api/public/xrayr/node/info" (Int.wrap_uint64 (APIClient.NodeID c))
        (http.Header_Get (resty.Response.Header res) "ETag")]
   /\ APIClient.eTag node "users" = APIClient.eTag c "users"
   /\ (snd (Post2 (GetNodeInfo_request node)) = None ->
       resty.Response.StatusCode (fst (Post2 (GetNodeInfo_request node))) = 304 ->
       Outcome.ret (GetNodeInfo' Post2 node) = inr (ErrorsNew api.NodeNotModified)
       /\ Outcome.client (GetNodeInfo' Post2 node) = node))
  /\ (supported_node_type (APIClient.NodeType c) = true ->
      Post (GetUserList_request c) = (res, None) ->
      resty.Response.StatusCode res <> 304 ->
      http.Header_Get (resty.Response.Header res) "Etag" <> EmptyString ->
      Outcome.requests (GetUserList' Post2 users)
      = [resty.Request.mk "/api/public/xrayr/user/list" (Int.wrap_uint64 (APIClient.NodeID c))
           (http.Header_Get (resty.Response.Header res) "Etag")]
      /\ APIClient.eTag users "node" = APIClient.eTag c "node"
      /\ (snd (Post2 (GetUserList_request users)) = None ->
          resty.Response.StatusCode (fst (Post2 (GetUserList_request users))) = 304 ->
          Outcome.ret (GetUserList' Post2 users) = inr (ErrorsNew api.UserNotModified)
          /\ Outcome.client (GetUserList' Post2 users) = users)).
Proof.
  cbv zeta. split.
  - intros HP H3 Hh.
    rewrite (GetNodeInfo_client unrepresentable api_text json_Marshal_Response
               json_Marshal_NodeInfoResponse json_Unmarshal_NodeInfoResponse), HP.
    apply Z.eqb_neq in H3. rewrite H3.
    set (h := http.Header_Get (resty.Response.Header res) "ETag") in *.
    set (c1 := update_eTag c "node" h).
    assert (GetNodeInfo_request c1
            = resty.Request.mk "/api/public/xrayr/node/info"
                (Int.wrap_uint64 (APIClient.NodeID c)) h) as Hreq.
    { unfold GetNodeInfo_request, c1. rewrite update_eTag_NodeID, eTag_update_eTag.
      apply String.eqb_neq in Hh. now rewrite Hh. }
    split; [|split].
    + rewrite (GetNodeInfo_requests unrepresentable api_text json_Marshal_Response
                 json_Marshal_NodeInfoResponse json_Unmarshal_NodeInfoResponse).
      now rewrite Hreq.
    + apply eTag_update_eTag_ne. discriminate.
    + intros He Hs. unfold GetNodeInfo.
      destruct (Post2 (GetNodeInfo_request c1)) as [res2 oe]. cbn [fst snd] in *.
      subst oe. cbn [option_map]. apply Z.eqb_eq in Hs. rewrite Hs. split; reflexivity.
  - intros Hn HP H3 Hh.
    rewrite (GetUserList_client unrepresentable api_text json_Marshal_Response
               json_Unmarshal_UserListResponse), Hn, HP.
    apply Z.eqb_neq in H3. rewrite H3.
    set (h := http.Header_Get (resty.Response.Header res) "Etag") in *.
    set (c1 := update_eTag c "users" h).
    assert (APIClient.NodeType c1 = APIClient.NodeType c) as Ht
      by apply update_eTag_config.
    assert (GetUserList_request c1
            = resty.Request.mk "/api/public/xrayr/user/list"
                (Int.wrap_uint64 (APIClient.NodeID c)) h) as Hreq.
    { unfold GetUserList_request, c1. rewrite update_eTag_NodeID, eTag_update_eTag.
      apply String.eqb_neq in Hh. now rewrite Hh. }
    split; [|split].
    + rewrite (GetUserList_requests unrepresentable api_text json_Marshal_Response
                 json_Unmarshal_UserListResponse), Ht, Hn.
      now rewrite Hreq.
    + apply eTag_update_eTag_ne. discriminate.
    + intros He Hs. unfold GetUserList. rewrite Ht, Hn. cbn [negb].
      destruct (Post2 (GetUserList_request c1)) as [res2 oe]. cbn [fst snd] in *.
      subst oe. cbn [option_map]. apply Z.eqb_eq in Hs. rewrite Hs. split; reflexivity.
Qed.
End FetchFacts.

(** ** Sessions *)

Lemma update_eTag_fields (c : APIClient.t) (k h : string) :
  update_eTag c k h
  = APIClient.mk (APIClient.APIHost c) (APIClient.NodeID c) (APIClient.Key c)
      (APIClient.NodeType c) (APIClient.EnableVless c) (APIClient.VlessFlow c)
      (APIClient.SpeedLimit c) (APIClient.DeviceLimit c) (APIClient.DisableCustomConfig c)
      (APIClient.eTags (update_eTag c k h)).
Proof.
  destruct (update_eTag_cases c k h) as [[-> _] | [-> _]]; [now destruct c | reflexivity].
Qed.

Lemma update_eTag_lookup_ne (c : APIClient.t) (k k' h : string) :
  k <> k' -> APIClient.eTags (update_eTag c k h) !! k' = APIClient.eTags c !! k'.
Proof.
  intros Hk. destruct (update_eTag_cases c k h) as [[-> _] | [-> _]]; [reflexivity|].
  cbn. now rewrite lookup_insert_ne.
Qed.

Lemma update_eTag_nonempty (c : APIClient.t) (k k' h : string) :
  APIClient.eTag c k' <> EmptyString -> APIClient.eTag (update_eTag c k h) k' <> EmptyString.
Proof.
  intros Hn. destruct (String.eqb_spec k k') as [<- | Hk].
  - rewrite eTag_update_eTag. destruct (String.eqb_spec h EmptyString); auto.
  - now rewrite eTag_update_eTag_ne.
Qed.

Section SessionFacts.
Variable Regexp : Type.
Variable unrepresentable : spec_float -> Z.
Variable api_text : api.NotModified -> string.
Variable json_Marshal_Response : Response.t -> string.
Variable json_Marshal_NodeInfoResponse : NodeInfoResponse.t -> string.
Variable json_Unmarshal_NodeInfoResponse : string -> NodeInfoResponse.t + string.
Variable json_Unmarshal_UserListResponse : string -> UserListResponse.t + string.

Local Abbreviation step' :=
  (step Regexp unrepresentable api_text json_Marshal_Response
     json_Marshal_NodeInfoResponse json_Unmarshal_NodeInfoResponse
     json_Unmarshal_UserListResponse).
Local Abbreviation run' :=
  (run Regexp unrepresentable api_text json_Marshal_Response
     json_Marshal_NodeInfoResponse json_Unmarshal_NodeInfoResponse
     json_Unmarshal_UserListResponse).

Lemma run_cons (k : call) (rest : list call) (c : FullClient.t Regexp) :
  run' (k :: rest) c
  = (fst (run' rest (fst (step' k c))), snd (step' k c) ++ snd (run' rest (fst (step' k c)))).
Proof.
  cbn [run]. destruct (step' k c) as [c1 sent1]. cbn [fst snd].
  now destruct (run' rest c1).
Qed.

(** What one call does to the fields: nothing, or one token written. *)
Lemma step_fields (k : call) (c : FullClient.t Regexp) :
  FullClient.fields (fst (step' k c)) = FullClient.fields c
  \/ exists key h,
       (key = "node" \/ key = "users")
       /\ FullClient.fields (fst (step' k c)) = update_eTag (FullClient.fields c) key h.
Proof.
  destruct k as [Post|Post| | | | | | |]; cbn [step fst FullClient.fields Debug]; auto.
  - rewrite (GetNodeInfo_client unrepresentable api_text json_Marshal_Response
               json_Marshal_NodeInfoResponse json_Unmarshal_NodeInfoResponse).
    destruct (Post _) as [res [e|]]; auto.
    destruct (_ =? 304); [auto|].
    right. eexists "node", _. split; [now left | reflexivity].
  - rewrite (GetUserList_client unrepresentable api_text json_Marshal_Response
               json_Unmarshal_UserListResponse).
    destruct (supported_node_type _); auto.
    destruct (Post _) as [res [e|]]; auto.
    destruct (_ =? 304); [auto|].
    right. eexists "users", _. split; [now right | reflexivity].
Qed.

Lemma step_static (k : call) (c : FullClient.t Regexp) :
  FullClient.LocalRuleList (fst (step' k c)) = FullClient.LocalRuleList c
  /\ FullClient.LastReportOnline (fst (step' k c)) = FullClient.LastReportOnline c
  /\ restyClient.RetryCount (FullClient.client (fst (step' k c)))
     = restyClient.RetryCount (FullClient.client c)
  /\ restyClient.Timeout (FullClient.client (fst (step' k c)))
     = restyClient.Timeout (FullClient.client c)
  /\ restyClient.BaseURL (FullClient.client (fst (step' k c)))
     = restyClient.BaseURL (FullClient.client c).
Proof. destruct k; repeat split. Qed.

Lemma step_requests (k : call) (c : FullClient.t Regexp) :
  snd (step' k c)
  = match k with
    | Call_GetNodeInfo _ => [GetNodeInfo_request (FullClient.fields c)]
    | Call_GetUserList _ =>
        if supported_node_type (APIClient.NodeType (FullClient.fields c))
        then [GetUserList_request (FullClient.fields c)] else []
    | _ => []
    end.
Proof.
  destruct k as [Post|Post| | | | | | |]; cbn [step snd]; try reflexivity.
  - apply GetNodeInfo_requests.
  - apply GetUserList_requests.
Qed.

(** The configuration of a client: its fields with the tokens left out. *)
Lemma run_fields (calls : list call) (c : FullClient.t Regexp) :
  FullClient.fields (fst (run' calls c))
  = APIClient.mk (APIClient.APIHost (FullClient.fields c))
      (APIClient.NodeID (FullClient.fields c)) (APIClient.Key (FullClient.fields c))
      (APIClient.NodeType (FullClient.fields c))
      (APIClient.EnableVless (FullClient.fields c))
      (APIClient.VlessFlow (FullClient.fields c))
      (APIClient.SpeedLimit (FullClient.fields c))
      (APIClient.DeviceLimit (FullClient.fields c))
      (APIClient.DisableCustomConfig (FullClient.fields c))
      (APIClient.eTags (FullClient.fields (fst (run' calls c)))).
Proof.
  revert c. induction calls as [|k rest IH]; intros c.
  - cbn. now destruct (FullClient.fields c).
  - rewrite run_cons. cbn [fst]. rewrite IH at 1.
    destruct (step_fields k c) as [-> | (key & h & _ & ->)]; [reflexivity|].
    rewrite (update_eTag_fields (FullClient.fields c) key h) at 1 2 3 4 5 6 7 8 9.
    reflexivity.
Qed.

Lemma run_static (calls : list call) (c : FullClient.t Regexp) :
  FullClient.LocalRuleList (fst (run' calls c)) = FullClient.LocalRuleList c
  /\ FullClient.LastReportOnline (fst (run' calls c)) = FullClient.LastReportOnline c
  /\ restyClient.RetryCount (FullClient.client (fst (run' calls c)))
     = restyClient.RetryCount (FullClient.client c)
  /\ restyClient.Timeout (FullClient.client (fst (run' calls c)))
     = restyClient.Timeout (FullClient.client c)
  /\ restyClient.BaseURL (FullClient.client (fst (run' calls c)))
     = restyClient.BaseURL (FullClient.client c).
Proof.
  revert c. induction calls as [|k rest IH]; intros c; [repeat split|].
  rewrite run_cons. cbn [fst].
  destruct (IH (fst (step' k c))) as (-> & -> & -> & -> & ->).
  apply step_static.
Qed.

Lemma run_tokens (calls : list call) (c : FullClient.t Regexp) (key : string) :
  (key <> "node" -> key <> "users" ->
   APIClient.eTags (FullClient.fields (fst (run' calls c))) !! key
   = APIClient.eTags (FullClient.fields c) !! key)
  /\ (APIClient.eTag (FullClient.fields c) key <> EmptyString ->
      APIClient.eTag (FullClient.fields (fst (run' calls c))) key <> EmptyString).
Proof.
  revert c. induction calls as [|k rest IH]; intros c; [split; auto|].
  rewrite run_cons. cbn [fst].
  destruct (IH (fst (step' k c))) as [IH1 IH2].
  destruct (step_fields k c) as [E | (k' & h & Hk & E)]; rewrite E in IH1, IH2.
  - split; auto.
  - split.
    + intros H1 H2. rewrite (IH1 H1 H2). apply update_eTag_lookup_ne.
      destruct Hk as [-> | ->]; congruence.
    + intros Hn. apply IH2. now apply update_eTag_nonempty.
Qed.

Lemma run_requests (calls : list call) (c : FullClient.t Regexp) :
  Forall (fun req =>
            resty.Request.node_id req = Int.wrap_uint64 (APIClient.NodeID (FullClient.fields c))
            /\ (resty.Request.Path req = "/api/public/xrayr/node/info"
                \/ resty.Request.Path req = "/api/public/xrayr/user/list"))
    (snd (run' calls c))
  /\ (length (snd (run' calls c)) <= length (filter (fun k => is_fetch k = true) calls))%nat.
Proof.
  revert c. induction calls as [|k rest IH]; intros c; [split; [constructor | cbn; lia]|].
  rewrite run_cons. cbn [snd].
  destruct (IH (fst (step' k c))) as [IH1 IH2].
  assert (APIClient.NodeID (FullClient.fields (fst (step' k c)))
          = APIClient.NodeID (FullClient.fields c)) as Hid.
  { destruct (step_fields k c) as [-> | (k' & h & _ & ->)];
      [reflexivity | apply update_eTag_NodeID]. }
  rewrite Hid in IH1. rewrite step_requests. split.
  - apply Forall_app. split; [|exact IH1].
    destruct k; try (constructor; fail).
    + constructor; [cbn; auto | constructor].
    + destruct (supported_node_type _); constructor; [cbn; auto | constructor].
  - rewrite length_app.
    destruct k as [Post|Post| | | | | | |];
      try (rewrite filter_cons_False by (cbn; congruence); cbn [length]; lia).
    + rewrite filter_cons_True by reflexivity. cbn [length]. lia.
    + rewrite filter_cons_True by reflexivity.
      destruct (supported_node_type _); cbn [length]; lia.
Qed.

Lemma run_debug (calls : list call) (c : FullClient.t Regexp) :
  restyClient.Debug (FullClient.client (fst (run' calls c))) = true <->
  restyClient.Debug (FullClient.client c) = true \/ Call_Debug ∈ calls.
Proof.
  revert c. induction calls as [|k rest IH]; intros c.
  - cbn. rewrite elem_of_nil. split; [auto | intros [H | []]; exact H].
  - rewrite run_cons. cbn [fst]. rewrite IH, elem_of_cons.
    destruct k; cbn [step fst FullClient.client Debug restyClient.SetDebug restyClient.Debug];
      split; intros H; try (destruct H as [H | H]; auto; fail);
      try (destruct H as [H | [H | H]]; auto; discriminate H).
Qed.

Lemma run_no_fetch (calls : list call) (c : FullClient.t Regexp) :
  Forall (fun k => is_fetch k = false) calls ->
  FullClient.fields (fst (run' calls c)) = FullClient.fields c /\ snd (run' calls c) = [].
Proof.
  intros H. revert c. induction H as [|k rest Hk _ IH]; intros c; [split; reflexivity|].
  rewrite run_cons. cbn [fst snd].
  destruct (IH (fst (step' k c))) as [-> ->].
  destruct k; try discriminate Hk; split; reflexivity.
Qed.

(** X5. Whatever the host calls, in whatever order and with whatever
    answers from the panel, the client keeps its configuration, its rules, its
    (empty) record of online users and the transport's retry count, timeout
    and base URL: [Describe] and [GetNodeRule] answer as at the start. Only
    the tokens [node] and [users] are ever written, and a token once set is
    never cleared; the transport's debug mode is on exactly when it was on or
    [Debug] was called. Every request goes to one of the two fetch paths with the
    configured node id, and there is at most one per fetch called: the four
    reports, [Describe], [GetNodeRule] and [Debug] send nothing and leave
    the fields alone. *)
Theorem session_invariants (calls : list call) (c : FullClient.t Regexp) :
  let c' := fst (run' calls c) in
  let sent := snd (run' calls c) in
  FullClient.fields c'
  = APIClient.mk (APIClient.APIHost (FullClient.fields c))
      (APIClient.NodeID (FullClient.fields c)) (APIClient.Key (FullClient.fields c))
      (APIClient.NodeType (FullClient.fields c))
      (APIClient.EnableVless (FullClient.fields c))
      (APIClient.VlessFlow (FullClient.fields c))
      (APIClient.SpeedLimit (FullClient.fields c))
      (APIClient.DeviceLimit (FullClient.fields c))
      (APIClient.DisableCustomConfig (FullClient.fields c))
      (APIClient.eTags (FullClient.fields c'))
  /\ Describe (FullClient.fields c') = Describe (FullClient.fields c)
  /\ GetNodeRule Regexp c' = GetNodeRule Regexp c
  /\ FullClient.LastReportOnline c' = FullClient.LastReportOnline c
  /\ restyClient.RetryCount (FullClient.client c')
     = restyClient.RetryCount (FullClient.client c)
  /\ restyClient.Timeout (FullClient.client c') = restyClient.Timeout (FullClient.client c)
  /\ restyClient.BaseURL (FullClient.client c') = restyClient.BaseURL (FullClient.client c)
  /\ (restyClient.Debug (FullClient.client c') = true <->
      restyClient.Debug (FullClient.client c) = true \/ Call_Debug ∈ calls)
  /\ (forall key, key <> "node" -> key <> "users" ->
        APIClient.eTags (FullClient.fields c') !! key
        = APIClient.eTags (FullClient.fields c) !! key)
  /\ (forall key, APIClient.eTag (FullClient.fields c) key <> EmptyString ->
        APIClient.eTag (FullClient.fields c') key <> EmptyString)
  /\ Forall (fun req =>
               resty.Request.node_id req
               = Int.wrap_uint64 (APIClient.NodeID (FullClient.fields c))
               /\ (resty.Request.Path req = "/api/public/xrayr/node/info"
                   \/ resty.Request.Path req = "/api/public/xrayr/user/list")) sent
  /\ (length sent <= length (filter (fun k => is_fetch k = true) calls))%nat
  /\ (Forall (fun k => is_fetch k = false) calls ->
      FullClient.fields c' = FullClient.fields c /\ sent = []).
Proof.
  cbv zeta.
  destruct (run_static calls c) as (Hr & Ho & H1 & H2 & H3).
  destruct (run_requests calls c) as [Hq Hl].
  split; [apply run_fields|].
  split; [unfold Describe; now rewrite run_fields|].
  split; [unfold GetNodeRule; now rewrite Hr|].
  do 4 (split; [assumption|]).
  split; [apply run_debug|].
  split; [intros key; apply run_tokens|].
  split; [intros key; apply run_tokens|].
  split; [exact Hq|].
  split; [exact Hl|].
  apply run_no_fetch.
Qed.
End SessionFacts.

(** ** The rule loader: how a call ends *)

(** The scanner stops at the first line its buffer does not hold: the
    tokens are the lines before it. *)
Lemma scan_from_too_long (data : string) :
  forall line pre long post,
    string_forallb (fun c => negb (Ascii.eqb c (ascii_of_nat 10))) line = true ->
    bufio.split_lines (line +:+ data) = pre ++ long :: post ->
    Forall bufio.fits pre -> ~ bufio.fits long ->
    bufio.scan_from data line = (map bufio.dropCR pre, Some bufio.ErrTooLong).
Proof.
  induction data as [|c rest IH]; intros line pre long post Hn Hs Hf Hl.
  - rewrite append_nil_r in Hs. rewrite (split_lines_no_newline line Hn) in Hs.
    cbn [bufio.scan_from]. destruct (String.eqb line EmptyString).
    + now destruct pre.
    + destruct pre as [|p [|? ?]]; try discriminate Hs. injection Hs as <- _.
      unfold bufio.fits in Hl.
      destruct (Z.ltb_spec (Z.of_nat (String.length line)) bufio.MaxScanTokenSize);
        [contradiction | reflexivity].
  - cbn [bufio.scan_from]. destruct (Ascii.eqb_spec c (ascii_of_nat 10)) as [->|Hc].
    + rewrite (split_lines_newline line rest Hn) in Hs.
      destruct pre as [|p pre].
      * injection Hs as <- _. unfold bufio.fits in Hl.
        destruct (Z.ltb_spec (Z.of_nat (String.length line)) bufio.MaxScanTokenSize);
          [contradiction | reflexivity].
      * injection Hs as <- Hs. apply Forall_cons in Hf as [Hp Hf].
        unfold bufio.fits in Hp. apply Z.ltb_lt in Hp. rewrite Hp.
        rewrite (IH EmptyString pre long post eq_refl Hs Hf Hl). reflexivity.
    + assert (line +:+ String c rest = (line +:+ String c EmptyString) +:+ rest) as E
        by (now rewrite append_assoc).
      rewrite E in Hs. apply (IH _ pre long post); auto.
      rewrite string_forallb_app, Hn. cbn.
      apply Ascii.eqb_neq in Hc. now rewrite Hc.
Qed.

Lemma Scan_too_long (file : os.File.t) (pre : list string) (long : string)
    (post : list string) :
  bufio.split_lines (os.File.data file) = pre ++ long :: post ->
  Forall bufio.fits pre -> ~ bufio.fits long ->
  bufio.Scan file = (map bufio.dropCR pre, Some bufio.ErrTooLong).
Proof.
  intros Hs Hf Hl. unfold bufio.Scan.
  now rewrite (scan_from_too_long (os.File.data file) EmptyString pre long post eq_refl Hs Hf Hl).
Qed.

Section RuleLoaderEndings.
Variable Regexp : Type.
Variable regexp_Compile : string -> Regexp + string.
Variable os_Open : string -> os.File.t + string.

Local Abbreviation readLocalRuleList' := (readLocalRuleList Regexp regexp_Compile os_Open).
Local Abbreviation loop' := (readLocalRuleList_loop Regexp regexp_Compile).
Local Abbreviation rule_of_line' := (rule_of_line Regexp regexp_Compile).

(** The loop panics on the first token that does not compile. *)
Lemma loop_first_failure (before : list string) (text : string) (after : list string)
    (rules acc : list (api.DetectRule.t Regexp)) (e : string) :
  Forall2 rule_of_line' before rules -> regexp_Compile text = inr e ->
  loop' (before ++ text :: after) acc = Panics text e.
Proof.
  intros H He. revert acc.
  induction H as [|t rule before rules [_ Hc] _ IH]; intros acc; cbn.
  - now rewrite He.
  - rewrite Hc. apply IH.
Qed.

(** X6. How [readLocalRuleList] ends on a file it could open. The
    first token that does not compile makes it panic with that token, after
    the deferred close (whatever the scanner would have reported later).
    With every token compiled, an error of the scanner ends the process:
    one line is logged, the file is not closed, nothing is returned. Without
    one, the rules are returned, one per token. A line that the scanner's
    buffer of 64 KiB does not hold is such an error: the lines after it are
    never looked at. A file that cannot be opened costs two log lines, the
    second from closing the file that was never opened. *)
Theorem readLocalRuleList_endings (path : string) :
  path <> EmptyString ->
  (forall err, os_Open path = inr err ->
     readLocalRuleList' path
     = (Returns [], ["Error when opening file: " +:+ err;
                     "Error when closing file: " +:+ os.ErrInvalid]))
  /\ (forall file tokens err, os_Open path = inl file -> bufio.Scan file = (tokens, err) ->
      (forall before text after rules e,
         tokens = before ++ text :: after ->
         Forall2 rule_of_line' before rules -> regexp_Compile text = inr e ->
         readLocalRuleList' path = (Panics text e, deferred_Close (Some file)))
      /\ (forall rules e, Forall2 rule_of_line' tokens rules -> err = Some e ->
            readLocalRuleList' path = (Fatal, ["Error while reading file: " +:+ e]))
      /\ (forall rules, Forall2 rule_of_line' tokens rules -> err = None ->
            readLocalRuleList' path = (Returns rules, deferred_Close (Some file))
            /\ length rules = length tokens))
  /\ (forall file pre long post rules,
        os_Open path = inl file ->
        bufio.split_lines (os.File.data file) = pre ++ long :: post ->
        Forall bufio.fits pre -> ~ bufio.fits long ->
        Forall2 rule_of_line' (map bufio.dropCR pre) rules ->
        readLocalRuleList' path
        = (Fatal, ["Error while reading file: " +:+ bufio.ErrTooLong])).
Proof.
  intros Hp. apply String.eqb_neq in Hp. unfold readLocalRuleList. rewrite Hp.
  cbn [negb]. split; [|split].
  - intros err ->. reflexivity.
  - intros file tokens err -> ->. split; [|split].
    + intros before text after rules e -> H He.
      now rewrite (loop_first_failure before text after rules [] e H He).
    + intros rules e H ->.
      now rewrite (loop_Returns Regexp regexp_Compile tokens rules [] H).
    + intros rules H ->.
      rewrite (loop_Returns Regexp regexp_Compile tokens rules [] H).
      split; [reflexivity|]. symmetry. exact (Forall2_length _ _ _ H).
  - intros file pre long post rules -> Hs Hf Hl H.
    rewrite (Scan_too_long file pre long post Hs Hf Hl).
    now rewrite (loop_Returns Regexp regexp_Compile _ rules [] H).
Qed.
End RuleLoaderEndings.

(** ** Construction *)

Lemma mul_int64_small (a b : Z) : Int.in_int64 (a * b) -> Int.mul_int64 a b = a * b.
Proof.
  unfold Int.in_int64, Int.mul_int64, Int.wrap_int64. intros H.
  rewrite Z.mod_small; lia.
Qed.

Lemma wrap_int64_range (z : Z) : Int.in_int64 (Int.wrap_int64 z).
Proof.
  unfold Int.in_int64, Int.wrap_int64.
  pose proof (Z.mod_pos_bound (z + 2 ^ 63) (2 ^ 64) ltac:(lia)). lia.
Qed.

Section ConstructionFacts.
Variable Regexp : Type.
Variable regexp_Compile : string -> Regexp + string.
Variable os_Open : string -> os.File.t + string.
Variable unrepresentable : spec_float -> Z.
Variable api_text : api.NotModified -> string.
Variable json_Marshal_Response : Response.t -> string.
Variable json_Marshal_NodeInfoResponse : NodeInfoResponse.t -> string.
Variable json_Unmarshal_NodeInfoResponse : string -> NodeInfoResponse.t + string.
Variable json_Unmarshal_UserListResponse : string -> UserListResponse.t + string.

Local Abbreviation New' := (New Regexp regexp_Compile os_Open).
Local Abbreviation readLocalRuleList' := (readLocalRuleList Regexp regexp_Compile os_Open).
Local Abbreviation step' :=
  (step Regexp unrepresentable api_text json_Marshal_Response
     json_Marshal_NodeInfoResponse json_Unmarshal_NodeInfoResponse
     json_Unmarshal_UserListResponse).
Local Abbreviation run' :=
  (run Regexp unrepresentable api_text json_Marshal_Response
     json_Marshal_NodeInfoResponse json_Unmarshal_NodeInfoResponse
     json_Unmarshal_UserListResponse).

(** What [New] returns, when it does. *)
Lemma New_Returns (apiConfig : Config.t) (c : FullClient.t Regexp) (logs : list string) :
  New' apiConfig = (Returns c, logs) <->
  exists rules,
    readLocalRuleList' (Config.RuleListPath apiConfig) = (Returns rules, logs)
    /\ c = FullClient.mk
             (APIClient.mk (Config.APIHost apiConfig) (Config.NodeID apiConfig)
                (Config.Key apiConfig) (Config.NodeType apiConfig)
                (Config.EnableVless apiConfig) (Config.VlessFlow apiConfig)
                (Config.SpeedLimit apiConfig) (Config.DeviceLimit apiConfig)
                (Config.DisableCustomConfig apiConfig) ∅)
             (restyClient.mk 3
                (if 0 <? Config.Timeout apiConfig
                 then Int.mul_int64 (Config.Timeout apiConfig) Duration.Second
                 else 5 * Duration.Second)
                (Config.APIHost apiConfig) false)
             rules ∅.
Proof.
  unfold New.
  destruct (readLocalRuleList' (Config.RuleListPath apiConfig)) as [[rules|p e|] logs'].
  - split.
    + intros [= <- <-]. eauto.
    + intros (rules' & [= <- <-] & ->). reflexivity.
  - split; [discriminate | intros (? & [=] & _)].
  - split; [discriminate | intros (? & [=] & _)].
Qed.

(** The first request a session sends for a resource carries the token the
    client had for it at the start. *)
Lemma run_first_request (calls : list call) (c : FullClient.t Regexp)
    (path key : string) (req : resty.Request.t) :
  (path = "/api/public/xrayr/node/info" /\ key = "node"
   \/ path = "/api/public/xrayr/user/list" /\ key = "users") ->
  find (fun r => String.eqb (resty.Request.Path r) path) (snd (run' calls c)) = Some req ->
  resty.Request.If_None_Match req = APIClient.eTag (FullClient.fields c) key.
Proof.
  intros Hk. revert c. induction calls as [|k rest IH]; intros c; [discriminate|].
  rewrite (run_cons Regexp unrepresentable api_text json_Marshal_Response
             json_Marshal_NodeInfoResponse json_Unmarshal_NodeInfoResponse
             json_Unmarshal_UserListResponse).
  cbn [snd].
  rewrite (step_requests Regexp unrepresentable api_text json_Marshal_Response
             json_Marshal_NodeInfoResponse json_Unmarshal_NodeInfoResponse
             json_Unmarshal_UserListResponse).
  pose proof (step_fields Regexp unrepresentable api_text json_Marshal_Response
                json_Marshal_NodeInfoResponse json_Unmarshal_NodeInfoResponse
                json_Unmarshal_UserListResponse k c) as Hf.
  specialize (IH (fst (step' k c))).
  destruct k as [Post|Post| | | | | | |];
    try (cbn [app]; intros H; rewrite (IH H); reflexivity).
  - destruct Hk as [[-> ->] | [-> ->]]; cbn [app find GetNodeInfo_request resty.Request.Path].
    + rewrite String.eqb_refl. now intros [= <-].
    + change (("/api/public/xrayr/node/info" =? "/api/public/xrayr/user/list")%string)
        with false.
      intros H. rewrite (IH H).
      destruct Hf as [-> | (k' & h & _ & Hf)]; [reflexivity|].
      revert Hf. cbn [step fst FullClient.fields].
      rewrite (GetNodeInfo_client unrepresentable api_text json_Marshal_Response
                 json_Marshal_NodeInfoResponse json_Unmarshal_NodeInfoResponse).
      intros _. destruct (Post _) as [res [e|]]; [reflexivity|].
      destruct (_ =? 304); [reflexivity|]. now apply eTag_update_eTag_ne.
  - assert (APIClient.eTag (FullClient.fields (fst (step' (Call_GetUserList Post) c))) "node"
            = APIClient.eTag (FullClient.fields c) "node") as Hn.
    { cbn [step fst FullClient.fields].
      rewrite (GetUserList_client unrepresentable api_text json_Marshal_Response
                 json_Unmarshal_UserListResponse).
      destruct (supported_node_type _); [|reflexivity].
      destruct (Post _) as [res [e|]]; [reflexivity|].
      destruct (_ =? 304); [reflexivity|]. now apply eTag_update_eTag_ne. }
    assert (supported_node_type (APIClient.NodeType (FullClient.fields c)) = false ->
            FullClient.fields (fst (step' (Call_GetUserList Post) c)) = FullClient.fields c)
      as Hu.
    { intros Hs. cbn [step fst FullClient.fields].
      rewrite (GetUserList_client unrepresentable api_text json_Marshal_Response
                 json_Unmarshal_UserListResponse).
      now rewrite Hs. }
    destruct Hk as [[-> ->] | [-> ->]].
    + destruct (supported_node_type _);
        cbn [app find GetUserList_request resty.Request.Path].
      * change (("/api/public/xrayr/user/list" =? "/api/public/xrayr/node/info")%string)
          with false.
        intros H. now rewrite (IH H).
      * intros H. now rewrite (IH H).
    + destruct (supported_node_type _) eqn:Hs;
        cbn [app find GetUserList_request resty.Request.Path].
      * rewrite String.eqb_refl. now intros [= <-].
      * intros H. rewrite (IH H). now rewrite (Hu eq_refl).
Qed.

(** X7. [New] ends as [readLocalRuleList] on the configured path does,
    with its log lines; with no path it returns. The client it returns
    describes itself by the configuration, hands out the rules just read,
    retries three times against the configured base URL, and waits the
    configured number of seconds: five when that number is not above zero,
    and a wrapped-around value when it is above 9223372036. It starts without
    tokens, so in any session the first request for the node and the first
    for the users carry an empty [If-None-Match], and every request the
    configured node id. *)
Theorem New_contract (apiConfig : Config.t) :
  (forall pattern e,
     fst (readLocalRuleList' (Config.RuleListPath apiConfig)) = Panics pattern e ->
     fst (New' apiConfig) = Panics pattern e)
  /\ (fst (readLocalRuleList' (Config.RuleListPath apiConfig)) = Fatal ->
      fst (New' apiConfig) = Fatal)
  /\ (forall rules,
        fst (readLocalRuleList' (Config.RuleListPath apiConfig)) = Returns rules ->
        exists c, fst (New' apiConfig) = Returns c /\ FullClient.LocalRuleList c = rules)
  /\ snd (New' apiConfig) = snd (readLocalRuleList' (Config.RuleListPath apiConfig))
  /\ (Config.RuleListPath apiConfig = EmptyString ->
      exists c, New' apiConfig = (Returns c, []) /\ FullClient.LocalRuleList c = [])
  /\ (forall c logs, New' apiConfig = (Returns c, logs) ->
      fst (readLocalRuleList' (Config.RuleListPath apiConfig))
      = Returns (FullClient.LocalRuleList c)
      /\ restyClient.RetryCount (FullClient.client c) = 3
      /\ restyClient.BaseURL (FullClient.client c) = Config.APIHost apiConfig
      /\ (Config.Timeout apiConfig <= 0 ->
          restyClient.Timeout (FullClient.client c) = 5 * Duration.Second)
      /\ (0 < Config.Timeout apiConfig <= 9223372036 ->
          restyClient.Timeout (FullClient.client c)
          = Config.Timeout apiConfig * Duration.Second)
      /\ (9223372036 < Config.Timeout apiConfig ->
          restyClient.Timeout (FullClient.client c)
          <> Config.Timeout apiConfig * Duration.Second)
      /\ forall calls,
           Describe (FullClient.fields (fst (run' calls c)))
           = ClientInfo.mk (Config.APIHost apiConfig) (Config.NodeID apiConfig)
               (Config.Key apiConfig) (Config.NodeType apiConfig)
           /\ GetNodeRule Regexp (fst (run' calls c)) = inl (FullClient.LocalRuleList c)
           /\ Forall (fun req => resty.Request.node_id req
                                 = Int.wrap_uint64 (Config.NodeID apiConfig))
                (snd (run' calls c))
           /\ (forall path req,
                 path = "/api/public/xrayr/node/info"
                 \/ path = "/api/public/xrayr/user/list" ->
                 find (fun r => String.eqb (resty.Request.Path r) path)
                   (snd (run' calls c)) = Some req ->
                 resty.Request.If_None_Match req = EmptyString)).
Proof.
  split; [|split; [|split; [|split; [|split]]]].
  - unfold New.
    destruct (readLocalRuleList' (Config.RuleListPath apiConfig)) as [[rules|p e'|] logs];
      cbn [fst]; intros pattern e H; [discriminate H | | discriminate H].
    now injection H as -> ->.
  - unfold New.
    destruct (readLocalRuleList' (Config.RuleListPath apiConfig)) as [[rules|p e'|] logs];
      cbn [fst]; intros H; [discriminate H | discriminate H | reflexivity].
  - unfold New.
    destruct (readLocalRuleList' (Config.RuleListPath apiConfig)) as [[rules'|p e'|] logs];
      cbn [fst]; intros rules H; [|discriminate H..].
    injection H as <-. eexists. split; reflexivity.
  - unfold New.
    now destruct (readLocalRuleList' (Config.RuleListPath apiConfig)) as [[rules|p e|] logs].
  - intros Hp. unfold New, readLocalRuleList. rewrite Hp. cbn.
    eexists. split; reflexivity.
  - intros c logs H. apply New_Returns in H as (rules & Hr & ->).
    cbn [FullClient.client FullClient.LocalRuleList restyClient.RetryCount
         restyClient.BaseURL restyClient.Timeout].
    rewrite Hr. cbn [fst].
    split; [reflexivity|]. split; [reflexivity|]. split; [reflexivity|].
    split; [|split; [|split]].
    + intros Ht. destruct (Z.ltb_spec 0 (Config.Timeout apiConfig)); [lia | reflexivity].
    + intros Ht. destruct (Z.ltb_spec 0 (Config.Timeout apiConfig)); [|lia].
      apply mul_int64_small. unfold Int.in_int64, Duration.Second. lia.
    + intros Ht. destruct (Z.ltb_spec 0 (Config.Timeout apiConfig)); [|lia].
      pose proof (wrap_int64_range (Config.Timeout apiConfig * Duration.Second)) as Hw.
      unfold Int.mul_int64. unfold Int.in_int64, Duration.Second in *. lia.
    + intros calls.
      set (c0 := FullClient.mk _ _ _ _).
      pose proof (run_fields Regexp unrepresentable api_text json_Marshal_Response
                    json_Marshal_NodeInfoResponse json_Unmarshal_NodeInfoResponse
                    json_Unmarshal_UserListResponse calls c0) as Hf.
      destruct (run_static Regexp unrepresentable api_text json_Marshal_Response
                  json_Marshal_NodeInfoResponse json_Unmarshal_NodeInfoResponse
                  json_Unmarshal_UserListResponse calls c0) as (Hl & _).
      destruct (run_requests Regexp unrepresentable api_text json_Marshal_Response
                  json_Marshal_NodeInfoResponse json_Unmarshal_NodeInfoResponse
                  json_Unmarshal_UserListResponse calls c0) as [Hq _].
      split; [unfold Describe; rewrite Hf; reflexivity|].
      split; [unfold GetNodeRule; now rewrite Hl|].
      split.
      * eapply Forall_impl; [exact Hq|]. intros req [Hid _]. exact Hid.
      * intros path req Hpath Hfind.
        destruct Hpath as [-> | ->].
        -- rewrite (run_first_request calls c0 "/api/public/xrayr/node/info" "node" req);
             auto.
        -- rewrite (run_first_request calls c0 "/api/public/xrayr/user/list" "users" req);
             auto.
Qed.
End ConstructionFacts.

(** ** The panel's speed limits, out of the range of C2 *)

(** X8. The limit computed from the panel's node value is always a
    uint64, and the one computed from a user's value is below 2^61. A
    negative node value from -9223372036854 on is not refused and does not
    read as zero: it comes out as [2^64 - |v| * 125000], a limit above
    2^63 bytes per second. *)
Theorem panel_speed_limit_range (v : Z) :
  Int.in_uint64 (panel_node_speed_limit v)
  /\ 0 <= panel_user_speed_limit v < 2 ^ 61
  /\ (- 9223372036854 <= v < 0 ->
      panel_node_speed_limit v = 2 ^ 64 + v * 125000
      /\ 2 ^ 63 < panel_node_speed_limit v).
Proof.
  split; [|split].
  - unfold panel_node_speed_limit, Int.in_uint64, Int.wrap_uint64.
    apply Z.mod_pos_bound. lia.
  - unfold panel_user_speed_limit, Int.div_uint64, Int.mul_uint64, Int.wrap_uint64.
    pose proof (Z.mod_pos_bound (v * 1000000) (2 ^ 64) ltac:(lia)) as Hm.
    rewrite Z.quot_div_nonneg by lia. split.
    + apply Z.div_pos; lia.
    + apply Z.div_lt_upper_bound; lia.
  - intros Hv.
    assert (panel_node_speed_limit v = 2 ^ 64 + v * 125000) as E.
    { unfold panel_node_speed_limit, Int.mul_int64, Int.div_int64.
      rewrite (wrap_int64_small (v * 1000000)) by (unfold Int.in_int64; lia).
      replace (v * 1000000) with (v * 125000 * 8) by lia.
      rewrite Z.quot_mul by lia.
      rewrite wrap_int64_small by (unfold Int.in_int64; lia).
      unfold Int.wrap_uint64.
      replace (v * 125000) with (2 ^ 64 + v * 125000 + (-1) * 2 ^ 64) at 1 by lia.
      rewrite Z.mod_add by lia. apply Z.mod_small. lia. }
    split; [exact E | lia].
Qed.

(** ** The identity of a user *)

Lemma string_length_app (s1 s2 : string) :
  String.length (s1 +:+ s2) = (String.length s1 + String.length s2)%nat.
Proof.
  induction s1 as [|c s1 IH]; [reflexivity|]. rewrite append_cons. cbn. now rewrite IH.
Qed.

Lemma append_inj_l (s1 s2 t : string) : s1 +:+ t = s2 +:+ t -> s1 = s2.
Proof.
  revert s2. induction s1 as [|c s1 IH]; intros [|c2 s2] H.
  - reflexivity.
  - apply (f_equal String.length) in H. rewrite append_nil_l, string_length_app in H.
    cbn in H. lia.
  - apply (f_equal String.length) in H. rewrite append_nil_l, string_length_app in H.
    cbn in H. lia.
  - rewrite !append_cons in H. injection H as -> H. f_equal. now apply IH.
Qed.

Lemma string_forallb_impl (p q : ascii -> bool) (s : string) :
  (forall c, p c = true -> q c = true) ->
  string_forallb p s = true -> string_forallb q s = true.
Proof.
  intros Hpq. induction s as [|c s IH]; [reflexivity|]. cbn.
  intros H. apply andb_true_iff in H as [Hc Hs]. now rewrite (Hpq c Hc), (IH Hs).
Qed.

Lemma local_char_not_at (c : ascii) : EmailGrammar.local_char c = true -> not_at c = true.
Proof. destruct c as [[] [] [] [] [] [] [] []]; vm_compute; congruence. Qed.

Lemma domain_char_not_at (c : ascii) : EmailGrammar.domain_char c = true -> not_at c = true.
Proof. destruct c as [[] [] [] [] [] [] [] []]; vm_compute; congruence. Qed.

Lemma ascii_letter_not_at (c : ascii) : EmailGrammar.ascii_letter c = true -> not_at c = true.
Proof. destruct c as [[] [] [] [] [] [] [] []]; vm_compute; congruence. Qed.

(** A text with a single at sign splits around it in one way only. *)
Lemma at_split_unique (l1 r1 l2 r2 : string) :
  string_forallb not_at l1 = true -> string_forallb not_at r1 = true ->
  l1 +:+ "@" +:+ r1 = l2 +:+ "@" +:+ r2 -> l1 = l2 /\ r1 = r2.
Proof.
  revert l2. induction l1 as [|c l1 IH]; intros [|c2 l2] H1 Hr E.
  - rewrite !append_nil_l, !append_cons, !append_nil_l in E. now injection E as ->.
  - rewrite append_nil_l, !append_cons, !append_nil_l in E. injection E as <- ->.
    rewrite string_forallb_app in Hr. apply andb_true_iff in Hr as [_ Hr].
    cbn in Hr. discriminate Hr.
  - rewrite append_nil_l, !append_cons, !append_nil_l in E. injection E as -> _.
    cbn in H1. discriminate H1.
  - rewrite !append_cons in E. injection E as -> E.
    cbn in H1. apply andb_true_iff in H1 as [_ H1].
    destruct (IH l2 H1 Hr E) as [-> ->]. auto.
Qed.

Lemma is_email_parts (s : string) :
  EmailGrammar.is_email s ->
  exists l r, s = l +:+ "@" +:+ r
              /\ l <> EmptyString
              /\ string_forallb EmailGrammar.local_char l = true
              /\ string_forallb not_at r = true
              /\ (4 <= String.length r)%nat.
Proof.
  intros (l & d & tld & -> & Hl1 & Hl2 & Hd1 & Hd2 & Ht1 & Ht2).
  exists l, (d +:+ "." +:+ tld). repeat split; auto.
  - rewrite !string_forallb_app.
    rewrite (string_forallb_impl _ _ d domain_char_not_at Hd2).
    rewrite (string_forallb_impl _ _ tld ascii_letter_not_at Ht2). reflexivity.
  - rewrite !string_length_app. destruct d; [congruence|]. cbn. lia.
Qed.

(** The placeholder domain makes an email of a name exactly when the
    name can be a local part. *)
Lemma placeholder_is_email (name : string) :
  isEmailFormat (name +:+ "@vpnboard.user") = true <->
  name <> EmptyString /\ string_forallb EmailGrammar.local_char name = true.
Proof.
  rewrite isEmailFormat_grammar. split.
  - intros H. apply is_email_parts in H as (l & r & E & Hl1 & Hl2 & Hr & _).
    change (name +:+ "@vpnboard.user") with (name +:+ "@" +:+ "vpnboard.user") in E.
    symmetry in E.
    apply at_split_unique in E as [-> _];
      [auto | now apply (string_forallb_impl _ _ l local_char_not_at) | exact Hr].
  - intros [Hn Hl]. exists name, "vpnboard", "user".
    split; [reflexivity|]. split; [exact Hn|]. split; [exact Hl|].
    split; [discriminate|]. split; [reflexivity|]. split; [cbn; lia | reflexivity].
Qed.

Section IdentityFacts.
Variable unrepresentable : spec_float -> Z.

Local Abbreviation GetUserList_user' := (GetUserList_user unrepresentable).

Lemma Email_cases (c : APIClient.t) (user : UserListResponseItem.t) :
  api.UserInfo.Email (GetUserList_user' c user)
  = if isEmailFormat (UserListResponseItem.UserName user)
    then UserListResponseItem.UserName user
    else UserListResponseItem.UserName user +:+ "@vpnboard.user".
Proof. reflexivity. Qed.

(** X9. What [isEmailFormat] accepts has exactly one at sign, at least
    six bytes, and only ASCII bytes: a name with a letter outside ASCII is
    never kept as it is. *)
Theorem isEmailFormat_shape (email : string) :
  isEmailFormat email = true ->
  (exists l r, email = l +:+ "@" +:+ r
               /\ string_forallb not_at l = true /\ string_forallb not_at r = true)
  /\ (6 <= String.length email)%nat
  /\ string_forallb (fun c => (N_of_ascii c <? 128)%N) email = true.
Proof.
  intros H. apply isEmailFormat_grammar in H.
  pose proof (is_email_parts email H) as (l & r & -> & Hl1 & Hl2 & Hr & Hlen).
  split; [|split].
  - exists l, r. split; [reflexivity|]. split; [|exact Hr].
    now apply (string_forallb_impl _ _ l local_char_not_at).
  - rewrite !string_length_app. destruct l; [congruence|]. cbn. lia.
  - destruct H as (l' & d & tld & E & _ & Hl & _ & Hd & _ & Ht).
    rewrite E. rewrite !string_forallb_app.
    assert (forall c, EmailGrammar.local_char c = true -> (N_of_ascii c <? 128)%N = true) as A1
      by (intros c; destruct c as [[] [] [] [] [] [] [] []]; vm_compute; congruence).
    assert (forall c, EmailGrammar.domain_char c = true -> (N_of_ascii c <? 128)%N = true) as A2
      by (intros c; destruct c as [[] [] [] [] [] [] [] []]; vm_compute; congruence).
    assert (forall c, EmailGrammar.ascii_letter c = true -> (N_of_ascii c <? 128)%N = true) as A3
      by (intros c; destruct c as [[] [] [] [] [] [] [] []]; vm_compute; congruence).
    rewrite (string_forallb_impl _ _ l' A1 Hl), (string_forallb_impl _ _ d A2 Hd),
      (string_forallb_impl _ _ tld A3 Ht).
    reflexivity.
Qed.

(** X10. The identity of a record is in email format exactly when the
    user name is, or is a non-empty text over the letters, digits and
    [._%+-] of a local part: for an empty name, or one with a space or a
    second at sign, the placeholder domain does not make an email. Every
    identity has an at sign. *)
Theorem Email_format (c : APIClient.t) (user : UserListResponseItem.t) :
  (isEmailFormat (api.UserInfo.Email (GetUserList_user' c user)) = true <->
   isEmailFormat (UserListResponseItem.UserName user) = true
   \/ (UserListResponseItem.UserName user <> EmptyString
       /\ string_forallb EmailGrammar.local_char (UserListResponseItem.UserName user) = true))
  /\ exists l r, api.UserInfo.Email (GetUserList_user' c user) = l +:+ "@" +:+ r.
Proof.
  rewrite Email_cases.
  destruct (isEmailFormat (UserListResponseItem.UserName user)) eqn:Hf.
  - split; [split; auto|].
    apply isEmailFormat_grammar, is_email_parts in Hf as (l & r & -> & _). eauto.
  - split.
    + rewrite placeholder_is_email. split; [auto | intros [H | H]; [discriminate H | exact H]].
    + exists (UserListResponseItem.UserName user), "vpnboard.user". reflexivity.
Qed.

(** X11. Two records get the same identity exactly when their user
    names are equal, or one name is in email format and is the other,
    not in email format, followed by [@vpnboard.user]. The second case
    happens: for every non-empty name over the characters of a local part,
    the users [name] and [name@vpnboard.user] are told apart by the panel
    and not by their identity. *)
Theorem Email_collisions (c : APIClient.t) (user1 user2 : UserListResponseItem.t) :
  let name1 := UserListResponseItem.UserName user1 in
  let name2 := UserListResponseItem.UserName user2 in
  (api.UserInfo.Email (GetUserList_user' c user1)
   = api.UserInfo.Email (GetUserList_user' c user2) <->
   name1 = name2
   \/ (isEmailFormat name1 = true /\ isEmailFormat name2 = false
       /\ name1 = name2 +:+ "@vpnboard.user")
   \/ (isEmailFormat name2 = true /\ isEmailFormat name1 = false
       /\ name2 = name1 +:+ "@vpnboard.user"))
  /\ (name1 <> EmptyString -> string_forallb EmailGrammar.local_char name1 = true ->
      name2 = name1 +:+ "@vpnboard.user" ->
      name1 <> name2
      /\ api.UserInfo.Email (GetUserList_user' c user1)
         = api.UserInfo.Email (GetUserList_user' c user2)).
Proof.
  cbv zeta. rewrite !Email_cases.
  set (name1 := UserListResponseItem.UserName user1).
  set (name2 := UserListResponseItem.UserName user2).
  split.
  - destruct (isEmailFormat name1) eqn:H1, (isEmailFormat name2) eqn:H2; split.
    + auto.
    + intros [E | [(_ & E & _) | (_ & E & _)]]; [exact E | discriminate E..].
    + intros E. right. left. auto.
    + intros [E | [(_ & _ & E) | (E & _)]]; [congruence | exact E | discriminate E].
    + intros E. right. right. auto.
    + intros [E | [(E & _) | (_ & _ & E)]]; [congruence | discriminate E | now symmetry].
    + intros E. left. now apply append_inj_l in E.
    + intros [E | [(E & _) | (E & _)]]; [now rewrite E | discriminate E..].
  - intros Hn Hl E.
    assert (isEmailFormat name2 = true) as H2
      by (rewrite E; apply placeholder_is_email; auto).
    assert (isEmailFormat name1 = false) as H1.
    { destruct (isEmailFormat name1) eqn:H1; [|reflexivity].
      apply isEmailFormat_grammar, is_email_parts in H1 as (l & r & El & _).
      apply (string_forallb_impl _ _ name1 local_char_not_at) in Hl.
      rewrite El, !string_forallb_app in Hl. cbn in Hl.
      rewrite andb_false_r in Hl. discriminate Hl. }
    rewrite H1, H2. split; [|now symmetry].
    intros E'. rewrite <- E' in E.
    apply (f_equal String.length) in E. rewrite string_length_app in E. cbn in E. lia.
Qed.
End IdentityFacts.

(** ** What the fetches do not depend on *)

Lemma update_eTag_idempotent (c : APIClient.t) (k h : string) :
  update_eTag (update_eTag c k h) k h = update_eTag c k h.
Proof.
  unfold update_eTag at 1. rewrite eTag_update_eTag.
  destruct (String.eqb_spec h EmptyString) as [E|E]; [reflexivity|].
  rewrite String.eqb_refl. reflexivity.
Qed.

Section IndependenceFacts.
Variable unrepresentable : spec_float -> Z.
Variable api_text : api.NotModified -> string.
Variable json_Marshal_Response : Response.t -> string.
Variable json_Marshal_NodeInfoResponse : NodeInfoResponse.t -> string.
Variable json_Unmarshal_NodeInfoResponse : string -> NodeInfoResponse.t + string.
Variable json_Unmarshal_UserListResponse : string -> UserListResponse.t + string.

Local Abbreviation parseResponse' := (parseResponse api_text json_Marshal_Response).
Local Abbreviation parseNodeInfo' := (parseNodeInfo unrepresentable).
Local Abbreviation GetUserList_user' := (GetUserList_user unrepresentable).
Local Abbreviation GetNodeInfo' :=
  (GetNodeInfo unrepresentable api_text json_Marshal_Response
     json_Marshal_NodeInfoResponse json_Unmarshal_NodeInfoResponse).
Local Abbreviation GetUserList' :=
  (GetUserList unrepresentable api_text json_Marshal_Response
     json_Unmarshal_UserListResponse).

(** X12. The access key, the configured Vless flag and the flag
    [DisableCustomConfig] are read by neither fetch; [GetNodeInfo] reads
    neither the configured node type nor the device limit, and
    [GetUserList] does not read the flow: changing them changes neither the
    request, nor what is returned, nor the tokens kept. In particular the
    key is not part of any request. *)
Theorem unused_configuration (Post : resty.Transport) (c : APIClient.t)
    (key nodeType flow : string) (vless disable : bool) (deviceLimit : Z) :
  let node :=
    APIClient.mk (APIClient.APIHost c) (APIClient.NodeID c) key nodeType vless
      (APIClient.VlessFlow c) (APIClient.SpeedLimit c) deviceLimit disable
      (APIClient.eTags c) in
  let users :=
    APIClient.mk (APIClient.APIHost c) (APIClient.NodeID c) key (APIClient.NodeType c)
      vless flow (APIClient.SpeedLimit c) (APIClient.DeviceLimit c) disable
      (APIClient.eTags c) in
  (Outcome.ret (GetNodeInfo' Post node) = Outcome.ret (GetNodeInfo' Post c)
   /\ Outcome.requests (GetNodeInfo' Post node) = Outcome.requests (GetNodeInfo' Post c)
   /\ APIClient.eTags (Outcome.client (GetNodeInfo' Post node))
      = APIClient.eTags (Outcome.client (GetNodeInfo' Post c)))
  /\ (Outcome.ret (GetUserList' Post users) = Outcome.ret (GetUserList' Post c)
      /\ Outcome.requests (GetUserList' Post users) = Outcome.requests (GetUserList' Post c)
      /\ APIClient.eTags (Outcome.client (GetUserList' Post users))
         = APIClient.eTags (Outcome.client (GetUserList' Post c))).
Proof.
  cbv zeta. split.
  - set (node := APIClient.mk _ _ _ _ _ _ _ _ _ _).
    unfold GetNodeInfo.
    change (GetNodeInfo_request node) with (GetNodeInfo_request c).
    destruct (Post (GetNodeInfo_request c)) as [res [e|]]; cbn [fst snd option_map];
      [auto|].
    destruct (resty.Response.StatusCode res =? 304); [auto|].
    unfold update_eTag. change (APIClient.eTag node "node") with (APIClient.eTag c "node").
    destruct (negb _ && negb _); unfold parseResponse;
      (destruct (400 <? resty.Response.StatusCode res); [auto|]);
      (destruct (negb (Response.Code (resty.Response.Result res) =? 0)); [auto|]);
      (destruct (json_Unmarshal_NodeInfoResponse _); [|auto]);
      cbn; auto.
  - set (users := APIClient.mk _ _ _ _ _ _ _ _ _ _).
    unfold GetUserList.
    change (APIClient.NodeType users) with (APIClient.NodeType c).
    change (GetUserList_request users) with (GetUserList_request c).
    destruct (supported_node_type (APIClient.NodeType c)); cbn [negb]; [|auto].
    destruct (Post (GetUserList_request c)) as [res [e|]]; cbn [fst snd option_map];
      [auto|].
    destruct (resty.Response.StatusCode res =? 304); [auto|].
    unfold update_eTag. change (APIClient.eTag users "users") with (APIClient.eTag c "users").
    destruct (negb _ && negb _); unfold parseResponse;
      (destruct (400 <? resty.Response.StatusCode res); [auto|]);
      (destruct (negb (Response.Code (resty.Response.Result res) =? 0)); [auto|]);
      (destruct (json_Unmarshal_UserListResponse _); [|auto]);
      cbn; auto.
Qed.

(** X13. A fetch repeated against a panel that gives the same answer
    again (one that does not look at [If-None-Match]) returns what the
    first returned and leaves the client as the first left it: what a call
    returns does not depend on the tokens, and the token written is the one
    found. *)
Theorem fetch_settles (answer : resty.Response.t * option string) (c : APIClient.t) :
  let Post : resty.Transport := fun _ => answer in
  (Outcome.ret (GetNodeInfo' Post (Outcome.client (GetNodeInfo' Post c)))
   = Outcome.ret (GetNodeInfo' Post c)
   /\ Outcome.client (GetNodeInfo' Post (Outcome.client (GetNodeInfo' Post c)))
      = Outcome.client (GetNodeInfo' Post c))
  /\ (Outcome.ret (GetUserList' Post (Outcome.client (GetUserList' Post c)))
      = Outcome.ret (GetUserList' Post c)
      /\ Outcome.client (GetUserList' Post (Outcome.client (GetUserList' Post c)))
         = Outcome.client (GetUserList' Post c)).
Proof.
  cbv zeta. destruct answer as [res oe]. split.
  - rewrite !(GetNodeInfo_client unrepresentable api_text json_Marshal_Response
                json_Marshal_NodeInfoResponse json_Unmarshal_NodeInfoResponse).
    unfold GetNodeInfo. cbn [fst snd].
    destruct oe as [e|]; cbn [option_map]; [auto|].
    destruct (resty.Response.StatusCode res =? 304); [auto|].
    rewrite update_eTag_idempotent. split; [|reflexivity].
    rewrite !(parseResponse_update_eTag api_text json_Marshal_Response).
    destruct (parseResponse' c res _ None); [|reflexivity].
    destruct (json_Unmarshal_NodeInfoResponse _); [|reflexivity].
    rewrite !(parseNodeInfo_after_update unrepresentable).
    destruct (parseNodeInfo' c _); reflexivity.
  - rewrite !(GetUserList_client unrepresentable api_text json_Marshal_Response
                json_Unmarshal_UserListResponse).
    unfold GetUserList.
    destruct (supported_node_type (APIClient.NodeType c)) eqn:Hn; cbn [negb];
      [|rewrite Hn; auto].
    cbn [fst snd].
    destruct oe as [e|]; cbn [option_map]; [rewrite Hn; auto|].
    destruct (resty.Response.StatusCode res =? 304); [rewrite Hn; auto|].
    assert (APIClient.NodeType
              (update_eTag c "users" (http.Header_Get (resty.Response.Header res) "Etag"))
            = APIClient.NodeType c) as -> by apply update_eTag_config.
    rewrite Hn. cbn [negb].
    rewrite update_eTag_idempotent. split; [|reflexivity].
    rewrite !(parseResponse_update_eTag api_text json_Marshal_Response).
    destruct (parseResponse' c res _ None); [|reflexivity].
    destruct (json_Unmarshal_UserListResponse _); reflexivity.
Qed.
End IndependenceFacts.

(** ** The operations on the sample inputs *)

Module Sample.
Abbreviation parseResponse := (parseResponse Example.api_text Example.json_Marshal_Response).
Abbreviation parseNodeInfo := (parseNodeInfo Example.unrepresentable).
Abbreviation GetUserList_user := (GetUserList_user Example.unrepresentable).
Abbreviation GetNodeInfo :=
  (GetNodeInfo Example.unrepresentable Example.api_text Example.json_Marshal_Response
     Example.json_Marshal_NodeInfoResponse Example.json_Unmarshal_NodeInfoResponse).
Abbreviation GetUserList :=
  (GetUserList Example.unrepresentable Example.api_text Example.json_Marshal_Response
     Example.json_Unmarshal_UserListResponse).
Abbreviation normalizes :=
  (normalizes Example.unrepresentable Example.api_text Example.json_Marshal_Response
     Example.json_Unmarshal_UserListResponse).
Abbreviation readLocalRuleList :=
  (readLocalRuleList string Example.regexp_Compile Example.os_Open).
End Sample.

(** The sample panel's user list, normalized under any supported node
    type. *)
Lemma sample_normalizes (t : string) (s : spec_float) (d : Z) (i : nat)
    (user : UserListResponseItem.t) :
  supported_node_type t = true ->
  [Example.alice; Example.bob] !! i = Some user ->
  Sample.normalizes (Example.panel 200 "u7" 0) (Example.client t s d) user
    (Sample.GetUserList_user (Example.client t s d) user).
Proof.
  intros Ht Hi.
  eapply normalizes_intro with (i := i)
    (payload := UserListResponse.mk [Example.alice; Example.bob]);
    [exact Ht | reflexivity | cbn; lia | cbn; lia | reflexivity | reflexivity | exact Hi].
Qed.

(** The override 1.5 Mbps with the device limit 3 wins over the panel's
    values; without overrides the panel's values stand (100 Mbps for the
    node, 20 Mbps and 0 devices for the second user). *)
Lemma override_precedence_witness :
  let with_override := Example.client "V2ray" Example.one_and_a_half 3 in
  let without := Example.client "V2ray" Example.zero 0 in
  ((exists nodeInfo, Sample.parseNodeInfo with_override Example.node_payload = inl nodeInfo
                      /\ api.NodeInfo.SpeedLimit nodeInfo = 187500)
   /\ api.UserInfo.SpeedLimit (Sample.GetUserList_user with_override Example.alice) = 187500
   /\ api.UserInfo.DeviceLimit (Sample.GetUserList_user with_override Example.alice) = 3)
  /\ ((exists nodeInfo, Sample.parseNodeInfo without Example.node_payload = inl nodeInfo
                         /\ api.NodeInfo.SpeedLimit nodeInfo = 12500000)
      /\ api.UserInfo.SpeedLimit (Sample.GetUserList_user without Example.bob) = 2500000
      /\ api.UserInfo.DeviceLimit (Sample.GetUserList_user without Example.bob) = 0).
Proof.
  cbv zeta. split.
  - destruct (override_precedence Example.unrepresentable Example.api_text
                Example.json_Marshal_Response Example.json_Unmarshal_UserListResponse
                (Example.client "V2ray" Example.one_and_a_half 3))
      as (H1 & _ & H3 & _).
    destruct (H1 eq_refl) as [Hn Hs].
    destruct (Hn Example.node_payload) as (nodeInfo & Hp & Hv).
    split; [exists nodeInfo; split; [exact Hp | rewrite Hv; vm_compute; reflexivity]|].
    split.
    + rewrite (Hs (Example.panel 200 "u7" 0) Example.alice);
        [vm_compute; reflexivity|].
      exact (sample_normalizes "V2ray" Example.one_and_a_half 3 0 Example.alice
               eq_refl eq_refl).
    + apply (H3 ltac:(cbn; lia) (Example.panel 200 "u7" 0) Example.alice).
      exact (sample_normalizes "V2ray" Example.one_and_a_half 3 0 Example.alice
               eq_refl eq_refl).
  - destruct (override_precedence Example.unrepresentable Example.api_text
                Example.json_Marshal_Response Example.json_Unmarshal_UserListResponse
                (Example.client "V2ray" Example.zero 0))
      as (_ & H2 & _ & H4).
    destruct (H2 eq_refl) as [Hn Hs].
    destruct (Hn Example.node_payload) as (nodeInfo & Hp & Hv).
    split; [exists nodeInfo; split; [exact Hp | rewrite Hv; vm_compute; reflexivity]|].
    split.
    + rewrite (Hs (Example.panel 200 "u7" 0) Example.bob);
        [vm_compute; reflexivity|].
      exact (sample_normalizes "V2ray" Example.zero 0 1 Example.bob eq_refl eq_refl).
    + apply (H4 ltac:(cbn; lia) (Example.panel 200 "u7" 0) Example.bob).
      exact (sample_normalizes "V2ray" Example.zero 0 1 Example.bob eq_refl eq_refl).
Defined.

(** [a@b.com] is kept, [plainuser] gets the placeholder domain. *)
Lemma email_identity_witness :
  let c := Example.client "V2ray" Example.zero 0 in
  api.UserInfo.Email (Sample.GetUserList_user c Example.alice) = "a@b.com"
  /\ api.UserInfo.Email (Sample.GetUserList_user c Example.bob) = "plainuser@vpnboard.user".
Proof.
  cbv zeta. split.
  - destruct (email_identity Example.unrepresentable Example.api_text
                Example.json_Marshal_Response Example.json_Unmarshal_UserListResponse
                (Example.panel 200 "u7" 0) (Example.client "V2ray" Example.zero 0)
                Example.alice _
                (sample_normalizes "V2ray" Example.zero 0 0 Example.alice eq_refl eq_refl))
      as [[_ H] | [_ H]]; [exact H | vm_compute in H; discriminate H].
  - destruct (email_identity Example.unrepresentable Example.api_text
                Example.json_Marshal_Response Example.json_Unmarshal_UserListResponse
                (Example.panel 200 "u7" 0) (Example.client "V2ray" Example.zero 0)
                Example.bob _
                (sample_normalizes "V2ray" Example.zero 0 1 Example.bob eq_refl eq_refl))
      as [[_ H] | [_ H]]; [vm_compute in H; discriminate H | exact H].
Defined.

(** Under Shadowsocks the password is the uuid, under Vless it is empty. *)
Lemma shadowsocks_password_witness :
  api.UserInfo.Passwd
    (Sample.GetUserList_user (Example.client "Shadowsocks" Example.zero 0) Example.alice)
  = "uuid-1"
  /\ api.UserInfo.Passwd
       (Sample.GetUserList_user (Example.client "Vless" Example.zero 0) Example.alice)
     = EmptyString.
Proof.
  split.
  - destruct (shadowsocks_password Example.unrepresentable Example.api_text
                Example.json_Marshal_Response Example.json_Unmarshal_UserListResponse
                (Example.panel 200 "u7" 0) (Example.client "Shadowsocks" Example.zero 0)
                Example.alice _
                (sample_normalizes "Shadowsocks" Example.zero 0 0 Example.alice
                   eq_refl eq_refl))
      as (Hu & Hs & _).
    rewrite (Hs eq_refl), Hu. reflexivity.
  - destruct (shadowsocks_password Example.unrepresentable Example.api_text
                Example.json_Marshal_Response Example.json_Unmarshal_UserListResponse
                (Example.panel 200 "u7" 0) (Example.client "Vless" Example.zero 0)
                Example.alice _
                (sample_normalizes "Vless" Example.zero 0 0 Example.alice
                   eq_refl eq_refl))
      as (_ & _ & He).
    apply He. cbn. rewrite !elem_of_cons. auto.
Defined.

(** The node type [Foo] fails before any request; [Vless] sends one. *)
Lemma unsupported_node_type_witness :
  Sample.GetUserList (Example.panel 200 "u7" 0) (Example.client "Foo" Example.zero 0)
  = Outcome.mk (inr (Errorf "unsupported node type: Foo"))
      (Example.client "Foo" Example.zero 0) []
  /\ Outcome.requests
       (Sample.GetUserList (Example.panel 200 "u7" 0) (Example.client "Vless" Example.zero 0))
     = [resty.Request.mk "/api/public/xrayr/user/list" 4 EmptyString].
Proof.
  split.
  - apply (unsupported_node_type_before_request Example.unrepresentable Example.api_text
             Example.json_Marshal_Response Example.json_Unmarshal_UserListResponse
             (Example.panel 200 "u7" 0) (Example.client "Foo" Example.zero 0)).
    cbn. rewrite !elem_of_cons, elem_of_nil.
    intros [H | [H | [H | [H | [H | []]]]]]; discriminate H.
  - apply (unsupported_node_type_before_request Example.unrepresentable Example.api_text
             Example.json_Marshal_Response Example.json_Unmarshal_UserListResponse
             (Example.panel 200 "u7" 0) (Example.client "Vless" Example.zero 0)).
    cbn. rewrite !elem_of_cons. auto 6.
Defined.

(** A transport error with a status of 500: the failure is the
    transport rule's, and the body [oops] is not in its text. *)
Lemma transport_error_settled_first :
  let res := resty.Response.mk 500 ∅ "oops" (Response.mk 0 "msg" "data") in
  let text := "request http://127.0.0.1:3000/api/public/xrayr/node/info failed: boom" in
  400 < resty.Response.StatusCode res
  /\ Sample.parseResponse (Example.client "V2ray" Example.zero 0) res
       "/api/public/xrayr/node/info" (Some (TransportError "boom"))
     = inr (Errorf text)
  /\ String.index 0 (resty.Response.Body res) text = None.
Proof. cbv zeta. split; [cbn; lia | split; vm_compute; reflexivity]. Qed.

(** The rules on sample responses: status 500, status 400 with code 7,
    status 400 with code 0. *)
Lemma parseResponse_rules_witness :
  let c := Example.client "V2ray" Example.zero 0 in
  let response code := Response.mk code "msg" "data" in
  Sample.parseResponse c (resty.Response.mk 500 ∅ "oops" (response 0)) "/p" None
  = inr (Errorf "request http://127.0.0.1:3000/p failed: oops, <nil>")
  /\ Sample.parseResponse c (resty.Response.mk 400 ∅ "oops" (response 7)) "/p" None
     = inr (Errorf "ret {msg: msg} invalid")
  /\ Sample.parseResponse c (resty.Response.mk 400 ∅ "oops" (response 0)) "/p" None
     = inl (response 0).
Proof.
  cbv zeta. split; [|split].
  - apply (parseResponse_rules Example.api_text Example.json_Marshal_Response
             (Example.client "V2ray" Example.zero 0)
             (resty.Response.mk 500 ∅ "oops" (Response.mk 0 "msg" "data")) "/p").
    cbn. lia.
  - apply (parseResponse_rules Example.api_text Example.json_Marshal_Response
             (Example.client "V2ray" Example.zero 0)
             (resty.Response.mk 400 ∅ "oops" (Response.mk 7 "msg" "data")) "/p");
      cbn; lia.
  - apply (parseResponse_rules Example.api_text Example.json_Marshal_Response
             (Example.client "V2ray" Example.zero 0)
             (resty.Response.mk 400 ∅ "oops" (Response.mk 0 "msg" "data")) "/p");
      cbn; lia.
Defined.

(** Status 304 from the sample panel: both fetches end with their
    not-modified condition and the client as it was. *)
Lemma not_modified_witness :
  let c := Example.client "Trojan" Example.zero 0 in
  Sample.GetNodeInfo (Example.panel 304 "v2" 0) c
  = Outcome.mk (inr (ErrorsNew api.NodeNotModified)) c
      [resty.Request.mk "/api/public/xrayr/node/info" 4 EmptyString]
  /\ Sample.GetUserList (Example.panel 304 "v2" 0) c
     = Outcome.mk (inr (ErrorsNew api.UserNotModified)) c
         [resty.Request.mk "/api/public/xrayr/user/list" 4 EmptyString].
Proof.
  cbv zeta.
  destruct (not_modified_short_circuit Example.unrepresentable Example.api_text
              Example.json_Marshal_Response Example.json_Marshal_NodeInfoResponse
              Example.json_Unmarshal_NodeInfoResponse
              Example.json_Unmarshal_UserListResponse
              (Example.panel 304 "v2" 0) (Example.client "Trojan" Example.zero 0))
    as (Hn & Hu & _).
  split.
  - apply (Hn _ eq_refl). reflexivity.
  - apply (Hu _ eq_refl); reflexivity.
Defined.

(** A response of status 500 that carries the token [v2]: the fetch
    fails, and the token is stored all the same. *)
Lemma token_stored_on_failed_response :
  let c := Example.client "V2ray" Example.zero 0 in
  let o := Sample.GetNodeInfo (Example.panel 500 "v2" 0) c in
  Outcome.ret o
  = inr (Errorf
           "request http://127.0.0.1:3000/api/public/xrayr/node/info failed: body, <nil>")
  /\ APIClient.eTag c "node" = EmptyString
  /\ APIClient.eTag (Outcome.client o) "node" = "v2".
Proof. cbv zeta. split; [|split]; vm_compute; reflexivity. Qed.

(** A response of status 200 with the token [v2]: it is stored, and the
    next request carries it. The same for the users, with a response of
    status 500 and the token [u2]. *)
Lemma token_store_witness :
  let c := Example.client "V2ray" Example.zero 0 in
  let o := Sample.GetNodeInfo (Example.panel 200 "v2" 0) c in
  let ou := Sample.GetUserList (Example.panel 500 "u2" 0) c in
  Outcome.client o = APIClient.set_eTag c "node" "v2"
  /\ Outcome.requests (Sample.GetNodeInfo (Example.panel 304 "v2" 0) (Outcome.client o))
     = [resty.Request.mk "/api/public/xrayr/node/info" 4 "v2"]
  /\ Outcome.client ou = APIClient.set_eTag c "users" "u2"
  /\ Outcome.requests ou = [resty.Request.mk "/api/public/xrayr/user/list" 4 EmptyString]
  /\ Outcome.requests (Sample.GetUserList (Example.panel 304 "u2" 0) (Outcome.client ou))
     = [resty.Request.mk "/api/public/xrayr/user/list" 4 "u2"].
Proof.
  cbv zeta.
  destruct (token_store_discipline Example.unrepresentable Example.api_text
              Example.json_Marshal_Response Example.json_Marshal_NodeInfoResponse
              Example.json_Unmarshal_NodeInfoResponse
              Example.json_Unmarshal_UserListResponse
              (Example.panel 200 "v2" 0) (Example.client "V2ray" Example.zero 0))
    as (_ & _ & H & _ & _ & _ & Hnext & _).
  destruct (token_store_discipline Example.unrepresentable Example.api_text
              Example.json_Marshal_Response Example.json_Marshal_NodeInfoResponse
              Example.json_Unmarshal_NodeInfoResponse
              Example.json_Unmarshal_UserListResponse
              (Example.panel 500 "u2" 0) (Example.client "V2ray" Example.zero 0))
    as (_ & _ & _ & _ & _ & _ & _ & Hu & Hreq & Hunext).
  split; [|split; [|split; [|split]]].
  - apply (H (fst (Example.panel 200 "v2" 0
                     (GetNodeInfo_request (Example.client "V2ray" Example.zero 0))))
             "v2");
      [reflexivity | cbn; lia | reflexivity | discriminate | discriminate].
  - destruct (Hnext (Example.panel 304 "v2" 0)) as [-> _].
    vm_compute. reflexivity.
  - apply (Hu (fst (Example.panel 500 "u2" 0
                      (GetUserList_request (Example.client "V2ray" Example.zero 0))))
             "u2");
      [reflexivity | reflexivity | cbn; lia | reflexivity | discriminate | discriminate].
  - destruct (Hreq eq_refl) as [-> _]. reflexivity.
  - destruct (Hunext (Example.panel 304 "u2" 0) eq_refl) as [-> _].
    vm_compute. reflexivity.
Defined.

(** The sample rule files: no path, a missing file, a file of three
    lines (the second one empty) and a file whose second line does not
    compile. *)
Lemma readLocalRuleList_witness :
  Sample.readLocalRuleList EmptyString = (Returns [], [])
  /\ fst (Sample.readLocalRuleList "missing") = Returns []
  /\ fst (Sample.readLocalRuleList "rulelist")
     = Returns [api.DetectRule.mk (-1) "abc"; api.DetectRule.mk (-1) EmptyString;
                api.DetectRule.mk (-1) "x.*y"]
  /\ exists pattern e, fst (Sample.readLocalRuleList "badlist") = Panics pattern e.
Proof.
  split; [|split; [|split]].
  - destruct (readLocalRuleList_contract string Example.regexp_Compile Example.os_Open
                EmptyString) as (H & _).
    apply H. reflexivity.
  - destruct (readLocalRuleList_contract string Example.regexp_Compile Example.os_Open
                "missing") as (_ & H & _).
    destruct (H ltac:(discriminate) _ eq_refl) as [Hr _]. exact Hr.
  - destruct (readLocalRuleList_contract string Example.regexp_Compile Example.os_Open
                "rulelist") as (_ & _ & H).
    destruct (H ltac:(discriminate) _ _ eq_refl eq_refl
                ltac:(repeat constructor) eq_refl) as [Hr _].
    apply Hr. repeat constructor.
  - destruct (readLocalRuleList_contract string Example.regexp_Compile Example.os_Open
                "badlist") as (_ & _ & H).
    destruct (H ltac:(discriminate) _ _ eq_refl eq_refl
                ltac:(repeat constructor) eq_refl) as [_ Hp].
    destruct (Hp "(" "missing closing )") as (p & e & Hr & _).
    + change ("(" ∈ ["abc"; "("; "z"]). rewrite !elem_of_cons. auto.
    + reflexivity.
    + eauto.
Defined.

(** A per-user limit of 18446744073710 Mbps: the product wraps and the
    record gets 56048, not the floor of the exact quotient. *)
Lemma speed_limit_conversion_wraps :
  let user := UserListResponseItem.mk 1 "uuid-1" "a@b.com" 18446744073710 0 in
  let u := Sample.GetUserList_user (Example.client "V2ray" Example.zero 0) user in
  Int.in_uint64 (UserListResponseItem.SpeedLimit user)
  /\ api.UserInfo.SpeedLimit u = 56048
  /\ UserListResponseItem.SpeedLimit user * 1000000 / 8 = 2305843009213750000
  /\ api.UserInfo.SpeedLimit u <> UserListResponseItem.SpeedLimit user * 1000000 / 8.
Proof.
  cbv zeta. split; [|split; [|split]].
  - unfold Int.in_uint64. cbn. lia.
  - vm_compute. reflexivity.
  - vm_compute. reflexivity.
  - vm_compute. discriminate.
Qed.

(** 100 Mbps from the panel and the override 1.5 Mbps. *)
Lemma speed_limit_conversion_witness :
  panel_node_speed_limit 100 = 12500000
  /\ panel_user_speed_limit 100 = 12500000
  /\ config_speed_limit Example.unrepresentable
       (Example.client "V2ray" Example.one_and_a_half 0) = 187500.
Proof.
  destruct (speed_limit_conversion Example.unrepresentable
              (Example.client "V2ray" Example.one_and_a_half 0) 100 3 (-1))
    as (Hn & Hu & Hc & _).
  split; [|split].
  - rewrite Hn by lia. reflexivity.
  - rewrite Hu by lia. reflexivity.
  - rewrite Hc; [reflexivity | reflexivity | lia | lia | vm_compute; reflexivity].
Defined.

(** The override 0.7 Mbps, the float64 next below 0.7: its product with
    1000000 rounds up to 700000, and the code yields 87500 where the floor
    of the exact quotient is 87499. *)
Lemma speed_limit_rounds_before_floor :
  let override := Float64.of_scaled 6305039478318694 (-53) in
  Float64.valid override = true
  /\ config_speed_limit Example.unrepresentable (Example.client "V2ray" override 0) = 87500
  /\ Bps_floor 6305039478318694 (-53) = 87499.
Proof. cbv zeta. split; [|split]; vm_compute; reflexivity. Qed.

(** ** The properties above on the sample inputs *)

(** The sample panel's node: id and flow from the client, port, type
    and flag from the payload; the limit is the panel's 100 Mbps without an
    override and the override's 1.5 Mbps with it. *)
Lemma GetNodeInfo_fields_witness :
  (exists nodeInfo,
     Outcome.ret (Sample.GetNodeInfo (Example.panel 200 "n1" 0)
                    (Example.client "Trojan" Example.zero 0)) = inl nodeInfo
     /\ api.NodeInfo.NodeID nodeInfo = 4
     /\ api.NodeInfo.VlessFlow nodeInfo = "xtls-rprx-direct"
     /\ api.NodeInfo.NodeType nodeInfo = "V2ray"
     /\ api.NodeInfo.Port nodeInfo = 443
     /\ api.NodeInfo.SpeedLimit nodeInfo = 12500000)
  /\ (exists nodeInfo,
        Outcome.ret (Sample.GetNodeInfo (Example.panel 200 "n1" 0)
                       (Example.client "Trojan" Example.one_and_a_half 0)) = inl nodeInfo
        /\ api.NodeInfo.SpeedLimit nodeInfo = 187500).
Proof.
  split.
  - eexists. split; [vm_compute; reflexivity|].
    destruct (GetNodeInfo_fields Example.unrepresentable Example.api_text
                Example.json_Marshal_Response Example.json_Marshal_NodeInfoResponse
                Example.json_Unmarshal_NodeInfoResponse (Example.panel 200 "n1" 0)
                (Example.client "Trojan" Example.zero 0) _ ltac:(vm_compute; reflexivity))
      as (payload & HU & Hid & Hflow & Htype & _ & _ & _ & Hport & _ & _ & _ & _ & _ & _
          & _ & Hspeed & _).
    vm_compute in HU. injection HU as <-.
    split; [exact Hid|]. split; [exact Hflow|]. split; [exact Htype|].
    split; [apply Hport; cbn; lia|].
    rewrite Hspeed. vm_compute. reflexivity.
  - eexists. split; [vm_compute; reflexivity|].
    destruct (GetNodeInfo_fields Example.unrepresentable Example.api_text
                Example.json_Marshal_Response Example.json_Marshal_NodeInfoResponse
                Example.json_Unmarshal_NodeInfoResponse (Example.panel 200 "n1" 0)
                (Example.client "Trojan" Example.one_and_a_half 0) _
                ltac:(vm_compute; reflexivity))
      as (payload & HU & _ & _ & _ & _ & _ & _ & _ & _ & _ & _ & _ & _ & _
          & _ & Hspeed & _).
    rewrite Hspeed. vm_compute. reflexivity.
Defined.

(** The sample panel's two users, in their order. *)
Lemma GetUserList_order_witness :
  exists userList,
    Outcome.ret (Sample.GetUserList (Example.panel 200 "u7" 0)
                   (Example.client "V2ray" Example.zero 0)) = inl userList
    /\ length userList = 2%nat
    /\ map api.UserInfo.UID userList = [1; 2]
    /\ map api.UserInfo.UUID userList = ["uuid-1"; "uuid-2"].
Proof.
  eexists. split; [vm_compute; reflexivity|].
  destruct (GetUserList_order Example.unrepresentable Example.api_text
              Example.json_Marshal_Response Example.json_Unmarshal_UserListResponse
              (Example.panel 200 "u7" 0) (Example.client "V2ray" Example.zero 0) _
              ltac:(vm_compute; reflexivity))
    as (payload & HU & Hlen & Huid & Huuid & _).
  vm_compute in HU. injection HU as <-.
  split; [exact Hlen|]. split; [exact Huid | exact Huuid].
Defined.

(** The sample panel's answers of status 200 are successes; an answer
    of status 400 with the envelope left empty ends in the unmarshal
    error. *)
Lemma fetch_success_criterion_witness :
  (exists nodeInfo,
     Outcome.ret (Sample.GetNodeInfo (Example.panel 200 "n1" 0)
                    (Example.client "V2ray" Example.zero 0)) = inl nodeInfo)
  /\ (exists userList,
        Outcome.ret (Sample.GetUserList (Example.panel 200 "u1" 0)
                       (Example.client "V2ray" Example.zero 0)) = inl userList)
  /\ Outcome.ret (Sample.GetNodeInfo (Scenario.bare 400)
                    (Example.client "V2ray" Example.zero 0))
     = inr (Errorf
              "unmarshal *vpnboard.NodeInfoResponse failed: unexpected end of JSON input")
  /\ Outcome.ret (Sample.GetUserList (Scenario.bare 400)
                    (Example.client "V2ray" Example.zero 0))
     = inr (Errorf
              "unmarshal *vpnboard.UserListResponse failed: unexpected end of JSON input").
Proof.
  split; [|split; [|split]].
  - apply (fetch_success_criterion Example.unrepresentable Example.api_text
             Example.json_Marshal_Response Example.json_Marshal_NodeInfoResponse
             Example.json_Unmarshal_NodeInfoResponse Example.json_Unmarshal_UserListResponse
             (Example.panel 200 "n1" 0) (Example.client "V2ray" Example.zero 0)).
    split; [reflexivity|]. split; [cbn; lia|]. split; [cbn; lia|].
    split; [reflexivity|]. exists Example.node_payload. reflexivity.
  - apply (fetch_success_criterion Example.unrepresentable Example.api_text
             Example.json_Marshal_Response Example.json_Marshal_NodeInfoResponse
             Example.json_Unmarshal_NodeInfoResponse Example.json_Unmarshal_UserListResponse
             (Example.panel 200 "u1" 0) (Example.client "V2ray" Example.zero 0)).
    split; [reflexivity|]. split; [reflexivity|]. split; [cbn; lia|]. split; [cbn; lia|].
    split; [reflexivity|]. eexists. reflexivity.
  - destruct (fetch_success_criterion Example.unrepresentable Example.api_text
                Example.json_Marshal_Response Example.json_Marshal_NodeInfoResponse
                Example.json_Unmarshal_NodeInfoResponse
                Example.json_Unmarshal_UserListResponse
                (Scenario.bare 400) (Example.client "V2ray" Example.zero 0))
      as (_ & _ & H & _).
    apply (H "unexpected end of JSON input");
      [reflexivity | cbn; lia | cbn; lia | reflexivity | reflexivity].
  - destruct (fetch_success_criterion Example.unrepresentable Example.api_text
                Example.json_Marshal_Response Example.json_Marshal_NodeInfoResponse
                Example.json_Unmarshal_NodeInfoResponse
                Example.json_Unmarshal_UserListResponse
                (Scenario.bare 400) (Example.client "V2ray" Example.zero 0))
      as (_ & _ & _ & H).
    apply (H "unexpected end of JSON input");
      [reflexivity | reflexivity | cbn; lia | cbn; lia | reflexivity | reflexivity].
Defined.

(** A response of status 500 with the token [v2], then the answer 304:
    the second fetch sends [v2] and reports the node as not modified. *)
Lemma token_follows_last_response_witness :
  let c := Example.client "V2ray" Example.zero 0 in
  let node := Outcome.client (Sample.GetNodeInfo (Example.panel 500 "v2" 0) c) in
  let users := Outcome.client (Sample.GetUserList (Example.panel 500 "v2" 0) c) in
  (Outcome.requests (Sample.GetNodeInfo (Example.panel 304 "v2" 0) node)
   = [resty.Request.mk "/api/public/xrayr/node/info" 4 "v2"]
   /\ Outcome.ret (Sample.GetNodeInfo (Example.panel 304 "v2" 0) node)
      = inr (ErrorsNew api.NodeNotModified))
  /\ (Outcome.requests (Sample.GetUserList (Example.panel 304 "v2" 0) users)
      = [resty.Request.mk "/api/public/xrayr/user/list" 4 "v2"]
      /\ Outcome.ret (Sample.GetUserList (Example.panel 304 "v2" 0) users)
         = inr (ErrorsNew api.UserNotModified)).
Proof.
  cbv zeta.
  destruct (token_follows_last_response Example.unrepresentable Example.api_text
              Example.json_Marshal_Response Example.json_Marshal_NodeInfoResponse
              Example.json_Unmarshal_NodeInfoResponse Example.json_Unmarshal_UserListResponse
              (Example.panel 500 "v2" 0) (Example.panel 304 "v2" 0)
              (Example.client "V2ray" Example.zero 0)
              (resty.Response.mk 500 {[ "Etag" := "v2" ]} "body" (Response.mk 0 "msg" "node")))
    as [Hn _].
  destruct (token_follows_last_response Example.unrepresentable Example.api_text
              Example.json_Marshal_Response Example.json_Marshal_NodeInfoResponse
              Example.json_Unmarshal_NodeInfoResponse Example.json_Unmarshal_UserListResponse
              (Example.panel 500 "v2" 0) (Example.panel 304 "v2" 0)
              (Example.client "V2ray" Example.zero 0)
              (resty.Response.mk 500 {[ "Etag" := "v2" ]} "body" (Response.mk 0 "msg" "users")))
    as [_ Hu].
  split.
  - destruct (Hn eq_refl ltac:(cbn; lia) ltac:(vm_compute; discriminate))
      as (Hreq & _ & H304).
    split; [exact Hreq|]. apply H304; reflexivity.
  - destruct (Hu eq_refl eq_refl ltac:(cbn; lia) ltac:(vm_compute; discriminate))
      as (Hreq & _ & H304).
    split; [exact Hreq|]. apply H304; reflexivity.
Defined.

(** A session of five calls on a client that holds the node's token
    [n0], and a session of reports only. *)
Lemma session_invariants_witness :
  Describe (FullClient.fields (fst (Scenario.run Scenario.session Scenario.seasoned)))
  = ClientInfo.mk "http://127.0.0.1:3000" 4 "123" "V2ray"
  /\ restyClient.Debug
       (FullClient.client (fst (Scenario.run Scenario.session Scenario.seasoned))) = true
  /\ String.eqb
       (APIClient.eTag
          (FullClient.fields (fst (Scenario.run Scenario.session Scenario.seasoned)))
          "node") EmptyString = false
  /\ (length (snd (Scenario.run Scenario.session Scenario.seasoned)) <= 2)%nat
  /\ FullClient.fields (fst (Scenario.run Scenario.reports Scenario.seasoned))
     = FullClient.fields Scenario.seasoned
  /\ snd (Scenario.run Scenario.reports Scenario.seasoned) = [].
Proof.
  destruct (session_invariants string Example.unrepresentable Example.api_text
              Example.json_Marshal_Response Example.json_Marshal_NodeInfoResponse
              Example.json_Unmarshal_NodeInfoResponse Example.json_Unmarshal_UserListResponse
              Scenario.session Scenario.seasoned)
    as (_ & Hd & _ & _ & _ & _ & _ & Hdebug & _ & Ht & _ & Hl & _).
  destruct (session_invariants string Example.unrepresentable Example.api_text
              Example.json_Marshal_Response Example.json_Marshal_NodeInfoResponse
              Example.json_Unmarshal_NodeInfoResponse Example.json_Unmarshal_UserListResponse
              Scenario.reports Scenario.seasoned)
    as (_ & _ & _ & _ & _ & _ & _ & _ & _ & _ & _ & _ & Hq).
  split; [exact Hd|].
  split; [apply Hdebug; right; apply elem_of_cons; now left|].
  split; [apply String.eqb_neq, Ht; vm_compute; discriminate|].
  split; [exact Hl|].
  apply Hq. unfold Scenario.reports. repeat constructor.
Defined.

(** The five endings: a path that does not open, a pattern that does
    not compile, a read error, a line of 64 KiB, and a file of three
    lines. *)
Lemma readLocalRuleList_endings_witness :
  readLocalRuleList string Example.regexp_Compile Scenario.os_Open "missing"
  = (Returns [], ["Error when opening file: open missing: no such file or directory";
                  "Error when closing file: invalid argument"])
  /\ readLocalRuleList string Example.regexp_Compile Scenario.os_Open "badlist"
     = (Panics "(" "missing closing )", [])
  /\ readLocalRuleList string Example.regexp_Compile Scenario.os_Open "truncated"
     = (Fatal, ["Error while reading file: input/output error"])
  /\ readLocalRuleList string Example.regexp_Compile Scenario.os_Open "longline"
     = (Fatal, ["Error while reading file: bufio.Scanner: token too long"])
  /\ readLocalRuleList string Example.regexp_Compile Scenario.os_Open "rulelist"
     = (Returns [api.DetectRule.mk (-1) "abc"; api.DetectRule.mk (-1) EmptyString;
                 api.DetectRule.mk (-1) "x.*y"], []).
Proof.
  split; [|split; [|split; [|split]]].
  - destruct (readLocalRuleList_endings string Example.regexp_Compile Scenario.os_Open
                "missing" ltac:(discriminate)) as (H & _).
    exact (H _ eq_refl).
  - destruct (readLocalRuleList_endings string Example.regexp_Compile Scenario.os_Open
                "badlist" ltac:(discriminate)) as (_ & H & _).
    destruct (H _ ["abc"; "("; "z"] None eq_refl eq_refl) as (Hp & _).
    exact (Hp ["abc"] "(" ["z"] [api.DetectRule.mk (-1) "abc"] "missing closing )"
             eq_refl ltac:(repeat constructor) eq_refl).
  - destruct (readLocalRuleList_endings string Example.regexp_Compile Scenario.os_Open
                "truncated" ltac:(discriminate)) as (_ & H & _).
    destruct (H _ ["abc"] (Some "input/output error") eq_refl eq_refl) as (_ & Hf & _).
    exact (Hf [api.DetectRule.mk (-1) "abc"] _ ltac:(repeat constructor) eq_refl).
  - destruct (readLocalRuleList_endings string Example.regexp_Compile Scenario.os_Open
                "longline" ltac:(discriminate)) as (_ & _ & H).
    apply (H _ ["abc"] Scenario.long_line ["("] [api.DetectRule.mk (-1) "abc"] eq_refl).
    + change (bufio.split_lines
                ("abc" +:+ String (ascii_of_nat 10)
                   (Scenario.long_line +:+ String (ascii_of_nat 10) "("))
              = ["abc"; Scenario.long_line; "("]).
      rewrite (split_lines_newline "abc" _ eq_refl).
      rewrite (split_lines_newline Scenario.long_line "(" ltac:(vm_compute; reflexivity)).
      reflexivity.
    + repeat constructor.
    + unfold bufio.fits. intros Hlt. apply Z.ltb_lt in Hlt. vm_compute in Hlt.
      discriminate Hlt.
    + repeat constructor.
  - destruct (readLocalRuleList_endings string Example.regexp_Compile Scenario.os_Open
                "rulelist" ltac:(discriminate)) as (_ & H & _).
    destruct (H _ ["abc"; EmptyString; "x.*y"] None eq_refl eq_refl) as (_ & _ & Hr).
    apply (Hr [api.DetectRule.mk (-1) "abc"; api.DetectRule.mk (-1) EmptyString;
               api.DetectRule.mk (-1) "x.*y"] ltac:(repeat constructor) eq_refl).
Defined.

(** The configuration of the package's tests, with a rule file and
    without a timeout; with a timeout of 30 seconds; with a rule file that
    has a bad pattern. *)
Lemma New_contract_witness :
  (exists c,
     New string Example.regexp_Compile Scenario.os_Open (Scenario.config "rulelist" 0)
     = (Returns c, [])
     /\ restyClient.Timeout (FullClient.client c) = 5000000000
     /\ Describe (FullClient.fields (fst (Scenario.run Scenario.session c)))
        = ClientInfo.mk "http://127.0.0.1:3000" 4 "123" "V2ray"
     /\ Forall (fun req => resty.Request.node_id req = 4)
          (snd (Scenario.run Scenario.session c)))
  /\ (exists c,
        New string Example.regexp_Compile Scenario.os_Open (Scenario.config EmptyString 30)
        = (Returns c, [])
        /\ restyClient.Timeout (FullClient.client c) = 30000000000
        /\ FullClient.LocalRuleList c = [])
  /\ fst (New string Example.regexp_Compile Scenario.os_Open (Scenario.config "badlist" 0))
     = Panics "(" "missing closing )".
Proof.
  split; [|split].
  - eexists. split; [vm_compute; reflexivity|].
    destruct (New_contract string Example.regexp_Compile Scenario.os_Open
                Example.unrepresentable Example.api_text Example.json_Marshal_Response
                Example.json_Marshal_NodeInfoResponse Example.json_Unmarshal_NodeInfoResponse
                Example.json_Unmarshal_UserListResponse (Scenario.config "rulelist" 0))
      as (_ & _ & _ & _ & _ & H).
    destruct (H _ [] ltac:(vm_compute; reflexivity)) as (_ & _ & _ & Ht & _ & _ & Hs).
    split; [exact (Ht ltac:(cbn; lia))|].
    destruct (Hs Scenario.session) as (Hd & _ & Hq & _).
    split; [exact Hd | exact Hq].
  - destruct (New_contract string Example.regexp_Compile Scenario.os_Open
                Example.unrepresentable Example.api_text Example.json_Marshal_Response
                Example.json_Marshal_NodeInfoResponse Example.json_Unmarshal_NodeInfoResponse
                Example.json_Unmarshal_UserListResponse (Scenario.config EmptyString 30))
      as (_ & _ & _ & _ & He & H).
    destruct (He eq_refl) as (c & Hc & Hr).
    exists c. split; [exact Hc|].
    destruct (H c [] Hc) as (_ & _ & _ & _ & Ht & _).
    split; [exact (Ht ltac:(cbn; lia)) | exact Hr].
  - destruct (New_contract string Example.regexp_Compile Scenario.os_Open
                Example.unrepresentable Example.api_text Example.json_Marshal_Response
                Example.json_Marshal_NodeInfoResponse Example.json_Unmarshal_NodeInfoResponse
                Example.json_Unmarshal_UserListResponse (Scenario.config "badlist" 0))
      as (Hp & _).
    apply Hp. vm_compute. reflexivity.
Defined.

(** A node limit of -1 Mbps comes out as 2^64 - 125000 bytes per
    second. *)
Lemma panel_speed_limit_range_witness :
  panel_node_speed_limit (-1) = 18446744073709426616
  /\ 2 ^ 63 < panel_node_speed_limit (-1).
Proof.
  destruct (panel_speed_limit_range (-1)) as (_ & _ & H).
  exact (H ltac:(lia)).
Defined.

(** [a@b.com]. *)
Lemma isEmailFormat_shape_witness :
  (exists l r, "a@b.com" = l +:+ "@" +:+ r
               /\ string_forallb not_at l = true /\ string_forallb not_at r = true)
  /\ (6 <= String.length "a@b.com")%nat
  /\ string_forallb (fun c => (N_of_ascii c <? 128)%N) "a@b.com" = true.
Proof. exact (isEmailFormat_shape "a@b.com" eq_refl). Defined.

(** The identity made for [plainuser] is in email format; the one made
    for [john doe] is not. *)
Lemma Email_format_witness :
  let c := Example.client "V2ray" Example.zero 0 in
  isEmailFormat (api.UserInfo.Email (Sample.GetUserList_user c Example.bob)) = true
  /\ isEmailFormat
       (api.UserInfo.Email
          (Sample.GetUserList_user c (UserListResponseItem.mk 3 "uuid-3" "john doe" 0 0)))
     = false.
Proof.
  cbv zeta. split.
  - apply (Email_format Example.unrepresentable (Example.client "V2ray" Example.zero 0)
             Example.bob).
    right. split; [discriminate | reflexivity].
  - apply not_true_is_false. intros H.
    apply (Email_format Example.unrepresentable (Example.client "V2ray" Example.zero 0)
             (UserListResponseItem.mk 3 "uuid-3" "john doe" 0 0)) in H.
    destruct H as [H | [_ H]]; vm_compute in H; discriminate H.
Defined.

(** The users [plainuser] and [plainuser@vpnboard.user] get one
    identity. *)
Lemma Email_collisions_witness :
  let c := Example.client "V2ray" Example.zero 0 in
  let twin := UserListResponseItem.mk 7 "uuid-7" "plainuser@vpnboard.user" 0 0 in
  api.UserInfo.Email (Sample.GetUserList_user c Example.bob)
  = api.UserInfo.Email (Sample.GetUserList_user c twin)
  /\ String.eqb (UserListResponseItem.UserName Example.bob)
       (UserListResponseItem.UserName twin) = false.
Proof.
  cbv zeta.
  destruct (Email_collisions Example.unrepresentable
              (Example.client "V2ray" Example.zero 0) Example.bob
              (UserListResponseItem.mk 7 "uuid-7" "plainuser@vpnboard.user" 0 0))
    as [_ H].
  destruct (H ltac:(discriminate) eq_refl eq_refl) as [Hne He].
  split; [exact He | now apply String.eqb_neq].
Defined.
